(** * Block classification and instanced-mesh batching pipeline

    A shallow embedding of the voxel-world viewer's normalisation step
    ([WorldLoader.processBlocks]), its template factory ([createBlock] and
    the per-category builders), the facade cache ([TextureLoader.loadBlock])
    and the grouping, instancing and sorting passes of [init] in main.js,
    together with the properties stated about them.

    Conventions of the embedding.
    - JavaScript strings are [string]; the methods [includes], [startsWith],
      [endsWith], [split] and the first-match [replace] are written out.
    - Integer block coordinates and the slab [data] code are [Z]; the 32-bit
      conversion performed by the [&] operator is written out.
    - Lengths, texture coordinates and positions are exact rationals [Q];
      angles are rationals in units of pi (so [1 # 4] is [Math.PI / 4]).
    - A JavaScript [Map] that is only looked up is a [gmap]; a [Map] whose
      iteration order matters is an association list in insertion order.
    - A rejected promise or a thrown exception is the [Throw] result. *)

From Stdlib Require Import ZArith QArith String Ascii List Bool Lia.
From Stdlib Require Import Permutation Sorted DecimalString DecimalZ.
From stdpp Require Import gmap sorting.
Import ListNotations.
Set Warnings "-register-all".
Local Open Scope string_scope.
Local Open Scope Z_scope.

(** ** JavaScript string methods *)

Module JSString.

(** [s.startsWith(p)] *)
Definition startsWith (s p : string) : bool := String.prefix p s.

(** [s.includes(sub)] *)
Fixpoint includes (s sub : string) : bool :=
  String.prefix sub s ||
  match s with
  | EmptyString => false
  | String _ s' => includes s' sub
  end.

(** [s.endsWith(suf)] *)
Definition endsWith (s suf : string) : bool :=
  let n := String.length s in
  let k := String.length suf in
  (k <=? n)%nat && String.eqb (String.substring (n - k) k s) suf.

(** [s.substring(n)] *)
Fixpoint drop (n : nat) (s : string) : string :=
  match n, s with
  | O, _ => s
  | S n', String _ s' => drop n' s'
  | S _, EmptyString => EmptyString
  end.

(** [s.split(c)] for a one-character separator. *)
Fixpoint split (c : ascii) (s : string) : list string :=
  match s with
  | EmptyString => [EmptyString]
  | String a s' =>
      if Ascii.eqb a c then EmptyString :: split c s'
      else match split c s' with
           | h :: t => String a h :: t
           | [] => [String a EmptyString]
           end
  end.

(** [parts.join(sep)] *)
Fixpoint join (sep : string) (parts : list string) : string :=
  match parts with
  | [] => EmptyString
  | [p] => p
  | p :: rest => p ++ sep ++ join sep rest
  end.

(** The first alternative of [alts] that is a prefix of [s]. *)
Fixpoint firstPrefix (alts : list string) (s : string) : option string :=
  match alts with
  | [] => None
  | a :: rest => if String.prefix a s then Some a else firstPrefix rest s
  end.

(** [s.replace(/(a1|a2|...)/, rep)]: the leftmost position at which some
    alternative matches, the alternatives tried in order there. *)
Fixpoint replaceFirst (alts : list string) (rep : string) (s : string) : string :=
  match firstPrefix alts s with
  | Some a => rep ++ drop (String.length a) s
  | None =>
      match s with
      | EmptyString => EmptyString
      | String c s' => String c (replaceFirst alts rep s')
      end
  end.

(** [o || d] for a string-valued field: undefined and the empty string
    are falsy. *)
Definition orDefault (o : option string) (d : string) : string :=
  match o with
  | Some s => if String.eqb s EmptyString then d else s
  | None => d
  end.

End JSString.
Import JSString.

(** ** JavaScript values and 32-bit integer operators *)

Inductive JSVal : Type :=
| JUndefined
| JNull
| JBool (b : bool)
| JNum (n : Z)
| JStr (s : string).

(** [v === 'true'] *)
Definition isStringTrue (v : JSVal) : bool :=
  match v with
  | JStr s => String.eqb s "true"
  | _ => false
  end.

(** [v === true || v === 'true'] *)
Definition isTrueOrStringTrue (v : JSVal) : bool :=
  match v with
  | JBool true => true
  | JStr s => String.eqb s "true"
  | _ => false
  end.

(** [ToInt32] on an integer: reduction modulo 2^32 into the signed range. *)
Definition ToInt32 (n : Z) : Z :=
  let m := n mod 2 ^ 32 in
  if 2 ^ 31 <=? m then m - 2 ^ 32 else m.

(** [a & b] *)
Definition bitand (a b : Z) : Z := Z.land (ToInt32 a) (ToInt32 b).

(** ** Block records *)

Record ExtraData := { ed_isUpperSlab : option bool }.

Record StairData := {
  sd_facing : option string;
  sd_half : option string;
  sd_shape : option string
}.

Record TrapdoorState := {
  ts_open : JSVal;
  ts_half : option string;
  ts_facing : option string
}.

(** The render attributes main.js attaches to cobwebs. *)
Record WebRender := {
  wr_texture : string;
  wr_renderType : string;
  wr_transparent : bool;
  wr_opacity : Q;
  wr_alphaTest : Q;
  wr_doubleSided : bool;
  wr_isCross : bool
}.

(** One record of the world snapshot.  An absent field is [None]
    ([false] for the two marker flags). *)
Record Block := {
  type : string;
  x : Z;
  y : Z;
  z : Z;
  data : option Z;
  isUpperSlab : option bool;
  extra_data : option ExtraData;
  stairData : option StairData;
  facing : option string;
  half : option string;
  shape : option string;
  trapdoorState : option TrapdoorState;
  color : option string;
  connections : option (list (string * JSVal));
  hanging : option bool;
  material : option string;
  originalData : option Z;
  originalType : option string;
  is_double_plant_bottom : bool;
  is_double_plant_top : bool;
  web : option WebRender
}.

(** [{ type: t, x, y, z }] *)
Definition plainBlock (t : string) (bx by_ bz : Z) : Block :=
  {| type := t; x := bx; y := by_; z := bz; data := None; isUpperSlab := None;
     extra_data := None; stairData := None; facing := None; half := None;
     shape := None; trapdoorState := None; color := None; connections := None;
     hanging := None; material := None; originalData := None;
     originalType := None; is_double_plant_bottom := false;
     is_double_plant_top := false; web := None |}.

(** Object-spread updates [{ ...block, field: value }], one per field the
    code overrides. *)

Definition set_type (v : string) (b : Block) : Block :=
  {| type := v; x := b.(x); y := b.(y); z := b.(z); data := b.(data);
     isUpperSlab := b.(isUpperSlab); extra_data := b.(extra_data);
     stairData := b.(stairData); facing := b.(facing); half := b.(half);
     shape := b.(shape); trapdoorState := b.(trapdoorState);
     color := b.(color); connections := b.(connections);
     hanging := b.(hanging); material := b.(material);
     originalData := b.(originalData); originalType := b.(originalType);
     is_double_plant_bottom := b.(is_double_plant_bottom);
     is_double_plant_top := b.(is_double_plant_top); web := b.(web) |}.

Definition set_x (v : Z) (b : Block) : Block :=
  {| type := b.(type); x := v; y := b.(y); z := b.(z); data := b.(data);
     isUpperSlab := b.(isUpperSlab); extra_data := b.(extra_data);
     stairData := b.(stairData); facing := b.(facing); half := b.(half);
     shape := b.(shape); trapdoorState := b.(trapdoorState);
     color := b.(color); connections := b.(connections);
     hanging := b.(hanging); material := b.(material);
     originalData := b.(originalData); originalType := b.(originalType);
     is_double_plant_bottom := b.(is_double_plant_bottom);
     is_double_plant_top := b.(is_double_plant_top); web := b.(web) |}.

Definition set_z (v : Z) (b : Block) : Block :=
  {| type := b.(type); x := b.(x); y := b.(y); z := v; data := b.(data);
     isUpperSlab := b.(isUpperSlab); extra_data := b.(extra_data);
     stairData := b.(stairData); facing := b.(facing); half := b.(half);
     shape := b.(shape); trapdoorState := b.(trapdoorState);
     color := b.(color); connections := b.(connections);
     hanging := b.(hanging); material := b.(material);
     originalData := b.(originalData); originalType := b.(originalType);
     is_double_plant_bottom := b.(is_double_plant_bottom);
     is_double_plant_top := b.(is_double_plant_top); web := b.(web) |}.

Definition set_isUpperSlab (v : option bool) (b : Block) : Block :=
  {| type := b.(type); x := b.(x); y := b.(y); z := b.(z); data := b.(data);
     isUpperSlab := v; extra_data := b.(extra_data);
     stairData := b.(stairData); facing := b.(facing); half := b.(half);
     shape := b.(shape); trapdoorState := b.(trapdoorState);
     color := b.(color); connections := b.(connections);
     hanging := b.(hanging); material := b.(material);
     originalData := b.(originalData); originalType := b.(originalType);
     is_double_plant_bottom := b.(is_double_plant_bottom);
     is_double_plant_top := b.(is_double_plant_top); web := b.(web) |}.

Definition set_facing (v : option string) (b : Block) : Block :=
  {| type := b.(type); x := b.(x); y := b.(y); z := b.(z); data := b.(data);
     isUpperSlab := b.(isUpperSlab); extra_data := b.(extra_data);
     stairData := b.(stairData); facing := v; half := b.(half);
     shape := b.(shape); trapdoorState := b.(trapdoorState);
     color := b.(color); connections := b.(connections);
     hanging := b.(hanging); material := b.(material);
     originalData := b.(originalData); originalType := b.(originalType);
     is_double_plant_bottom := b.(is_double_plant_bottom);
     is_double_plant_top := b.(is_double_plant_top); web := b.(web) |}.

Definition set_half (v : option string) (b : Block) : Block :=
  {| type := b.(type); x := b.(x); y := b.(y); z := b.(z); data := b.(data);
     isUpperSlab := b.(isUpperSlab); extra_data := b.(extra_data);
     stairData := b.(stairData); facing := b.(facing); half := v;
     shape := b.(shape); trapdoorState := b.(trapdoorState);
     color := b.(color); connections := b.(connections);
     hanging := b.(hanging); material := b.(material);
     originalData := b.(originalData); originalType := b.(originalType);
     is_double_plant_bottom := b.(is_double_plant_bottom);
     is_double_plant_top := b.(is_double_plant_top); web := b.(web) |}.

Definition set_shape (v : option string) (b : Block) : Block :=
  {| type := b.(type); x := b.(x); y := b.(y); z := b.(z); data := b.(data);
     isUpperSlab := b.(isUpperSlab); extra_data := b.(extra_data);
     stairData := b.(stairData); facing := b.(facing); half := b.(half);
     shape := v; trapdoorState := b.(trapdoorState); color := b.(color);
     connections := b.(connections); hanging := b.(hanging);
     material := b.(material); originalData := b.(originalData);
     originalType := b.(originalType);
     is_double_plant_bottom := b.(is_double_plant_bottom);
     is_double_plant_top := b.(is_double_plant_top); web := b.(web) |}.

Definition set_trapdoorState (v : option TrapdoorState) (b : Block) : Block :=
  {| type := b.(type); x := b.(x); y := b.(y); z := b.(z); data := b.(data);
     isUpperSlab := b.(isUpperSlab); extra_data := b.(extra_data);
     stairData := b.(stairData); facing := b.(facing); half := b.(half);
     shape := b.(shape); trapdoorState := v; color := b.(color);
     connections := b.(connections); hanging := b.(hanging);
     material := b.(material); originalData := b.(originalData);
     originalType := b.(originalType);
     is_double_plant_bottom := b.(is_double_plant_bottom);
     is_double_plant_top := b.(is_double_plant_top); web := b.(web) |}.

Definition set_color (v : option string) (b : Block) : Block :=
  {| type := b.(type); x := b.(x); y := b.(y); z := b.(z); data := b.(data);
     isUpperSlab := b.(isUpperSlab); extra_data := b.(extra_data);
     stairData := b.(stairData); facing := b.(facing); half := b.(half);
     shape := b.(shape); trapdoorState := b.(trapdoorState); color := v;
     connections := b.(connections); hanging := b.(hanging);
     material := b.(material); originalData := b.(originalData);
     originalType := b.(originalType);
     is_double_plant_bottom := b.(is_double_plant_bottom);
     is_double_plant_top := b.(is_double_plant_top); web := b.(web) |}.

Definition set_material (v : option string) (b : Block) : Block :=
  {| type := b.(type); x := b.(x); y := b.(y); z := b.(z); data := b.(data);
     isUpperSlab := b.(isUpperSlab); extra_data := b.(extra_data);
     stairData := b.(stairData); facing := b.(facing); half := b.(half);
     shape := b.(shape); trapdoorState := b.(trapdoorState);
     color := b.(color); connections := b.(connections);
     hanging := b.(hanging); material := v; originalData := b.(originalData);
     originalType := b.(originalType);
     is_double_plant_bottom := b.(is_double_plant_bottom);
     is_double_plant_top := b.(is_double_plant_top); web := b.(web) |}.

Definition set_originalData (v : option Z) (b : Block) : Block :=
  {| type := b.(type); x := b.(x); y := b.(y); z := b.(z); data := b.(data);
     isUpperSlab := b.(isUpperSlab); extra_data := b.(extra_data);
     stairData := b.(stairData); facing := b.(facing); half := b.(half);
     shape := b.(shape); trapdoorState := b.(trapdoorState);
     color := b.(color); connections := b.(connections);
     hanging := b.(hanging); material := b.(material); originalData := v;
     originalType := b.(originalType);
     is_double_plant_bottom := b.(is_double_plant_bottom);
     is_double_plant_top := b.(is_double_plant_top); web := b.(web) |}.

Definition set_originalType (v : option string) (b : Block) : Block :=
  {| type := b.(type); x := b.(x); y := b.(y); z := b.(z); data := b.(data);
     isUpperSlab := b.(isUpperSlab); extra_data := b.(extra_data);
     stairData := b.(stairData); facing := b.(facing); half := b.(half);
     shape := b.(shape); trapdoorState := b.(trapdoorState);
     color := b.(color); connections := b.(connections);
     hanging := b.(hanging); material := b.(material);
     originalData := b.(originalData); originalType := v;
     is_double_plant_bottom := b.(is_double_plant_bottom);
     is_double_plant_top := b.(is_double_plant_top); web := b.(web) |}.

Definition set_is_double_plant_bottom (v : bool) (b : Block) : Block :=
  {| type := b.(type); x := b.(x); y := b.(y); z := b.(z); data := b.(data);
     isUpperSlab := b.(isUpperSlab); extra_data := b.(extra_data);
     stairData := b.(stairData); facing := b.(facing); half := b.(half);
     shape := b.(shape); trapdoorState := b.(trapdoorState);
     color := b.(color); connections := b.(connections);
     hanging := b.(hanging); material := b.(material);
     originalData := b.(originalData); originalType := b.(originalType);
     is_double_plant_bottom := v;
     is_double_plant_top := b.(is_double_plant_top); web := b.(web) |}.

Definition set_web (v : option WebRender) (b : Block) : Block :=
  {| type := b.(type); x := b.(x); y := b.(y); z := b.(z); data := b.(data);
     isUpperSlab := b.(isUpperSlab); extra_data := b.(extra_data);
     stairData := b.(stairData); facing := b.(facing); half := b.(half);
     shape := b.(shape); trapdoorState := b.(trapdoorState);
     color := b.(color); connections := b.(connections);
     hanging := b.(hanging); material := b.(material);
     originalData := b.(originalData); originalType := b.(originalType);
     is_double_plant_bottom := b.(is_double_plant_bottom);
     is_double_plant_top := b.(is_double_plant_top); web := v |}.

(** ** WorldLoader.processBlocks (materialFactory.js) *)

Module WorldLoader.

(** The key of [blockMap].  The source builds the string
    [`${x},${y},${z}`], which is injective on integer coordinates; the
    triple stands for it. *)
Definition Key : Type := (Z * Z * Z)%type.

Definition keyOf (bx by_ bz : Z) : Key := (bx, by_, bz).

(** [blockMap]: position key to record, [None] standing for the [null]
    written over a consumed position. *)
Definition buildBlockMap (blocks : list Block) : gmap Key (option Block) :=
  fold_left (fun m b => <[keyOf b.(x) b.(y) b.(z) := Some b]> m) blocks ∅.

(** [blockMap.get(key) === null] *)
Definition isNull (m : gmap Key (option Block)) (k : Key) : bool :=
  match m !! k with
  | Some None => true
  | _ => false
  end.

(** The plant type of a double plant: third [_]-separated part of the
    type, ['grass'] when there is none. *)
Definition plantTypeOf (t : string) : string :=
  let parts := split "_"%char t in
  if (2 <? length parts)%nat then nth 2 parts "grass" else "grass".

(** The [switch (materialBits)] of the generic slab branch. *)
Definition slabTypeOfBits (materialBits : Z) : string :=
  match materialBits with
  | 0 => "stone_slab"
  | 1 => "sandstone_slab"
  | 2 => "oak_slab"
  | 3 => "cobblestone_slab"
  | 4 => "brick_slab"
  | 5 => "stone_brick_slab"
  | 6 => "nether_brick_slab"
  | 7 => "quartz_slab"
  | _ => "stone_slab"
  end.

(** [slabType] of a generic slab with the given [data] field. *)
Definition slabTypeOfData (d : option Z) : string :=
  match d with
  | Some v => slabTypeOfBits (bitand v 7)
  | None => "stone_slab"
  end.

(** [block.isUpperSlab === true || block.extra_data?.isUpperSlab === true] *)
Definition upperFlag (b : Block) : bool :=
  match b.(isUpperSlab) with
  | Some true => true
  | _ =>
      match b.(extra_data) with
      | Some e => match e.(ed_isUpperSlab) with Some true => true | _ => false end
      | None => false
      end
  end.

Definition doublePlantBottom (b : Block) : Block :=
  set_is_double_plant_bottom true
    (set_type ("double_plant_" ++ plantTypeOf b.(type) ++ "_bottom") b).

Definition doublePlantTop (b : Block) : Block :=
  {| type := "double_plant_" ++ plantTypeOf b.(type) ++ "_top";
     x := b.(x); y := b.(y) + 1; z := b.(z);
     data := None; isUpperSlab := None; extra_data := None;
     stairData := None; facing := None; half := None; shape := None;
     trapdoorState := None; color := None; connections := None;
     hanging := None; material := None; originalData := None;
     originalType := None; is_double_plant_bottom := false;
     is_double_plant_top := true; web := None |}.

Definition genericSlab (b : Block) : Block :=
  set_originalType (Some "slab")
    (set_originalData b.(data)
       (set_isUpperSlab (Some (upperFlag b))
          (set_type (slabTypeOfData b.(data)) b))).

Definition specificSlab (b : Block) : Block :=
  set_originalData b.(data) (set_isUpperSlab (Some (upperFlag b)) b).

(** [block.stairData || {}] *)
Definition stairDataOf (b : Block) : StairData :=
  match b.(stairData) with
  | Some sd => sd
  | None => {| sd_facing := None; sd_half := None; sd_shape := None |}
  end.

Definition withStairData (b : Block) : Block :=
  let sd := stairDataOf b in
  set_shape sd.(sd_shape) (set_half sd.(sd_half) (set_facing sd.(sd_facing) b)).

Definition genericStairs (b : Block) : Block :=
  set_originalType (Some "stairs") (withStairData (set_type "spruce_stairs" b)).

Definition defaultTrapdoorState : TrapdoorState :=
  {| ts_open := JBool false; ts_half := Some "bottom"; ts_facing := Some "north" |}.

Definition withTrapdoorState (b : Block) : Block :=
  match b.(trapdoorState) with
  | Some st => set_trapdoorState (Some st) b
  | None => set_trapdoorState (Some defaultTrapdoorState) b
  end.

Definition coloredBlock (b : Block) : Block :=
  set_color (Some (orDefault b.(color) "white")) (set_type b.(type) b).

(** The records one loop iteration pushes for a record that is not
    skipped: the [if / else if] cascade of the loop body. *)
Definition processBlock (b : Block) : list Block :=
  let t := b.(type) in
  if includes t "double_plant" then [doublePlantBottom b; doublePlantTop b]
  else if includes t "_slab" || String.eqb t "slab" then
    if String.eqb t "slab" then [genericSlab b] else [specificSlab b]
  else if includes t "_stairs" || String.eqb t "stairs" then
    if String.eqb t "stairs" then [genericStairs b] else [withStairData b]
  else if includes t "_trapdoor" || String.eqb t "trapdoor" then
    [withTrapdoorState b]
  else if includes t "concrete" || includes t "wool" then [coloredBlock b]
  else [b].

(** The loop state: [blockMap] and [processedBlocks]. *)
Definition LoopState : Type := (gmap Key (option Block) * list Block)%type.

(** One iteration of [for (const block of blocks)]. *)
Definition processStep (st : LoopState) (b : Block) : LoopState :=
  let '(m, out) := st in
  if isNull m (keyOf b.(x) b.(y) b.(z)) then st
  else if includes b.(type) "double_plant" then
    (<[keyOf b.(x) (b.(y) + 1) b.(z) := None]> m, (out ++ processBlock b)%list)
  else (m, (out ++ processBlock b)%list).

Definition processBlocks (blocks : list Block) : list Block :=
  snd (fold_left processStep blocks (buildBlockMap blocks, [])).

End WorldLoader.

(** ** The scene-graph library, as far as the builders use it

    Geometries are built as three.js builds them (vertex order, texture
    coordinates, index).  Shadow flags, filtering modes and the names of
    the children of a group are not modelled: nothing below depends on
    them. *)

Module THREE.

Definition Vec3 : Type := (Q * Q * Q)%type.
Definition Vec2 : Type := (Q * Q)%type.

Inductive Texture : Type :=
| LoadedTexture (path : string)
| CanvasTexture.  (* the 16x16 magenta and black checkerboard *)

Inductive Side : Type := FrontSide | DoubleSide.

(** [MeshStandardMaterial]: the parameters the builders set. *)
Record Material := {
  mat_map : option Texture;
  mat_color : Z;
  mat_wireframe : bool;
  mat_transparent : bool;
  mat_opacity : Q;
  mat_alphaTest : Q;
  mat_side : Side;
  mat_visible : bool;
  mat_emissive : Z;
  mat_emissiveIntensity : Q;
  mat_roughness : Q;
  mat_metalness : Q
}.

(** [new THREE.MeshStandardMaterial({ map, transparent, alphaTest,
    opacity, color, side })] with roughness 1 and metalness 0. *)
Definition standardMaterial (tex : option Texture) (transparent : bool)
    (alphaTest opacity : Q) (color : Z) (side : Side) : Material :=
  {| mat_map := tex; mat_color := color; mat_wireframe := false;
     mat_transparent := transparent; mat_opacity := opacity;
     mat_alphaTest := alphaTest; mat_side := side; mat_visible := true;
     mat_emissive := 0; mat_emissiveIntensity := 1;
     mat_roughness := 1; mat_metalness := 0 |}.

Definition setColor (c : Z) (m : Material) : Material :=
  {| mat_map := m.(mat_map); mat_color := c;
     mat_wireframe := m.(mat_wireframe);
     mat_transparent := m.(mat_transparent); mat_opacity := m.(mat_opacity);
     mat_alphaTest := m.(mat_alphaTest); mat_side := m.(mat_side);
     mat_visible := m.(mat_visible); mat_emissive := m.(mat_emissive);
     mat_emissiveIntensity := m.(mat_emissiveIntensity);
     mat_roughness := m.(mat_roughness); mat_metalness := m.(mat_metalness) |}.

(** The invisible material of the door and torch placeholders. *)
Definition invisibleMaterial : Material :=
  {| mat_map := None; mat_color := 0xffffff; mat_wireframe := false;
     mat_transparent := true; mat_opacity := 0; mat_alphaTest := 0;
     mat_side := FrontSide; mat_visible := false; mat_emissive := 0;
     mat_emissiveIntensity := 1; mat_roughness := 1; mat_metalness := 0 |}.

(** The lantern materials carry an emissive colour. *)
Definition emissiveMaterial (tex : option Texture) (transparent : bool)
    (alphaTest : Q) (color emissive : Z) (intensity : Q) : Material :=
  {| mat_map := tex; mat_color := color; mat_wireframe := false;
     mat_transparent := transparent; mat_opacity := 1;
     mat_alphaTest := alphaTest; mat_side := FrontSide; mat_visible := true;
     mat_emissive := emissive; mat_emissiveIntensity := intensity;
     mat_roughness := 1; mat_metalness := 0 |}.

(** A mesh holds one material or an array of materials. *)
Inductive MeshMaterial : Type :=
| Single (m : Material)
| Multi (ms : list Material).

(** [BufferGeometry]: position and uv attributes and the index. *)
Record Geometry := {
  positions : list Vec3;
  uvs : list Vec2;
  index : list nat
}.

Inductive Axis : Type := AX | AY | AZ.

Definition setAxis (a : Axis) (v : Q) (p : Vec3) : Vec3 :=
  let '(px, py, pz) := p in
  match a with
  | AX => (v, py, pz)
  | AY => (px, v, pz)
  | AZ => (px, py, v)
  end.

Definition ofNat (n : nat) : Q := inject_Z (Z.of_nat n).

(** [buildPlane] of [BoxGeometry]: one face as a grid of
    [(gridX + 1) * (gridY + 1)] vertices. *)
Definition buildPlane (u v w : Axis) (udir vdir : Q)
    (width height depth : Q) (gridX gridY : nat) (start : nat) : Geometry :=
  let gridX1 := S gridX in
  let segW := (width / ofNat gridX)%Q in
  let segH := (height / ofNat gridY)%Q in
  let vertexAt (iy ix : nat) : Vec3 :=
    let xv := (ofNat ix * segW - width / 2)%Q in
    let yv := (ofNat iy * segH - height / 2)%Q in
    setAxis w (Qred (depth / 2))
      (setAxis v (Qred (yv * vdir)) (setAxis u (Qred (xv * udir)) (0, 0, 0)%Q)) in
  let uvAt (iy ix : nat) : Vec2 :=
    (Qred (ofNat ix / ofNat gridX), Qred (1 - ofNat iy / ofNat gridY))%Q in
  let rows := seq 0 (S gridY) in
  let cols := seq 0 gridX1 in
  {| positions := flat_map (fun iy => List.map (vertexAt iy) cols) rows;
     uvs := flat_map (fun iy => List.map (uvAt iy) cols) rows;
     index :=
       flat_map (fun iy =>
         flat_map (fun ix =>
           let a := (start + ix + gridX1 * iy)%nat in
           let b := (start + ix + gridX1 * (iy + 1))%nat in
           let c := (start + (ix + 1) + gridX1 * (iy + 1))%nat in
           let d := (start + (ix + 1) + gridX1 * iy)%nat in
           [a; b; d; b; c; d]) (seq 0 gridX)) (seq 0 gridY) |}.

Definition appendGeometry (g1 g2 : Geometry) : Geometry :=
  {| positions := (g1.(positions) ++ g2.(positions))%list;
     uvs := (g1.(uvs) ++ g2.(uvs))%list;
     index := (g1.(index) ++ g2.(index))%list |}.

Definition emptyGeometry : Geometry :=
  {| positions := []; uvs := []; index := [] |}.

(** [new THREE.BoxGeometry(width, height, depth, segs, segs, segs)]:
    the faces +x, -x, +y, -y, +z, -z in that order. *)
Definition BoxGeometrySeg (width height depth : Q) (segs : nat) : Geometry :=
  let face (g : Geometry) (mk : nat -> Geometry) : Geometry :=
    appendGeometry g (mk (length g.(positions))) in
  let g1 := face emptyGeometry
              (buildPlane AZ AY AX (-1) (-1) depth height width segs segs) in
  let g2 := face g1 (buildPlane AZ AY AX 1 (-1) depth height (- width) segs segs) in
  let g3 := face g2 (buildPlane AX AZ AY 1 1 width depth height segs segs) in
  let g4 := face g3 (buildPlane AX AZ AY 1 (-1) width depth (- height) segs segs) in
  let g5 := face g4 (buildPlane AX AY AZ 1 (-1) width height depth segs segs) in
  face g5 (buildPlane AX AY AZ (-1) (-1) width height (- depth) segs segs).

Definition BoxGeometry (width height depth : Q) : Geometry :=
  BoxGeometrySeg width height depth 1.

(** [new THREE.PlaneGeometry(width, height)] *)
Definition PlaneGeometry (width height : Q) : Geometry :=
  {| positions :=
       [ (Qred (- width / 2), Qred (height / 2), 0);
         (Qred (width / 2), Qred (height / 2), 0);
         (Qred (- width / 2), Qred (- height / 2), 0);
         (Qred (width / 2), Qred (- height / 2), 0) ]%Q;
     uvs := [ (0, 1); (1, 1); (0, 0); (1, 0) ]%Q;
     index := [0; 2; 1; 2; 3; 1]%nat |}.

(** [geometry.translate(dx, dy, dz)] *)
Definition translate (dx dy dz : Q) (g : Geometry) : Geometry :=
  {| positions :=
       List.map (fun '(px, py, pz) =>
                   (Qred (px + dx), Qred (py + dy), Qred (pz + dz))%Q)
                g.(positions);
     uvs := g.(uvs);
     index := g.(index) |}.

(** [geometry.rotateY(Math.PI / 2)], exact: (x, y, z) goes to (z, y, -x). *)
Definition rotateYQuarter (g : Geometry) : Geometry :=
  {| positions :=
       List.map (fun '(px, py, pz) => (pz, py, Qred (- px))%Q) g.(positions);
     uvs := g.(uvs);
     index := g.(index) |}.

(** [geometry.setAttribute('uv', ...)] *)
Definition setUV (uv : list Vec2) (g : Geometry) : Geometry :=
  {| positions := g.(positions); uvs := uv; index := g.(index) |}.

(** The slab marks a mesh carries in [userData]. *)
Record UserData := {
  ud_isSlab : bool;
  ud_isUpperSlab : bool;
  ud_slabType : option string
}.

Definition noUserData : UserData :=
  {| ud_isSlab := false; ud_isUpperSlab := false; ud_slabType := None |}.

Record PointLight := {
  pl_color : Z;
  pl_intensity : Q;
  pl_distance : Q;
  pl_decay : Q;
  pl_castShadow : bool
}.

(** Scene-graph nodes.  Rotations are Euler angles in units of pi. *)
Inductive Object3D : Type :=
| Mesh (name : string) (geometry : Geometry) (material : MeshMaterial)
       (position rotation scale : Vec3) (userData : UserData)
| Group (name : string) (children : list Object3D) (position rotation : Vec3)
| Light (l : PointLight) (position : Vec3).

Definition origin : Vec3 := (0, 0, 0)%Q.
Definition unitScale : Vec3 := (1, 1, 1)%Q.

(** [new THREE.Mesh(geometry, material)] with a name. *)
Definition mesh (name : string) (g : Geometry) (m : MeshMaterial) : Object3D :=
  Mesh name g m origin origin unitScale noUserData.

(** A mesh placed and turned inside a group. *)
Definition meshAt (g : Geometry) (m : MeshMaterial) (pos rot : Vec3) : Object3D :=
  Mesh EmptyString g m pos rot unitScale noUserData.

Definition isGroup (o : Object3D) : bool :=
  match o with Group _ _ _ _ => true | _ => false end.

Definition six (m : Material) : MeshMaterial := Multi [m; m; m; m; m; m].

End THREE.
Import THREE.

(** ** Failure, shared caches and the random source *)

Inductive Error : Type :=
| TextureLoadError (path : string)
| ReferenceError (identifier : string).

Inductive Result (A : Type) : Type :=
| Ok (a : A)
| Throw (e : Error).
Arguments Ok {A} a.
Arguments Throw {A} e.

(** An entry of [BLOCK_PROPERTIES]. *)
Record Properties := {
  category : option string;
  p_transparent : option bool;
  alphaCutoff : option Q;
  p_opacity : option Q;
  p_color : option Z;
  tintColor : option Z
}.

Definition noProperties : Properties :=
  {| category := None; p_transparent := None; alphaCutoff := None;
     p_opacity := None; p_color := None; tintColor := None |}.

(** An entry of [SPECIAL_TEXTURE_MAPPINGS]. *)
Record TextureMapping := {
  tm_top : option string;
  tm_bottom : option string;
  tm_side : option string;
  tm_default : option string
}.

(** What the builders read from outside themselves.
    - [textureLoads path]: whether the image at [path] loads; when it does
      not, [loadTexture] rejects.
    - [getTexturePath type face] (textureManager.js) and the two tables of
      blockData.js are parameters: the properties below hold for every
      table content.
    - [random n]: the value of the [n]-th call of [Math.random()]. *)
Record Env := {
  textureLoads : string -> bool;
  getTexturePath : string -> string -> string;
  BLOCK_PROPERTIES : string -> option Properties;
  SPECIAL_TEXTURE_MAPPINGS : string -> option TextureMapping;
  random : nat -> Q
}.

(** The module-level caches, the facade's [blockCache] and the number of
    [Math.random()] calls made so far. *)
Record Store := {
  geometryCache : gmap string Geometry;
  slabGeometryCache : gmap string Geometry;
  stairGeometryCache : gmap string Geometry;
  blockCache : gmap string Object3D;
  randomCalls : nat
}.

Definition emptyStore : Store :=
  {| geometryCache := ∅; slabGeometryCache := ∅; stairGeometryCache := ∅;
     blockCache := ∅; randomCalls := 0 |}.

(** Computations that read and write the store and may throw; the store
    written before a throw is kept. *)
Definition M (A : Type) : Type := Store -> Result A * Store.

Definition ret {A} (a : A) : M A := fun s => (Ok a, s).

Definition throw {A} (e : Error) : M A := fun s => (Throw e, s).

Definition bind {A B} (c : M A) (k : A -> M B) : M B :=
  fun s =>
    match c s with
    | (Ok a, s') => k a s'
    | (Throw e, s') => (Throw e, s')
    end.

(** [try { body } catch (error) { handler }] *)
Definition tryCatch {A} (body : M A) (handler : Error -> M A) : M A :=
  fun s =>
    match body s with
    | (Ok a, s') => (Ok a, s')
    | (Throw e, s') => handler e s'
    end.

Declare Scope js_scope.
Delimit Scope js_scope with js.
Notation "'let*' x ':=' c 'in' k" := (bind c (fun x => k))
  (at level 10, x name, c at level 100, k at level 200) : js_scope.
Local Open Scope js_scope.

(** [Math.random()] *)
Definition mathRandom (env : Env) : M Q :=
  fun s =>
    (Ok (env.(random) s.(randomCalls)),
     {| geometryCache := s.(geometryCache);
        slabGeometryCache := s.(slabGeometryCache);
        stairGeometryCache := s.(stairGeometryCache);
        blockCache := s.(blockCache);
        randomCalls := S s.(randomCalls) |}).

Definition setGeometryCache (c : gmap string Geometry) (s : Store) : Store :=
  {| geometryCache := c; slabGeometryCache := s.(slabGeometryCache);
     stairGeometryCache := s.(stairGeometryCache);
     blockCache := s.(blockCache); randomCalls := s.(randomCalls) |}.

Definition setSlabGeometryCache (c : gmap string Geometry) (s : Store) : Store :=
  {| geometryCache := s.(geometryCache); slabGeometryCache := c;
     stairGeometryCache := s.(stairGeometryCache);
     blockCache := s.(blockCache); randomCalls := s.(randomCalls) |}.

Definition setStairGeometryCache (c : gmap string Geometry) (s : Store) : Store :=
  {| geometryCache := s.(geometryCache);
     slabGeometryCache := s.(slabGeometryCache); stairGeometryCache := c;
     blockCache := s.(blockCache); randomCalls := s.(randomCalls) |}.

Definition setBlockCache (c : gmap string Object3D) (s : Store) : Store :=
  {| geometryCache := s.(geometryCache);
     slabGeometryCache := s.(slabGeometryCache);
     stairGeometryCache := s.(stairGeometryCache);
     blockCache := c; randomCalls := s.(randomCalls) |}.

(** [if (cache.has(key)) return cache.get(key); ... cache.set(key, g)] *)
Definition cached (get : Store -> gmap string Geometry)
    (set : gmap string Geometry -> Store -> Store)
    (key : string) (build : Geometry) : M Geometry :=
  fun s =>
    match get s !! key with
    | Some g => (Ok g, s)
    | None => (Ok build, set (<[key := build]> (get s)) s)
    end.

(** ** textureManager.js *)

(** [loadTexture(path)].  The texture cache only remembers textures that
    loaded, so it does not change what a call returns and is left out. *)
Definition loadTexture (env : Env) (path : string) : M Texture :=
  if env.(textureLoads) path then ret (LoadedTexture path)
  else throw (TextureLoadError path).

Definition stripWaxedPrefix (blockType : string) : string :=
  if startsWith blockType "waxed_" then drop 6 blockType else blockType.

(** The textures a loader hands back: the fields that are set. *)
Record Textures := {
  texture : option Texture;
  topTexture : option Texture;
  bottomTexture : option Texture;
  sideTexture : option Texture;
  endTexture : option Texture;
  lowerTexture : option Texture;
  upperTexture : option Texture
}.

Definition noTextures : Textures :=
  {| texture := None; topTexture := None; bottomTexture := None;
     sideTexture := None; endTexture := None; lowerTexture := None;
     upperTexture := None |}.

Definition uniformTextures (t : Texture) : Textures :=
  {| texture := Some t; topTexture := None; bottomTexture := None;
     sideTexture := None; endTexture := None; lowerTexture := None;
     upperTexture := None |}.

Definition tbsTextures (top bottom side : Texture) : Textures :=
  {| texture := None; topTexture := Some top; bottomTexture := Some bottom;
     sideTexture := Some side; endTexture := None; lowerTexture := None;
     upperTexture := None |}.

(** [getTexturePath(blockType)] uses the default face ['side']. *)
Definition defaultPath (env : Env) (blockType : string) : string :=
  env.(getTexturePath) blockType "side".

(** [loadBlockTextures(blockType, category)]: any failed load is caught and
    replaced by the checkerboard texture. *)
Definition loadBlockTextures (env : Env) (blockType cat : string) : M Textures :=
  tryCatch
    (if String.eqb cat "tbs" then
       let* top := loadTexture env (env.(getTexturePath) blockType "top") in
       let* bottom := loadTexture env (env.(getTexturePath) blockType "bottom") in
       let* side := loadTexture env (env.(getTexturePath) blockType "side") in
       ret (tbsTextures top bottom side)
     else if String.eqb cat "directional" then
       let* e := loadTexture env (env.(getTexturePath) blockType "end") in
       let* side := loadTexture env (env.(getTexturePath) blockType "side") in
       ret {| texture := None; topTexture := None; bottomTexture := None;
              sideTexture := Some side; endTexture := Some e;
              lowerTexture := None; upperTexture := None |}
     else if String.eqb cat "door" then
       let* lower := loadTexture env (env.(getTexturePath) blockType "lower") in
       let* upper := loadTexture env (env.(getTexturePath) blockType "upper") in
       ret {| texture := None; topTexture := None; bottomTexture := None;
              sideTexture := None; endTexture := None;
              lowerTexture := Some lower; upperTexture := Some upper |}
     else
       (* uniform, leaves, wall, fence, trapdoor and the default case *)
       let* t := loadTexture env (defaultPath env blockType) in
       ret (uniformTextures t))
    (fun _ => ret (uniformTextures CanvasTexture)).

(** ** materialFactory.js: materials *)

Definition orFalse (o : option bool) : bool :=
  match o with Some b => b | None => false end.

(** [v || d] for a number: undefined and zero are falsy. *)
Definition orQ (o : option Q) (d : Q) : Q :=
  match o with
  | Some v => if Qeq_bool v 0 then d else v
  | None => d
  end.

Definition orZ (o : option Z) (d : Z) : Z :=
  match o with
  | Some v => if Z.eqb v 0 then d else v
  | None => d
  end.

Definition white : Z := 0xffffff.
Definition magenta : Z := 0xFF00FF.

Definition createUniformMaterial (tex : option Texture) (props : Properties) : Material :=
  standardMaterial tex (orFalse props.(p_transparent))
    (orQ props.(alphaCutoff) 0) (orQ props.(p_opacity) 1)
    (orZ props.(p_color) white) FrontSide.

Definition createLeafMaterial (tex : option Texture) (props : Properties) : Material :=
  standardMaterial tex true (orQ props.(alphaCutoff) 0.5) 1
    (orZ props.(tintColor) 0x2E8B57) DoubleSide.

Definition faceMaterial (tex : option Texture) (props : Properties) : Material :=
  standardMaterial tex (orFalse props.(p_transparent))
    (orQ props.(alphaCutoff) 0) 1 white FrontSide.

Definition createDirectionalMaterial (side e : option Texture)
    (props : Properties) : MeshMaterial :=
  let sideMaterial := faceMaterial side props in
  let endMaterial := faceMaterial e props in
  Multi [sideMaterial; sideMaterial; endMaterial; endMaterial;
         sideMaterial; sideMaterial].

Definition createMultiFaceMaterial (top bottom side : option Texture)
    (props : Properties) (blockType : string) : MeshMaterial :=
  let tint := orZ props.(tintColor) 0 in
  let tinted (m : Material) := if Z.eqb tint 0 then m else setColor tint m in
  let topMaterial := tinted (faceMaterial top props) in
  let bottomMaterial := faceMaterial bottom props in
  let sideMaterial :=
    if String.eqb blockType "grass_block" then tinted (faceMaterial side props)
    else faceMaterial side props in
  Multi [sideMaterial; sideMaterial; topMaterial; bottomMaterial;
         sideMaterial; sideMaterial].

(** [createFallbackMaterial()]: magenta wireframe. *)
Definition createFallbackMaterial : Material :=
  {| mat_map := None; mat_color := magenta; mat_wireframe := true;
     mat_transparent := false; mat_opacity := 1; mat_alphaTest := 0;
     mat_side := FrontSide; mat_visible := true; mat_emissive := 0;
     mat_emissiveIntensity := 1; mat_roughness := 1; mat_metalness := 0 |}.

(** ** slabFactory.js *)

Module SlabFactory.

Definition isSlabBlock (blockType : string) : bool :=
  includes blockType "_slab" || String.eqb blockType "slab".

(** The [specialCases] table of [getBaseBlockType]. *)
Definition specialCases : list (string * string) :=
  [ ("stone_slab", "stone"); ("sandstone_slab", "sandstone");
    ("cobblestone_slab", "cobblestone"); ("brick_slab", "brick");
    ("stone_brick_slab", "stone_bricks");
    ("nether_brick_slab", "nether_bricks"); ("quartz_slab", "quartz_block");
    ("red_sandstone_slab", "red_sandstone"); ("purpur_slab", "purpur_block");
    ("prismarine_slab", "prismarine");
    ("prismarine_brick_slab", "prismarine_bricks");
    ("dark_prismarine_slab", "dark_prismarine");
    ("polished_granite_slab", "polished_granite");
    ("smooth_red_sandstone_slab", "smooth_red_sandstone");
    ("mossy_stone_brick_slab", "mossy_stone_bricks");
    ("polished_diorite_slab", "polished_diorite");
    ("mossy_cobblestone_slab", "mossy_cobblestone");
    ("end_stone_brick_slab", "end_stone_bricks");
    ("smooth_sandstone_slab", "smooth_sandstone");
    ("smooth_quartz_slab", "smooth_quartz"); ("granite_slab", "granite");
    ("andesite_slab", "andesite");
    ("red_nether_brick_slab", "red_nether_bricks");
    ("polished_andesite_slab", "polished_andesite");
    ("diorite_slab", "diorite"); ("crimson_slab", "crimson_planks");
    ("warped_slab", "warped_planks"); ("blackstone_slab", "blackstone");
    ("polished_blackstone_slab", "polished_blackstone");
    ("polished_blackstone_brick_slab", "polished_blackstone_bricks");
    ("cut_copper_slab", "cut_copper");
    ("exposed_cut_copper_slab", "exposed_cut_copper");
    ("weathered_cut_copper_slab", "weathered_cut_copper");
    ("oxidized_cut_copper_slab", "oxidized_cut_copper");
    ("cobbled_deepslate_slab", "cobbled_deepslate");
    ("polished_deepslate_slab", "polished_deepslate");
    ("deepslate_brick_slab", "deepslate_bricks");
    ("deepslate_tile_slab", "deepslate_tiles");
    ("mangrove_slab", "mangrove_planks"); ("mud_brick_slab", "mud_bricks");
    ("bamboo_slab", "bamboo_planks");
    ("bamboo_mosaic_slab", "bamboo_mosaic"); ("cherry_slab", "cherry_planks") ].

Fixpoint lookupTable (k : string) (t : list (string * string)) : option string :=
  match t with
  | [] => None
  | (k', v) :: rest => if String.eqb k k' then Some v else lookupTable k rest
  end.

Definition getBaseBlockType (slabType0 : string) : string :=
  let slabType := stripWaxedPrefix slabType0 in
  if endsWith slabType "_slab" then replaceFirst ["_slab"] "" slabType
  else
    match lookupTable slabType specialCases with
    | Some base => if String.eqb base "" then slabType else base
    | None =>
        if includes slabType "_slab" &&
           (includes slabType "oak" || includes slabType "spruce" ||
            includes slabType "birch" || includes slabType "jungle" ||
            includes slabType "acacia" || includes slabType "dark_oak")
        then replaceFirst ["_slab"] "_planks" slabType
        else slabType
    end.

Definition truthy (o : option string) : bool :=
  match o with
  | Some s => negb (String.eqb s "")
  | None => false
  end.

Definition blocksPath (name : option string) : string :=
  "textures/blocks/" ++ match name with Some n => n | None => "undefined" end.

(** The branch taken for one [SPECIAL_TEXTURE_MAPPINGS] entry; [None]
    when the entry decides nothing. *)
Definition fromMapping (env : Env) (m : TextureMapping) : option (M Textures) :=
  if truthy m.(tm_top) && truthy m.(tm_bottom) && truthy m.(tm_side) then
    Some (let* top := loadTexture env (blocksPath m.(tm_top)) in
          let* bottom := loadTexture env (blocksPath m.(tm_bottom)) in
          let* side := loadTexture env (blocksPath m.(tm_side)) in
          ret (tbsTextures top bottom side))
  else if truthy m.(tm_default) then
    Some (let* t := loadTexture env (blocksPath m.(tm_default)) in
          ret (uniformTextures t))
  else None.

Definition loadFaces (env : Env) (blockType : string) : M Textures :=
  let* top := loadTexture env (env.(getTexturePath) blockType "top") in
  let* bottom := loadTexture env (env.(getTexturePath) blockType "bottom") in
  let* side := loadTexture env (env.(getTexturePath) blockType "side") in
  ret (tbsTextures top bottom side).

Definition loadSlabTextures (env : Env) (slabType baseBlockType : string) : M Textures :=
  let generic : M Textures :=
    tryCatch (loadFaces env slabType)
      (fun _ =>
         tryCatch (loadFaces env baseBlockType)
           (fun _ =>
              let* t := loadTexture env (defaultPath env baseBlockType) in
              ret (uniformTextures t))) in
  let fromBase : M Textures :=
    match env.(SPECIAL_TEXTURE_MAPPINGS) baseBlockType with
    | Some m => match fromMapping env m with Some c => c | None => generic end
    | None => generic
    end in
  tryCatch
    (match env.(SPECIAL_TEXTURE_MAPPINGS) slabType with
     | Some m => match fromMapping env m with Some c => c | None => fromBase end
     | None => fromBase
     end)
    (fun _ => ret (uniformTextures CanvasTexture)).

(** The uv loop of [getSlabGeometry]: the side faces (faces 0, 1, 4, 5 of
    four vertices each) sample one half of the texture. *)
Definition remapSideUV (isUpperSlab : bool) (i : nat) (uv : Vec2) : Vec2 :=
  let '(u, v) := uv in
  let faceIndex := (i / 4)%nat in
  if Nat.eqb faceIndex 0 || Nat.eqb faceIndex 1 ||
     Nat.eqb faceIndex 4 || Nat.eqb faceIndex 5
  then (u, if isUpperSlab then Qred (v * 0.5) else Qred (v * 0.5 + 0.5))%Q
  else (u, v).

Fixpoint mapi {A B} (f : nat -> A -> B) (i : nat) (l : list A) : list B :=
  match l with
  | [] => []
  | a :: rest => f i a :: mapi f (S i) rest
  end.

(** The geometry [getSlabGeometry] builds on a cache miss. *)
Definition buildSlabGeometry (isUpperSlab : bool) : Geometry :=
  let box := BoxGeometry 1 0.5 1 in
  let remapped := setUV (mapi (remapSideUV isUpperSlab) 0 box.(uvs)) box in
  translate 0 (if isUpperSlab then 0.25 else -0.25) 0 remapped.

Definition getSlabGeometry (isUpperSlab : bool) : M Geometry :=
  cached slabGeometryCache setSlabGeometryCache
    (if isUpperSlab then "upper_slab" else "lower_slab")
    (buildSlabGeometry isUpperSlab).

Definition slabUserData (blockType : string) (isUpperSlab : bool) : UserData :=
  {| ud_isSlab := true; ud_isUpperSlab := isUpperSlab;
     ud_slabType := Some blockType |}.

Definition isSome {A} (o : option A) : bool :=
  match o with Some _ => true | None => false end.

Definition createSlabBlock (env : Env) (blockType : string) (isUpperSlab : bool)
    : M Object3D :=
  tryCatch
    (let baseBlockType := getBaseBlockType blockType in
     let properties :=
       match env.(BLOCK_PROPERTIES) blockType with
       | Some p => p
       | None =>
           match env.(BLOCK_PROPERTIES) baseBlockType with
           | Some p => p
           | None => noProperties
           end
       end in
     let* textures := loadSlabTextures env blockType baseBlockType in
     let materials :=
       if isSome textures.(topTexture) && isSome textures.(bottomTexture) &&
          isSome textures.(sideTexture)
       then createMultiFaceMaterial textures.(topTexture)
              textures.(bottomTexture) textures.(sideTexture) properties blockType
       else six (createUniformMaterial textures.(texture) properties) in
     let* geometry := getSlabGeometry isUpperSlab in
     ret (Mesh blockType geometry materials origin origin unitScale
            (slabUserData blockType isUpperSlab)))
    (fun _ =>
       let* geometry := getSlabGeometry isUpperSlab in
       ret (mesh ("fallback_" ++ blockType) geometry (six createFallbackMaterial))).

End SlabFactory.
(** ** stairFactory.js *)

Module StairFactory.

Definition isStairBlock (blockType : string) : bool :=
  includes blockType "_stairs" || String.eqb blockType "stairs".

(** The [vertices] array of [getStairGeometry], one quad per line: the six
    faces of the lower half block, then the five faces of the upper step. *)
Definition stairVertices : list Vec3 :=
  [
    (-0.5, -0.5, -0.5); (0.5, -0.5, -0.5); (0.5, 0.0, -0.5); (-0.5, 0.0, -0.5);
    (-0.5, -0.5, 0.5); (0.5, -0.5, 0.5); (0.5, 0.0, 0.5); (-0.5, 0.0, 0.5);
    (-0.5, -0.5, -0.5); (-0.5, 0.0, -0.5); (-0.5, 0.0, 0.5); (-0.5, -0.5, 0.5);
    (0.5, -0.5, -0.5); (0.5, 0.0, -0.5); (0.5, 0.0, 0.5); (0.5, -0.5, 0.5);
    (-0.5, 0.0, -0.5); (0.5, 0.0, -0.5); (0.5, 0.0, 0.5); (-0.5, 0.0, 0.5);
    (-0.5, -0.5, -0.5); (0.5, -0.5, -0.5); (0.5, -0.5, 0.5); (-0.5, -0.5, 0.5);
    (-0.5, 0.0, -0.5); (0.0, 0.0, -0.5); (0.0, 0.5, -0.5); (-0.5, 0.5, -0.5);
    (-0.5, 0.0, 0.5); (0.0, 0.0, 0.5); (0.0, 0.5, 0.5); (-0.5, 0.5, 0.5);
    (-0.5, 0.0, -0.5); (-0.5, 0.5, -0.5); (-0.5, 0.5, 0.5); (-0.5, 0.0, 0.5);
    (0.0, 0.0, -0.5); (0.0, 0.5, -0.5); (0.0, 0.5, 0.5); (0.0, 0.0, 0.5);
    (-0.5, 0.5, -0.5); (0.0, 0.5, -0.5); (0.0, 0.5, 0.5); (-0.5, 0.5, 0.5) ]%Q.

(** The [uvs] array of [getStairGeometry]. *)
Definition stairUVs : list Vec2 :=
  [
    (0.0, 1.0); (1.0, 1.0); (1.0, 0.5); (0.0, 0.5);
    (1.0, 1.0); (0.0, 1.0); (0.0, 0.5); (1.0, 0.5);
    (0.0, 1.0); (0.0, 0.5); (1.0, 0.5); (1.0, 1.0);
    (1.0, 1.0); (1.0, 0.5); (0.0, 0.5); (0.0, 1.0);
    (0.0, 0.0); (1.0, 0.0); (1.0, 1.0); (0.0, 1.0);
    (0.0, 0.0); (1.0, 0.0); (1.0, 1.0); (0.0, 1.0);
    (0.0, 0.5); (0.5, 0.5); (0.5, 0.0); (0.0, 0.0);
    (0.5, 0.5); (0.0, 0.5); (0.0, 0.0); (0.5, 0.0);
    (0.0, 0.5); (0.0, 0.0); (1.0, 0.0); (1.0, 0.5);
    (0.5, 0.5); (0.5, 0.0); (0.0, 0.0); (0.0, 0.5);
    (0.0, 0.0); (0.5, 0.0); (0.5, 1.0); (0.0, 1.0) ]%Q.

(** Two triangles per quad: [for (i = 0; i < vertices.length / 12; i++)]. *)
Definition stairIndices : list nat :=
  flat_map (fun i =>
              let baseIndex := (i * 4)%nat in
              [baseIndex; baseIndex + 1; baseIndex + 2;
               baseIndex; baseIndex + 2; baseIndex + 3]%nat)
           (seq 0 (length stairVertices * 3 / 12)).

(** The geometry built on a cache miss.  The [facing] argument selects the
    cache key only: the vertex data does not mention it. *)
Definition buildStairGeometry : Geometry :=
  {| positions := stairVertices; uvs := stairUVs; index := stairIndices |}.

Definition getStairGeometry (facing : string) : M Geometry :=
  cached stairGeometryCache setStairGeometryCache
    ("stair_" ++ facing) buildStairGeometry.

Record StairOptions := {
  so_facing : option string;
  so_half : option string;
  so_shape : option string
}.

(** [mesh.rotation.y] set by the [switch (facing)], in units of pi; an
    unlisted facing leaves the rotation at zero. *)
Definition facingYaw (facing : string) : Q :=
  if String.eqb facing "north" then 1
  else if String.eqb facing "south" then 0
  else if String.eqb facing "west" then 1.5
  else if String.eqb facing "east" then 0.5
  else 0.

Definition stairMaterial (t : Texture) : Material :=
  standardMaterial (Some t) false 0 1 white DoubleSide.

(** [createStairBlock].  The handler of its [catch] calls
    [createFallbackMesh], an identifier that stairFactory.js neither
    defines nor imports: evaluating it throws a [ReferenceError]. *)
Definition createStairBlock (env : Env) (blockType : string)
    (options : StairOptions) : M Object3D :=
  tryCatch
    (let facing := orDefault options.(so_facing) "east" in
     let half := orDefault options.(so_half) "bottom" in
     let* geometry := getStairGeometry "east" in
     let* t := loadTexture env "textures/blocks/planks_spruce.png" in
     ret (Mesh blockType geometry (Single (stairMaterial t)) origin
            (if String.eqb half "top" then 1 else 0, facingYaw facing, 0)%Q
            unitScale noUserData))
    (fun _ => throw (ReferenceError "createFallbackMesh")).

End StairFactory.

(** ** Builder options *)

(** The [options] object handed to [loadBlock] and [createBlock]. *)
Record Options := {
  o_isUpperSlab : option bool;
  o_facing : option string;
  o_half : option string;
  o_shape : option string;
  o_trapdoorState : option TrapdoorState;
  o_connections : option (list (string * JSVal));
  o_hanging : option bool;
  o_material : option string;
  o_color : option string;
  o_texture : option string;
  o_opacity : option Q;
  o_alphaTest : option Q
}.

Definition noOptions : Options :=
  {| o_isUpperSlab := None; o_facing := None; o_half := None; o_shape := None;
     o_trapdoorState := None; o_connections := None; o_hanging := None;
     o_material := None; o_color := None; o_texture := None;
     o_opacity := None; o_alphaTest := None |}.

(** [connections[name]] *)
Fixpoint lookupConnection (name : string) (conns : list (string * JSVal)) : JSVal :=
  match conns with
  | [] => JUndefined
  | (k, v) :: rest => if String.eqb k name then v else lookupConnection name rest
  end.

(** ** grindstoneFactory.js *)

Module GrindstoneFactory.

Definition isGrindstoneBlock (blockType : string) : bool :=
  String.eqb blockType "grindstone".

Definition plainMaterial (t : Texture) : Material :=
  standardMaterial (Some t) false 0 1 white FrontSide.

(** The grindstone's own [createFallbackMesh]: a unit box in solid magenta. *)
Definition createFallbackMesh (blockType : string) : Object3D :=
  mesh ("fallback_" ++ blockType) (BoxGeometry 1 1 1)
    (Single (standardMaterial None false 0 1 magenta FrontSide)).

Definition facingYaw (facing : string) : Q :=
  if String.eqb facing "north" then 1
  else if String.eqb facing "south" then 0
  else if String.eqb facing "west" then 1.5
  else if String.eqb facing "east" then 0.5
  else 0.

Definition createGrindstoneBlock (env : Env) (blockType : string)
    (options : Options) : M Object3D :=
  tryCatch
    (let facing := orDefault options.(o_facing) "north" in
     let* roundTexture := loadTexture env "textures/blocks/grindstone_round.tga" in
     let* sideTexture := loadTexture env "textures/blocks/grindstone_side.tga" in
     let* pivotTexture := loadTexture env "textures/blocks/grindstone_pivot.tga" in
     let roundMaterial := plainMaterial roundTexture in
     let sideMaterial := plainMaterial sideTexture in
     let frame := meshAt (BoxGeometry 0.5 0.3125 1) (Single sideMaterial)
                    (0, 0.34375, 0)%Q origin in
     let wheel := meshAt (BoxGeometry 0.25 0.375 0.5)
                    (Multi [sideMaterial; sideMaterial; roundMaterial;
                            roundMaterial; sideMaterial; sideMaterial])
                    (0, -0.3125, 0)%Q origin in
     let leftLeg := meshAt (BoxGeometry 0.125 1 0.125) (Single sideMaterial)
                      (0, 0, -0.3125)%Q origin in
     let rightLeg := meshAt (BoxGeometry 0.125 1 0.125) (Single sideMaterial)
                       (0, 0, 0.3125)%Q origin in
     ret (Group blockType [frame; wheel; leftLeg; rightLeg] origin
            (0, facingYaw facing, 0)%Q))
    (fun _ => ret (createFallbackMesh blockType)).

End GrindstoneFactory.

(** ** blockFactory.js *)

Module BlockFactory.

Import SlabFactory StairFactory GrindstoneFactory.

(** *** Type predicates *)

Definition isChainBlock (blockType : string) : bool :=
  String.eqb blockType "chain" || endsWith blockType "_chain".

Definition isDoorBlock (blockType : string) : bool :=
  String.eqb blockType "door" ||
  (endsWith blockType "_door" && negb (includes blockType "trapdoor")).

Definition isWallBlock (blockType : string) : bool :=
  includes blockType "_wall" || String.eqb blockType "wall".

Definition isFenceBlock (blockType : string) : bool :=
  includes blockType "_fence" && negb (includes blockType "gate").

Definition isTrapdoorBlock (blockType : string) : bool :=
  includes blockType "_trapdoor" || String.eqb blockType "trapdoor".

Definition isLanternBlock (blockType : string) : bool :=
  includes blockType "lantern" && negb (String.eqb blockType "jack_o_lantern").

Definition plantTypes : list string :=
  [ "plant"; "flower"; "sapling"; "mushroom"; "wheat";
    "berry"; "fern"; "dead_bush"; "seagrass"; "kelp"; "bamboo";
    "vine"; "lily"; "double_plant"; "rose"; "dandelion"; "tulip";
    "allium"; "orchid"; "poppy"; "cornflower"; "wither_rose" ].

Definition excludedBlocks : list string :=
  [ "grass_block"; "grass_path"; "dirt_path"; "mycelium";
    "podzol"; "farmland"; "farmland_moist"; "mushroom_stem";
    "brown_mushroom_block" ].

Definition isPlantBlock (blockType : string) : bool :=
  if existsb (String.eqb blockType) excludedBlocks then false
  else if includes blockType "grass" then
    String.eqb blockType "grass" || String.eqb blockType "tallgrass" ||
    (startsWith blockType "grass_" && negb (includes blockType "path"))
  else existsb (fun t => includes blockType t) plantTypes.

Definition isDoublePlant (blockType : string) : bool :=
  includes blockType "double_plant" || includes blockType "_top" ||
  includes blockType "_bottom".

(** *** Cached geometries *)

Definition getPlantGeometry : M Geometry :=
  cached geometryCache setGeometryCache "plant"
    (translate 0 0 0 (PlaneGeometry 1.0 1.0)).

Definition getBlockGeometry : M Geometry :=
  cached geometryCache setGeometryCache "block" (BoxGeometrySeg 1 1 1 2).

(** The helper [createFallbackMesh] of blockFactory.js. *)
Definition createFallbackMesh (blockType : string) : M Object3D :=
  let* geometry := getBlockGeometry in
  ret (mesh ("fallback_" ++ blockType) geometry (Single createFallbackMaterial)).

(** *** Cross-plane plants *)

Definition plantMaterial (tex : option Texture) (properties : Properties) : Material :=
  let material := standardMaterial tex true 0.5 1 white DoubleSide in
  let tint := orZ properties.(tintColor) 0 in
  if Z.eqb tint 0 then material else setColor tint material.

(** The two crossed planes, turned by a quarter of pi each way. *)
Definition crossedPlanes (geometry : Geometry) (material : Material) : list Object3D :=
  [ meshAt geometry (Single material) origin (0, 1 # 4, 0)%Q;
    meshAt geometry (Single material) origin (0, - (1 # 4), 0)%Q ].

(** [Math.random() * Math.PI * 2], in units of pi. *)
Definition randomYaw (env : Env) : M Q :=
  let* r := mathRandom env in ret (Qred (r * 2)).

Definition plantFallback (blockType : string) : M Object3D :=
  let* geometry := getPlantGeometry in
  ret (mesh ("fallback_" ++ blockType) geometry (Single createFallbackMaterial)).

Definition createPlantBlock (env : Env) (blockType : string)
    (properties : Properties) : M Object3D :=
  tryCatch
    (let* textures := loadBlockTextures env blockType "uniform" in
     let material := plantMaterial textures.(texture) properties in
     let* geometry := getPlantGeometry in
     let* yaw :=
       (if negb (includes blockType "crop") && negb (includes blockType "wheat")
        then randomYaw env else ret 0%Q) in
     ret (Group blockType (crossedPlanes geometry material)
            (0, -0.5, 0)%Q (0, yaw, 0)%Q))
    (fun _ => plantFallback blockType).

Definition createDoublePlantBlock (env : Env) (blockType : string)
    (properties : Properties) : M Object3D :=
  tryCatch
    (let* textures := loadBlockTextures env blockType "uniform" in
     let material := plantMaterial textures.(texture) properties in
     let* geometry := getPlantGeometry in
     let* yaw :=
       (if negb (includes blockType "_top") then randomYaw env else ret 0%Q) in
     ret (Group blockType (crossedPlanes geometry material)
            (0, -0.5, 0)%Q (0, yaw, 0)%Q))
    (fun _ => plantFallback blockType).

(** *** Walls and fences *)

Record Direction := { dir_name : string; dir_x : Q; dir_z : Q }.

Definition directions : list Direction :=
  [ {| dir_name := "north"; dir_x := 0; dir_z := -0.375 |};
    {| dir_name := "east"; dir_x := 0.375; dir_z := 0 |};
    {| dir_name := "south"; dir_x := 0; dir_z := 0.375 |};
    {| dir_name := "west"; dir_x := -0.375; dir_z := 0 |} ].

Definition eastWest (d : Direction) : bool :=
  String.eqb d.(dir_name) "east" || String.eqb d.(dir_name) "west".

Definition northSouth (d : Direction) : bool :=
  String.eqb d.(dir_name) "north" || String.eqb d.(dir_name) "south".

(** [connections[dir.name] === 'true'] *)
Definition connected (connections : list (string * JSVal)) (d : Direction) : bool :=
  isStringTrue (lookupConnection d.(dir_name) connections).

(** The wall segment of one connected direction. *)
Definition wallSegment (material : Material) (d : Direction) : Object3D :=
  meshAt (BoxGeometry (if eastWest d then 0.5 else 0.3) 0.6
                      (if northSouth d then 0.5 else 0.3))
         (Single material) (d.(dir_x), 0.05, d.(dir_z))%Q origin.

(** The upper and lower rail of one connected direction. *)
Definition fenceRails (material : Material) (d : Direction) : list Object3D :=
  let rail := BoxGeometry (if eastWest d then 0.5 else 0.125) 0.125
                          (if northSouth d then 0.5 else 0.125) in
  [ meshAt rail (Single material) (d.(dir_x), 0.25, d.(dir_z))%Q origin;
    meshAt rail (Single material) (d.(dir_x), -0.125, d.(dir_z))%Q origin ].

Definition propertiesOf (env : Env) (blockType : string) : Properties :=
  match env.(BLOCK_PROPERTIES) blockType with
  | Some p => p
  | None => noProperties
  end.

Definition boxFallback (blockType : string) : M Object3D :=
  let* geometry := getBlockGeometry in
  ret (mesh ("fallback_" ++ blockType) geometry (Single createFallbackMaterial)).

Definition createWallBlock (env : Env) (blockType : string)
    (connections : list (string * JSVal)) : M Object3D :=
  tryCatch
    (let* textures := loadBlockTextures env blockType "uniform" in
     let material := createUniformMaterial textures.(texture) (propertiesOf env blockType) in
     let post := meshAt (BoxGeometry 0.5 1 0.5) (Single material) origin origin in
     let arms := List.map (wallSegment material)
                   (List.filter (connected connections) directions) in
     ret (Group blockType (post :: arms) origin origin))
    (fun _ => boxFallback blockType).

Definition createFenceBlock (env : Env) (blockType : string)
    (connections : list (string * JSVal)) : M Object3D :=
  tryCatch
    (let* textures := loadBlockTextures env blockType "uniform" in
     let material := createUniformMaterial textures.(texture) (propertiesOf env blockType) in
     let post := meshAt (BoxGeometry 0.25 1 0.25) (Single material) origin origin in
     let rails := flat_map (fenceRails material)
                    (List.filter (connected connections) directions) in
     ret (Group blockType (post :: rails) origin origin))
    (fun _ => boxFallback blockType).

(** *** Trapdoors *)

Definition trapdoorSideMaterial : Material :=
  {| mat_map := None; mat_color := 0x6d4c33; mat_wireframe := false;
     mat_transparent := false; mat_opacity := 1; mat_alphaTest := 0;
     mat_side := FrontSide; mat_visible := true; mat_emissive := 0;
     mat_emissiveIntensity := 1; mat_roughness := 0.8; mat_metalness := 0 |}.

Definition emptyTrapdoorState : TrapdoorState :=
  {| ts_open := JUndefined; ts_half := None; ts_facing := None |}.

(** Position and rotation of the trapdoor panel for a state. *)
Definition trapdoorPlacement (isOpen : bool) (half facing : string) : Vec3 * Vec3 :=
  if isOpen then
    if String.eqb facing "north" then ((0, 0, 0.5), (1 # 2, 0, 0))%Q
    else if String.eqb facing "south" then ((0, 0, -0.5), (- (1 # 2), 0, 0))%Q
    else if String.eqb facing "east" then ((-0.5, 0, 0), (0, 0, - (1 # 2)))%Q
    else if String.eqb facing "west" then ((0.5, 0, 0), (0, 0, 1 # 2))%Q
    else (origin, origin)
  else
    let pos := if String.eqb half "top" then (0, 0.4375, 0)%Q
               else (0, -0.4375, 0)%Q in
    let yaw := if String.eqb facing "north" then 1%Q
               else if String.eqb facing "south" then 0%Q
               else if String.eqb facing "east" then (1 # 2)%Q
               else if String.eqb facing "west" then (- (1 # 2))%Q
               else 0%Q in
    (pos, (0, yaw, 0)%Q).

Definition createTrapdoorBlock (env : Env) (blockType : string)
    (options : Options) : M Object3D :=
  let trapdoorState :=
    match options.(o_trapdoorState) with
    | Some st => st
    | None => emptyTrapdoorState
    end in
  tryCatch
    (let isOpen := isTrueOrStringTrue trapdoorState.(ts_open) in
     let half := orDefault trapdoorState.(ts_half) "bottom" in
     let facing := orDefault trapdoorState.(ts_facing) "north" in
     let* textures := loadBlockTextures env blockType "trapdoor" in
     let faceMaterial := createUniformMaterial textures.(texture) noProperties in
     let sideMaterial := trapdoorSideMaterial in
     let materials := Multi [sideMaterial; sideMaterial; faceMaterial;
                             faceMaterial; sideMaterial; sideMaterial] in
     let '(pos, rot) := trapdoorPlacement isOpen half facing in
     ret (Group blockType [meshAt (BoxGeometry 1 0.1875 1) materials pos rot]
            origin origin))
    (fun _ => createFallbackMesh blockType).

(** *** Lanterns *)

Definition lanternWidth : Q := 6 * (1 / 16).
Definition lanternHeight : Q := 9 * (1 / 16).
Definition bottomWidth : Q := 6 * (1 / 16).
Definition chainWidth : Q := 3 * (1 / 16).
Definition chainHeight : Q := 8 * (1 / 16).
Definition uvScale : Q := 1 / 3.

Definition lanternSideGeometry : Geometry :=
  setUV [ (0, uvScale); (6 / 16, uvScale);
          (0, (6 / 16) * uvScale); (6 / 16, (6 / 16) * uvScale) ]%Q
        (PlaneGeometry lanternWidth lanternHeight).

Definition lanternBottomGeometry : Geometry :=
  setUV [ (6 / 16, 10 / 16); (12 / 16, 10 / 16);
          (6 / 16, 16 / 16); (12 / 16, 16 / 16) ]%Q
        (PlaneGeometry bottomWidth bottomWidth).

Definition crossPlaneIndices : list nat := [0; 1; 2; 2; 1; 3; 4; 5; 6; 6; 5; 7]%nat.

Definition lanternChainGeometry : Geometry :=
  let w := (chainWidth / 2)%Q in
  let h := (chainHeight / 2)%Q in
  {| positions :=
       [ (- w, h, w); (- w, - h, w); (w, h, - w); (w, - h, - w);
         (w, h, w); (w, - h, w); (- w, h, - w); (- w, - h, - w) ]%Q;
     uvs :=
       [ (5 / 16, uvScale); (8 / 16, uvScale);
         (5 / 16, 9 / 16 * uvScale); (8 / 16, 9 / 16 * uvScale);
         (5 / 16, uvScale); (8 / 16, uvScale);
         (5 / 16, 9 / 16 * uvScale); (8 / 16, 9 / 16 * uvScale) ]%Q;
     index := crossPlaneIndices |}.

Definition lanternLight : PointLight :=
  {| pl_color := 0xffd700; pl_intensity := 10; pl_distance := 40;
     pl_decay := 1; pl_castShadow := true |}.

Definition lanternGlow : PointLight :=
  {| pl_color := 0xff9900; pl_intensity := 5; pl_distance := 15;
     pl_decay := 0.5; pl_castShadow := false |}.

Definition createLanternBlock (env : Env) (blockType : string)
    (hanging : bool) : M Object3D :=
  tryCatch
    (let* t := loadTexture env "textures/blocks/lantern.png" in
     let interiorMaterial :=
       emissiveMaterial None false 0 0x2a2a2a 0xffaa33 3.0 in
     let sideMaterial :=
       emissiveMaterial (Some t) true 0.5 white 0xffaa33 0.8 in
     let bottomMaterial := standardMaterial (Some t) true 0.5 1 white FrontSide in
     let chainMaterial := standardMaterial (Some t) true 0.5 1 white DoubleSide in
     let interior :=
       Mesh "" (BoxGeometry lanternWidth lanternHeight lanternWidth)
            (Single interiorMaterial) origin origin (0.95, 0.95, 0.95)%Q
            noUserData in
     let side (pos rot : Vec3) :=
       meshAt lanternSideGeometry (Single sideMaterial) pos rot in
     let offset := (bottomWidth / 2 + 0.001)%Q in
     let sides :=
       [ side (0, 0, offset)%Q origin;
         side (0, 0, - offset)%Q (0, 1, 0)%Q;
         side (- offset, 0, 0)%Q (0, - (1 # 2), 0)%Q;
         side (offset, 0, 0)%Q (0, 1 # 2, 0)%Q ] in
     let bottom :=
       meshAt lanternBottomGeometry (Single bottomMaterial)
              (0, - lanternHeight / 2, 0)%Q (- (1 # 2), 0, 0)%Q in
     let top :=
       meshAt lanternBottomGeometry (Single bottomMaterial)
              (0, lanternHeight / 2 - bottomWidth / 8, 0)%Q (1 # 2, 0, 0)%Q in
     let chain :=
       if hanging then
         [ meshAt lanternChainGeometry (Single chainMaterial)
                  (0, lanternHeight / 2 + chainHeight / 2, 0)%Q origin ]
       else [] in
     ret (Group blockType
            ((interior :: sides) ++ [bottom; top] ++ chain ++
             [Light lanternGlow origin; Light lanternLight origin])%list
            origin origin))
    (fun _ => createFallbackMesh blockType).

(** *** Doors, torches and chains *)

(** [createDoorBlock] has no [try]: nothing in it loads a texture. *)
Definition createDoorBlock (blockType : string) : M Object3D :=
  ret (Mesh blockType (rotateYQuarter (BoxGeometry 0.1875 1.5 1))
         (Single invisibleMaterial) (0, -0.25, 0)%Q origin unitScale noUserData).

(** [createTorchBlock] has no [try] either. *)
Definition createTorchBlock (blockType : string) : M Object3D :=
  ret (Mesh blockType (BoxGeometry 0.1 0.6 0.1)
         (Single invisibleMaterial) (0, 0.3, 0)%Q origin unitScale noUserData).

Definition chainGeometry : Geometry :=
  {| positions :=
       [ (-0.0625, 0.5, 0.0625); (-0.0625, -0.5, 0.0625);
         (0.0625, 0.5, -0.0625); (0.0625, -0.5, -0.0625);
         (0.0625, 0.5, 0.0625); (0.0625, -0.5, 0.0625);
         (-0.0625, 0.5, -0.0625); (-0.0625, -0.5, -0.0625) ]%Q;
     uvs :=
       [ (0.1875, 1); (0.1875, 0); (0, 1); (0, 0);
         (0.1875, 1); (0.1875, 0); (0, 1); (0, 0) ]%Q;
     index := crossPlaneIndices |}.

Definition createChainBlock (env : Env) (blockType : string) : M Object3D :=
  tryCatch
    (let* t := loadTexture env "textures/blocks/chain1.png" in
     ret (mesh blockType chainGeometry
            (Single (standardMaterial (Some t) true 0.5 1 white DoubleSide))))
    (fun _ => createFallbackMesh blockType).

(** *** createBlock *)

(** The texture of a colored block (concrete, concrete powder, wool). *)
Definition coloredTexturePath (blockType color : string) : string :=
  if includes blockType "concrete_powder" then
    "textures/blocks/concrete_powder_" ++ color ++ ".png"
  else if includes blockType "concrete" then
    "textures/blocks/concrete_" ++ color ++ ".png"
  else "textures/blocks/wool_colored_" ++ color ++ ".png".

(** The [catch] branch of [createBlock]. *)
Definition createBlockFallback (blockType : string) : M Object3D :=
  let* geometry := getBlockGeometry in
  ret (mesh ("fallback_" ++ blockType) geometry (six createFallbackMaterial)).

(** The category used for textures and materials of an ordinary block. *)
Definition categoryOf (blockType : string) (properties : Properties) : string :=
  let c0 := orDefault properties.(category) "uniform" in
  let c1 := if includes blockType "leaves" || endsWith blockType "_leaves"
            then "leaves" else c0 in
  if includes blockType "_log" || endsWith blockType "_log"
  then "directional" else c1.

Definition materialsFor (cat blockType : string) (textures : Textures)
    (properties : Properties) : MeshMaterial :=
  if String.eqb cat "uniform" then
    six (createUniformMaterial textures.(texture) properties)
  else if String.eqb cat "tbs" then
    createMultiFaceMaterial textures.(topTexture) textures.(bottomTexture)
      textures.(sideTexture) properties blockType
  else if String.eqb cat "directional" then
    createDirectionalMaterial textures.(sideTexture) textures.(endTexture) properties
  else if String.eqb cat "leaves" then
    six (createLeafMaterial textures.(texture) properties)
  else six (createUniformMaterial textures.(texture) properties).

(** [createBlock(blockType, options)].

    The body is one [try] block.  Where it says [return builder(...)] the
    builder's promise is returned without [await], so a rejection of that
    promise settles the promise of [createBlock] and is not seen by the
    [catch]; only the two paths that [await] inside the body (colored
    blocks and ordinary blocks) are under the handler. *)
Definition createBlock (env : Env) (blockType : string) (options : Options)
    : M Object3D :=
  if isChainBlock blockType then createChainBlock env blockType
  else if includes blockType "torch" then createTorchBlock blockType
  else if isDoorBlock blockType then createDoorBlock blockType
  else if isGrindstoneBlock blockType then
    createGrindstoneBlock env blockType options
  else if includes blockType "concrete" || includes blockType "wool" then
    tryCatch
      (let color := orDefault options.(o_color) "white" in
       let* t := loadTexture env (coloredTexturePath blockType color) in
       let* geometry := getBlockGeometry in
       ret (mesh blockType geometry
              (Single (standardMaterial (Some t) false 0 1 white FrontSide))))
      (fun _ => createBlockFallback blockType)
  else if isSlabBlock blockType then
    createSlabBlock env blockType (orFalse options.(o_isUpperSlab))
  else if isStairBlock blockType then
    createStairBlock env blockType
      {| so_facing := Some (orDefault options.(o_facing) "east");
         so_half := None; so_shape := None |}
  else if isWallBlock blockType then
    createWallBlock env blockType
      (match options.(o_connections) with Some c => c | None => [] end)
  else if isFenceBlock blockType then
    createFenceBlock env blockType
      (match options.(o_connections) with Some c => c | None => [] end)
  else if isTrapdoorBlock blockType then createTrapdoorBlock env blockType options
  else if isLanternBlock blockType then
    createLanternBlock env blockType (orFalse options.(o_hanging))
  else
    let properties := propertiesOf env blockType in
    if isDoublePlant blockType then createDoublePlantBlock env blockType properties
    else if isPlantBlock blockType then createPlantBlock env blockType properties
    else
      tryCatch
        (let cat := categoryOf blockType properties in
         let* textures := loadBlockTextures env blockType cat in
         let materials := materialsFor cat blockType textures properties in
         let* geometry := getBlockGeometry in
         ret (mesh blockType geometry materials))
        (fun _ => createBlockFallback blockType).

End BlockFactory.

(** ** Array.prototype.sort *)

Module JSArray.

(** [array.sort(compareFn)]: the sort is stable, so its result is the one
    stable arrangement in comparator order; straight insertion computes
    it.  An element moves left past every element it must follow. *)
Section Sort.
Context {A : Type} (compareFn : A -> A -> Z).

Fixpoint insert (a : A) (l : list A) : list A :=
  match l with
  | [] => [a]
  | b :: rest =>
      if compareFn a b <=? 0 then a :: b :: rest
      else b :: insert a rest
  end.

Fixpoint sort (l : list A) : list A :=
  match l with
  | [] => []
  | a :: rest => insert a (sort rest)
  end.
End Sort.

(** The default comparator of [sort()] on strings: code-unit order. *)
Definition defaultCompare (a b : string) : Z :=
  match String.compare a b with
  | Lt => -1
  | Eq => 0
  | Gt => 1
  end.

Definition sortStrings : list string -> list string := sort defaultCompare.

End JSArray.

(** The key part shared by main.js and [loadBlock]:
    [Object.entries(c).filter(([_, v]) => v === 'true').map(([d, _]) => d)
       .sort().join('_')] *)
Definition connectionsKey (conns : list (string * JSVal)) : string :=
  join "_" (JSArray.sortStrings
              (List.map fst (List.filter (fun e => isStringTrue (snd e)) conns))).

(** ** TextureLoader.loadBlock (materialFactory.js) *)

Module TextureLoader.

Import SlabFactory BlockFactory.

(** [block.clone()]: a structural copy, equal to the original here.
    (three.js copies the orientation through the quaternion and derives
    the rotation triple of the copy from it; the triple is kept as written
    here, which is the same orientation.) *)
Definition clone (o : Object3D) : Object3D := o.

Definition cacheGet (key : string) : M (option Object3D) :=
  fun s => (Ok (s.(blockCache) !! key), s).

Definition cacheSet (key : string) (o : Object3D) : M unit :=
  fun s => (Ok tt, setBlockCache (<[key := o]> s.(blockCache)) s).

(** [try { ... } catch (error) { console.error(...); throw error; }] *)
Definition rethrowing {A} (body : M A) : M A :=
  tryCatch body (fun e => throw e).

(** The crossed-planes geometry of the cobweb branch. *)
Definition webGeometry : Geometry :=
  {| positions :=
       [ (-0.5, 0.5, 0.5); (-0.5, -0.5, 0.5); (0.5, 0.5, -0.5); (0.5, -0.5, -0.5);
         (0.5, 0.5, 0.5); (0.5, -0.5, 0.5); (-0.5, 0.5, -0.5); (-0.5, -0.5, -0.5) ]%Q;
     uvs :=
       [ (1, 1); (1, 0); (0, 1); (0, 0); (1, 1); (1, 0); (0, 1); (0, 0) ]%Q;
     index := crossPlaneIndices |}.

Definition hasCategory (env : Env) (blockType cat : string) : bool :=
  match env.(BLOCK_PROPERTIES) blockType with
  | Some p => match p.(category) with
              | Some c => String.eqb c cat
              | None => false
              end
  | None => false
  end.

Definition onlyIsUpperSlab (u : bool) : Options :=
  {| o_isUpperSlab := Some u; o_facing := None; o_half := None;
     o_shape := None; o_trapdoorState := None; o_connections := None;
     o_hanging := None; o_material := None; o_color := None;
     o_texture := None; o_opacity := None; o_alphaTest := None |}.

Definition onlyTrapdoor (st : TrapdoorState) (material : option string) : Options :=
  {| o_isUpperSlab := None; o_facing := None; o_half := None;
     o_shape := None; o_trapdoorState := Some st; o_connections := None;
     o_hanging := None; o_material := material; o_color := None;
     o_texture := None; o_opacity := None; o_alphaTest := None |}.

Definition onlyHanging (h : bool) : Options :=
  {| o_isUpperSlab := None; o_facing := None; o_half := None;
     o_shape := None; o_trapdoorState := None; o_connections := None;
     o_hanging := Some h; o_material := None; o_color := None;
     o_texture := None; o_opacity := None; o_alphaTest := None |}.

Definition onlyConnections (c : list (string * JSVal)) : Options :=
  {| o_isUpperSlab := None; o_facing := None; o_half := None;
     o_shape := None; o_trapdoorState := None; o_connections := Some c;
     o_hanging := None; o_material := None; o_color := None;
     o_texture := None; o_opacity := None; o_alphaTest := None |}.

(** Look the key up; on a miss build with [createBlock], store and return. *)
Definition cachedBlock (env : Env) (cacheKey blockType : string)
    (options : Options) : M Object3D :=
  let* hit := cacheGet cacheKey in
  match hit with
  | Some o => ret (clone o)
  | None =>
      rethrowing
        (let* block := createBlock env blockType options in
         let* _ := cacheSet cacheKey block in
         ret (clone block))
  end.

(** [trapdoorState.open ? 'open' : 'closed']: JavaScript truthiness. *)
Definition truthyVal (v : JSVal) : bool :=
  match v with
  | JUndefined | JNull => false
  | JBool b => b
  | JNum n => negb (Z.eqb n 0)
  | JStr s => negb (String.eqb s "")
  end.

Definition orUndefined (o : option string) : string :=
  match o with Some s => s | None => "undefined" end.

Definition trapdoorCacheKey (blockType : string) (st : TrapdoorState)
    (material : option string) : string :=
  let materialKey :=
    match material with
    | Some m => if String.eqb m "" then "" else "_material_" ++ m
    | None => ""
    end in
  blockType ++ "_" ++ (if truthyVal st.(ts_open) then "open" else "closed")
    ++ "_" ++ orUndefined st.(ts_half) ++ "_" ++ orUndefined st.(ts_facing)
    ++ materialKey.

(** The cache key of a wall or fence with connections. *)
Definition connectedCacheKey (blockType : string)
    (conns : list (string * JSVal)) : string :=
  let k := connectionsKey conns in
  blockType ++ "_" ++ (if String.eqb k "" then "no_connections" else k).

Definition loadBlock (env : Env) (blockType : string) (options : Options)
    : M Object3D :=
  if String.eqb blockType "cobweb" || String.eqb blockType "web" ||
     hasCategory env blockType "cross" then
    let* t := loadTexture env
                (orDefault options.(o_texture) "/textures/blocks/web.png") in
    ret (mesh "" webGeometry
           (Single (standardMaterial (Some t) true
                      (orQ options.(o_alphaTest) 0.8)
                      (orQ options.(o_opacity) 0.8) white DoubleSide)))
  else if includes blockType "button" then
    let* t := loadTexture env "textures/blocks/planks_spruce.png" in
    ret (mesh blockType (translate 0 0 (-0.4375) (BoxGeometry 0.25 0.25 0.125))
           (Single (standardMaterial (Some t) false 0 1 white FrontSide)))
  else if isSlabBlock blockType then
    let isUpperSlab := orFalse options.(o_isUpperSlab) in
    cachedBlock env
      (blockType ++ "_slab_" ++ (if isUpperSlab then "upper" else "lower"))
      blockType (onlyIsUpperSlab isUpperSlab)
  else if includes blockType "_trapdoor" || String.eqb blockType "trapdoor" then
    let st := match options.(o_trapdoorState) with
              | Some st => st
              | None => {| ts_open := JBool false; ts_half := Some "bottom";
                           ts_facing := Some "north" |}
              end in
    let material := match options.(o_material) with
                    | Some m => if String.eqb m "" then None else Some m
                    | None => None
                    end in
    cachedBlock env (trapdoorCacheKey blockType st material) blockType
      (onlyTrapdoor st material)
  else if includes blockType "lantern" then
    let hanging := orFalse options.(o_hanging) in
    cachedBlock env
      (blockType ++ "_" ++ (if hanging then "hanging" else "standing"))
      blockType (onlyHanging hanging)
  else if (includes blockType "_wall" || String.eqb blockType "wall" ||
           (includes blockType "_fence" && negb (includes blockType "gate")))
          && isSome options.(o_connections) then
    let conns := match options.(o_connections) with Some c => c | None => [] end in
    cachedBlock env (connectedCacheKey blockType conns) blockType
      (onlyConnections conns)
  else if String.eqb blockType "door" ||
          (endsWith blockType "_door" && negb (includes blockType "trapdoor")) then
    ret (mesh blockType (BoxGeometry 1 2 0.1875) (Single invisibleMaterial))
  else
    let* hit := cacheGet blockType in
    match hit with
    | Some o => ret (clone o)
    | None =>
        rethrowing
          (if includes blockType "concrete" || includes blockType "wool" then
             let color := orDefault options.(o_color) "white" in
             let cacheKey := blockType ++ "_" ++ color in
             let* hit' := cacheGet cacheKey in
             match hit' with
             | Some o => ret (clone o)
             | None =>
                 let* t := loadTexture env (coloredTexturePath blockType color) in
                 let block := mesh blockType (BoxGeometry 1 1 1)
                                (Single (standardMaterial (Some t) false 0 1
                                           white FrontSide)) in
                 let* _ := cacheSet cacheKey block in
                 ret (clone block)
             end
           else
             let* block := createBlock env blockType options in
             if isGroup block then ret block
             else
               let* _ := cacheSet blockType block in
               ret (clone block))
    end.

End TextureLoader.

(** ** main.js: the assembly routine [init] *)

Module Main.

Import BlockFactory TextureLoader.

Definition minRenderHeight : Z := -1.
Definition maxRenderHeight : Z := 189.

(** [Math.floor((117 + 139) / 2)] and [Math.floor((18 + 36) / 2)] *)
Definition centerX : Z := (117 + 139) / 2.
Definition centerZ : Z := (18 + 36) / 2.

(** [Math.sqrt(n) > limit] for integers [n >= 0] and [limit >= 0]: the
    square root is monotone and exact on perfect squares, so the test is
    [n > limit * limit]. *)
Definition sqrtExceeds (n limit : Z) : bool := limit * limit <? n.

(** The predicate of [allBlocks.filter(...)]. *)
Definition withinRenderRange (block : Block) : bool :=
  if (block.(y) <? minRenderHeight) || (maxRenderHeight <? block.(y)) then false
  else
    let dx := block.(x) - centerX in
    let dz := block.(z) - centerZ in
    if sqrtExceeds (dx * dx + dz * dz) 75 then false else true.

Definition woodPrefixes : list string :=
  [ "oak_"; "birch_"; "dark_oak_"; "acacia_"; "jungle_"; "mangrove_";
    "cherry_"; "crimson_"; "warped_" ].

(** The fold of every wood species to spruce. *)
Definition foldWood (t : string) : string :=
  let t1 := if existsb (includes t) woodPrefixes
            then replaceFirst woodPrefixes "spruce_" t else t in
  if String.eqb t1 "planks" then "spruce_planks"
  else if String.eqb t1 "log" || String.eqb t1 "wood" then "stripped_spruce_log"
  else t1.

Definition foldMaterial (m : option string) : option string :=
  match m with
  | Some s => if includes s "_wood" || String.eqb s "wood"
              then Some "spruce_wood" else Some s
  | None => None
  end.

Definition webRender : WebRender :=
  {| wr_texture := "web.png"; wr_renderType := "cross";
     wr_transparent := true; wr_opacity := 0.8; wr_alphaTest := 0.1;
     wr_doubleSided := true; wr_isCross := true |}.

(** The function of [.map(block => ...)]. *)
Definition recenter (block : Block) : Block :=
  if String.eqb block.(type) "cobweb" || String.eqb block.(type) "web" then
    set_z (block.(z) - centerZ)
      (set_x (block.(x) - centerX)
         (set_web (Some webRender) (set_type "web" block)))
  else
    set_material (foldMaterial block.(material))
      (set_z (block.(z) - centerZ)
         (set_x (block.(x) - centerX)
            (set_type (foldWood block.(type)) block))).

Definition renderedBlocks (allBlocks : list Block) : list Block :=
  List.map recenter (List.filter withinRenderRange allBlocks).

(** *** First pass: instance groups *)

Definition Position : Type := (Z * Z * Z)%type.

Record InstanceGroup := {
  g_type : string;
  g_options : Options;
  g_positions : list Position;
  g_count : nat
}.

(** [instanceGroups]: a [Map] in insertion order. *)
Definition Groups : Type := list (string * InstanceGroup).

Fixpoint has (key : string) (gs : Groups) : bool :=
  match gs with
  | [] => false
  | (k, _) :: rest => String.eqb k key || has key rest
  end.

(** [if (!instanceGroups.has(key)) instanceGroups.set(key, fresh)] *)
Definition ensure (key : string) (fresh : InstanceGroup) (gs : Groups) : Groups :=
  if has key gs then gs else (gs ++ [(key, fresh)])%list.

(** [instanceGroups.get(key).positions.push(p); instanceGroups.get(key).count++] *)
Fixpoint push (key : string) (p : Position) (gs : Groups) : Groups :=
  match gs with
  | [] => []
  | (k, g) :: rest =>
      if String.eqb k key then
        (k, {| g_type := g.(g_type); g_options := g.(g_options);
               g_positions := (g.(g_positions) ++ [p])%list;
               g_count := S g.(g_count) |}) :: rest
      else (k, g) :: push key p rest
  end.

Definition freshGroup (t : string) (o : Options) : InstanceGroup :=
  {| g_type := t; g_options := o; g_positions := []; g_count := 0 |}.

(** [block.isUpperSlab !== undefined ||
     (block.extra_data && block.extra_data.isUpperSlab !== undefined)] *)
Definition hasSlabFlag (block : Block) : bool :=
  SlabFactory.isSome block.(isUpperSlab) ||
  match block.(extra_data) with
  | Some e => SlabFactory.isSome e.(ed_isUpperSlab)
  | None => false
  end.

(** [block.isUpperSlab ?? block.extra_data?.isUpperSlab ?? false] *)
Definition slabFlag (block : Block) : bool :=
  match block.(isUpperSlab) with
  | Some u => u
  | None =>
      match block.(extra_data) with
      | Some e => match e.(ed_isUpperSlab) with Some u => u | None => false end
      | None => false
      end
  end.

Definition isStairType (t : string) : bool :=
  includes t "_stairs" || String.eqb t "stairs".

Definition isTrapdoorType (t : string) : bool :=
  includes t "_trapdoor" || String.eqb t "trapdoor".

Definition isColoredType (t : string) : bool :=
  includes t "concrete" || includes t "wool".

(** The options of a trapdoor group, [{ ...block, rotation, isTop, isOpen,
    key }]: the entries of the block that a builder reads.  The four added
    entries are read by nothing downstream and are left out. *)
Definition optionsOfBlock (block : Block) : Options :=
  {| o_isUpperSlab := block.(isUpperSlab); o_facing := block.(facing);
     o_half := block.(half); o_shape := block.(shape);
     o_trapdoorState := block.(trapdoorState);
     o_connections := block.(connections); o_hanging := block.(hanging);
     o_material := block.(material); o_color := block.(color);
     o_texture := None; o_opacity := None; o_alphaTest := None |}.

Definition trapdoorStateOf (block : Block) : TrapdoorState :=
  match block.(trapdoorState) with
  | Some st => st
  | None => emptyTrapdoorState
  end.

(** The key of the group a block is counted in. *)
Definition groupKey (block : Block) : string :=
  let t := block.(type) in
  if hasSlabFlag block then
    t ++ "_slab_" ++ (if slabFlag block then "upper" else "lower")
  else if isColoredType t then t
  else if isStairType t then
    t ++ "_facing_" ++ orDefault block.(facing) "east"
      ++ "_half_" ++ orDefault block.(half) "bottom"
  else if isTrapdoorType t then
    let st := trapdoorStateOf block in
    t ++ "_" ++ orDefault st.(ts_facing) "north"
      ++ "_" ++ (if isTrueOrStringTrue st.(ts_open) then "open" else "closed")
      ++ "_" ++ (match st.(ts_half) with
                 | Some h => if String.eqb h "top" then "top" else "bottom"
                 | None => "bottom"
                 end)
  else
    let k1 := match block.(connections) with
              | Some c =>
                  let ck := connectionsKey c in
                  t ++ "_connections_" ++ (if String.eqb ck "" then "none" else ck)
              | None => t
              end in
    match block.(hanging) with
    | Some h => k1 ++ "_" ++ (if h then "hanging" else "standing")
    | None => k1
    end.

(** The options stored when the group of a block is created. *)
Definition groupOptions (block : Block) : Options :=
  let t := block.(type) in
  if hasSlabFlag block then
    {| o_isUpperSlab := Some (slabFlag block); o_facing := None;
       o_half := None; o_shape := None; o_trapdoorState := None;
       o_connections := None; o_hanging := None; o_material := None;
       o_color := None; o_texture := None; o_opacity := None;
       o_alphaTest := None |}
  else if isColoredType t then
    {| o_isUpperSlab := None; o_facing := None; o_half := None;
       o_shape := None; o_trapdoorState := None; o_connections := None;
       o_hanging := None; o_material := None;
       o_color := Some (orDefault block.(color) "white");
       o_texture := None; o_opacity := None; o_alphaTest := None |}
  else if isStairType t then
    {| o_isUpperSlab := None;
       o_facing := Some (orDefault block.(facing) "east");
       o_half := Some (orDefault block.(half) "bottom");
       o_shape := Some (orDefault block.(shape) "straight");
       o_trapdoorState := None; o_connections := None; o_hanging := None;
       o_material := None; o_color := None; o_texture := None;
       o_opacity := None; o_alphaTest := None |}
  else if isTrapdoorType t then optionsOfBlock block
  else
    {| o_isUpperSlab := block.(isUpperSlab); o_facing := None;
       o_half := None; o_shape := None;
       o_trapdoorState := block.(trapdoorState);
       o_connections := block.(connections); o_hanging := block.(hanging);
       o_material := block.(material); o_color := None; o_texture := None;
       o_opacity := None; o_alphaTest := None |}.

(** The position a branch pushes itself, before the push every block gets
    at the end of the loop body. *)
Definition branchPush (block : Block) : list Position :=
  let t := block.(type) in
  if hasSlabFlag block then
    [(block.(x) - centerX, block.(y), block.(z) - centerZ)]
  else if isColoredType t then
    [(block.(x) - centerX, block.(y), block.(z) - centerZ)]
  else if isStairType t then [(block.(x), block.(y), block.(z))]
  else [].

(** One iteration of [for (const block of blocks)]. *)
Definition countBlock (gs : Groups) (block : Block) : Groups :=
  let key := groupKey block in
  let gs1 := ensure key (freshGroup block.(type) (groupOptions block)) gs in
  let gs2 := fold_left (fun acc p => push key p acc) (branchPush block) gs1 in
  push key (block.(x), block.(y), block.(z)) gs2.

Definition instanceGroups (blocks : list Block) : Groups :=
  fold_left countBlock blocks [].

(** *** Second pass: one template per cache key *)

(** Trapdoors, stairs and slabs use the group key, every other type its
    block type. *)
Definition templateCacheKey (key : string) (group : InstanceGroup) : string :=
  let t := group.(g_type) in
  if includes t "trapdoor" || includes t "_stairs" || String.eqb t "stairs" ||
     includes t "_slab" || String.eqb t "slab"
  then key else t.

(** What one [loadBlock(...).then(...).catch(...)] leaves behind: the
    template to store, or the error that was logged. *)
Definition Settled : Type := (string * Result Object3D)%type.

(** The loop that issues the loads.  It contains no [await], so
    [templateCache] is still empty at every [has] test and a load is
    issued for every group.  The loads are run here one after the other,
    in the order they are issued; in the browser they interleave at their
    [await]s and may settle in another order, which decides the template
    that stays in [templateCache] when two groups share a cache key. *)
Fixpoint loadTemplates (env : Env) (gs : Groups) (s : Store)
    : list Settled * Store :=
  match gs with
  | [] => ([], s)
  | (key, group) :: rest =>
      let '(r, s1) := loadBlock env group.(g_type) group.(g_options) s in
      let '(settled, s2) := loadTemplates env rest s1 in
      ((templateCacheKey key group, r) :: settled, s2)
  end.

(** [templateCache] after [await Promise.all(loadingPromises)]. *)
Definition templateCacheOf (settled : list Settled) : gmap string Object3D :=
  fold_left (fun m '(k, r) =>
               match r with
               | Ok template => <[k := template]> m
               | Throw _ => m
               end) settled ∅.

(** The errors written to the console by the [.catch] handlers. *)
Definition loggedFailures (settled : list Settled) : list (string * Error) :=
  flat_map (fun '(k, r) =>
              match r with
              | Ok _ => []
              | Throw e => [(k, e)]
              end) settled.

(** *** Third pass: instancing *)

Definition Mat3 : Type := ((Z * Z * Z) * (Z * Z * Z) * (Z * Z * Z))%type.

Definition identity3 : Mat3 := ((1, 0, 0), (0, 1, 0), (0, 0, 1)).

Definition mul3 (a b : Mat3) : Mat3 :=
  let '((a11, a12, a13), (a21, a22, a23), (a31, a32, a33)) := a in
  let '((b11, b12, b13), (b21, b22, b23), (b31, b32, b33)) := b in
  ((a11 * b11 + a12 * b21 + a13 * b31,
    a11 * b12 + a12 * b22 + a13 * b32,
    a11 * b13 + a12 * b23 + a13 * b33),
   (a21 * b11 + a22 * b21 + a23 * b31,
    a21 * b12 + a22 * b22 + a23 * b32,
    a21 * b13 + a22 * b23 + a23 * b33),
   (a31 * b11 + a32 * b21 + a33 * b31,
    a31 * b12 + a32 * b22 + a33 * b32,
    a31 * b13 + a32 * b23 + a33 * b33)).

(** Cosine and sine of [k] quarter turns.  The angles of the stair
    matrices are the multiples [k * Math.PI / 2]; the entries are the exact
    values, without the rounding residue of the floating-point ones. *)
Definition cosQuarter (k : Z) : Z :=
  match k mod 4 with 0 => 1 | 2 => -1 | _ => 0 end.

Definition sinQuarter (k : Z) : Z :=
  match k mod 4 with 1 => 1 | 3 => -1 | _ => 0 end.

(** [makeRotationY(k * Math.PI / 2)] *)
Definition makeRotationY (k : Z) : Mat3 :=
  let c := cosQuarter k in
  let s := sinQuarter k in
  ((c, 0, s), (0, 1, 0), (- s, 0, c)).

(** [makeRotationX(k * Math.PI / 2)] *)
Definition makeRotationX (k : Z) : Mat3 :=
  let c := cosQuarter k in
  let s := sinQuarter k in
  ((1, 0, 0), (0, c, - s), (0, s, c)).

(** The rotation part of the instance matrix of a stair group. *)
Definition stairRotation (facing half : string) : Mat3 :=
  let m0 :=
    if String.eqb facing "north" then makeRotationY 2
    else if String.eqb facing "south" then makeRotationY 0
    else if String.eqb facing "west" then makeRotationY 3
    else if String.eqb facing "east" then makeRotationY 1
    else identity3 in
  let m1 := if String.eqb half "top" then mul3 m0 (makeRotationX 2) else m0 in
  mul3 m1 (if String.eqb half "top" then makeRotationY (-1) else makeRotationY 1).

Record Matrix4 := { rotation : Mat3; translation : Position }.

Definition instanceMatrix (group : InstanceGroup) (pos : Position) : Matrix4 :=
  {| rotation :=
       if isStairType group.(g_type) then
         stairRotation (orDefault group.(g_options).(o_facing) "east")
                       (orDefault group.(g_options).(o_half) "bottom")
       else identity3;
     translation := pos |}.

Record InstancedMesh := {
  im_name : string;
  im_geometry : Geometry;
  im_material : MeshMaterial;
  im_matrices : list Matrix4
}.

(** An entry of [instancedMeshes]. *)
Record Entry := {
  entry_mesh : InstancedMesh;
  isTransparent : bool;
  isLeaf : bool;
  isSlab : bool
}.

Definition anyTransparent (m : MeshMaterial) : bool :=
  match m with
  | Single mat => mat.(mat_transparent)
  | Multi mats => existsb mat_transparent mats
  end.

(** The per-block groups built from a composite template: the mesh
    children of the template, placed at the block position. *)
Record BlockGroup := {
  bg_index : nat;
  bg_parts : list Object3D;
  bg_position : Position
}.

Record Container := {
  c_name : string;
  c_blocks : list BlockGroup
}.

Definition isMesh (o : Object3D) : bool :=
  match o with Mesh _ _ _ _ _ _ _ => true | _ => false end.

Inductive Emitted : Type :=
| EmitContainer (c : Container)
| EmitInstanced (e : Entry)
| EmitNothing.

(** The body of the instancing loop for one group. *)
Definition instantiate (templateCache : gmap string Object3D)
    (key : string) (group : InstanceGroup) : Emitted :=
  match templateCache !! templateCacheKey key group with
  | None => EmitNothing
  | Some (Group _ children _ _) =>
      EmitContainer
        {| c_name := "container_" ++ key;
           c_blocks :=
             SlabFactory.mapi
               (fun i pos =>
                  {| bg_index := i;
                     bg_parts := List.filter isMesh children;
                     bg_position := pos |})
               0 group.(g_positions) |}
  | Some (Mesh _ geometry material _ _ _ _) =>
      EmitInstanced
        {| entry_mesh :=
             {| im_name := key; im_geometry := geometry;
                im_material := material;
                im_matrices := List.map (instanceMatrix group) group.(g_positions) |};
           isTransparent := anyTransparent material;
           isLeaf := includes key "leaves";
           isSlab := includes key "_slab_" |}
  | Some (Light _ _) => EmitNothing
  end.

Definition emitted (templateCache : gmap string Object3D) (gs : Groups)
    : list Emitted :=
  List.map (fun '(key, group) => instantiate templateCache key group) gs.

Definition containersOf (es : list Emitted) : list Container :=
  flat_map (fun e => match e with EmitContainer c => [c] | _ => [] end) es.

Definition instancedOf (es : list Emitted) : list Entry :=
  flat_map (fun e => match e with EmitInstanced i => [i] | _ => [] end) es.

(** *** Draw order *)

(** The comparator of [instancedMeshes.sort(...)]. *)
Definition compareEntries (a b : Entry) : Z :=
  if a.(isTransparent) && negb b.(isTransparent) then 1
  else if negb a.(isTransparent) && b.(isTransparent) then -1
  else if a.(isLeaf) && negb b.(isLeaf) then 1
  else if negb a.(isLeaf) && b.(isLeaf) then -1
  else if a.(isSlab) && negb b.(isSlab) then 1
  else if negb a.(isSlab) && b.(isSlab) then -1
  else 0.

Definition sortInstanced (l : list Entry) : list Entry :=
  JSArray.sort compareEntries l.

(** *** The whole of [init] up to the scene contents *)

Record Scene := {
  containers : list Container;
  instanced : list Entry;
  consoleErrors : list (string * Error)
}.

Definition init (env : Env) (allBlocks : list Block) (s : Store) : Scene * Store :=
  let groups := instanceGroups (renderedBlocks allBlocks) in
  let '(settled, s') := loadTemplates env groups s in
  let es := emitted (templateCacheOf settled) groups in
  ({| containers := containersOf es;
      instanced := sortInstanced (instancedOf es);
      consoleErrors := loggedFailures settled |}, s').

End Main.

(** ** textureManager.js: getTexturePath *)

Module TextureManager.

(** The tables of blockData.js that [getTexturePath] reads.  An entry of
    [SPECIAL_TEXTURE_MAPPINGS] is looked up by face name. *)
Record Tables := {
  LEAF_TEXTURE_MAPPINGS : string -> option string;
  SPECIAL_TEXTURE_MAPPINGS : string -> option (string -> option string);
  TEXTURE_NAME_MAPPINGS : string -> option string;
  BLOCK_CATEGORIES_FALLBACKS : list (string * list string)
}.

Definition blocksDir : string := "textures/blocks/".

(** [mapping[face]] when truthy, else [mapping['default']] when truthy. *)
Definition faceOrDefault (m : string -> option string) (face : string) : option string :=
  if SlabFactory.truthy (m face) then m face
  else if SlabFactory.truthy (m "default") then m "default"
  else None.

(** The path an entry of the special table gives for a type, if any. *)
Definition specialPath (t : Tables) (blockType face : string) : option string :=
  match t.(SPECIAL_TEXTURE_MAPPINGS) blockType with
  | Some m =>
      match faceOrDefault m face with
      | Some name => Some (blocksDir ++ name)
      | None => None
      end
  | None => None
  end.

(** [MAP[key] && MAP[key]['default']] *)
Definition specialDefault (t : Tables) (key : string) : option string :=
  match t.(SPECIAL_TEXTURE_MAPPINGS) key with
  | Some m => if SlabFactory.truthy (m "default") then m "default" else None
  | None => None
  end.

Definition woodenSlabs : list string :=
  [ "oak_slab"; "spruce_slab"; "birch_slab"; "jungle_slab"; "acacia_slab";
    "dark_oak_slab"; "crimson_slab"; "warped_slab"; "mangrove_slab";
    "bamboo_slab"; "cherry_slab" ].

(** The plant type read from a double-plant type, as in [processBlocks]. *)
Definition plantTypeOf (blockType : string) : string :=
  let parts := split "_"%char blockType in
  if (2 <? length parts)%nat then nth 2 parts "grass" else "grass".

Definition slabPath (t : Tables) (blockType face : string) : string :=
  if String.eqb blockType "slab" then blocksDir ++ "magenta_wool.png"
  else
    match specialPath t blockType face with
    | Some p => p
    | None =>
        if existsb (includes blockType) woodenSlabs then
          let planksType := replaceFirst ["_slab"] "_planks" blockType in
          match specialDefault t planksType with
          | Some name => blocksDir ++ name
          | None => blocksDir ++ planksType ++ ".png"
          end
        else
          let baseBlockType := replaceFirst ["_slab"] "" blockType in
          match specialPath t baseBlockType face with
          | Some p => p
          | None => blocksDir ++ baseBlockType ++ ".png"
          end
    end.

Definition wallPath (t : Tables) (blockType face : string) : string :=
  if String.eqb blockType "wall" then blocksDir ++ "cobblestone.png"
  else
    match specialPath t blockType face with
    | Some p => p
    | None =>
        let baseBlockType := replaceFirst ["_wall"] "" blockType in
        match specialPath t baseBlockType face with
        | Some p => p
        | None => blocksDir ++ baseBlockType ++ ".png"
        end
    end.

Definition fencePath (t : Tables) (blockType face : string) : string :=
  if String.eqb blockType "fence" then blocksDir ++ "planks_oak.png"
  else
    match specialPath t blockType face with
    | Some p => p
    | None =>
        let planksType := replaceFirst ["_fence"] "_planks" blockType in
        match specialDefault t planksType with
        | Some name => blocksDir ++ name
        | None => blocksDir ++ planksType ++ ".png"
        end
    end.

Definition trapdoorPath (t : Tables) (blockType face : string) : string :=
  if String.eqb blockType "trapdoor" then "textures/blocks/oak_trapdoor.png"
  else
    match specialPath t blockType face with
    | Some p => p
    | None => blocksDir ++ blockType ++ ".png"
    end.

Definition doorPath (t : Tables) (blockType face : string) : string :=
  if String.eqb blockType "door" then
    blocksDir ++ "door_dark_oak_" ++ face ++ ".png"
  else
    match t.(SPECIAL_TEXTURE_MAPPINGS) blockType with
    | Some m =>
        if SlabFactory.truthy (m face) then
          blocksDir ++ match m face with Some n => n | None => "" end
        else blocksDir ++ blockType ++ "_" ++ face ++ ".png"
    | None => blocksDir ++ blockType ++ "_" ++ face ++ ".png"
    end.

(** The loop over [Object.entries(BLOCK_CATEGORIES_FALLBACKS)]. *)
Definition inFallbackCategory (t : Tables) (blockType : string) : bool :=
  existsb (fun '(pattern, blocks) =>
             existsb (String.eqb blockType) blocks || includes blockType pattern)
          t.(BLOCK_CATEGORIES_FALLBACKS).

(** [getTexturePath(blockType, face)] *)
Definition getTexturePath (t : Tables) (blockType0 face : string) : string :=
  let blockType := stripWaxedPrefix blockType0 in
  if includes blockType "leaves" &&
     SlabFactory.truthy (t.(LEAF_TEXTURE_MAPPINGS) blockType) then
    blocksDir ++ match t.(LEAF_TEXTURE_MAPPINGS) blockType with
                 | Some n => n
                 | None => ""
                 end
  else if includes blockType "double_plant" then
    let plantType := plantTypeOf blockType in
    if includes blockType "_top" then
      blocksDir ++ "double_plant_" ++ plantType ++ "_top.tga"
    else if includes blockType "_bottom" then
      blocksDir ++ "double_plant_" ++ plantType ++ "_bottom.tga"
    else blocksDir ++ "double_plant_" ++ plantType ++ "_bottom.tga"
  else if includes blockType "_slab" || String.eqb blockType "slab" then
    slabPath t blockType face
  else if includes blockType "_wall" || String.eqb blockType "wall" then
    wallPath t blockType face
  else if includes blockType "_fence" && negb (includes blockType "gate") then
    fencePath t blockType face
  else if includes blockType "_trapdoor" || String.eqb blockType "trapdoor" then
    trapdoorPath t blockType face
  else if String.eqb blockType "door" ||
          (endsWith blockType "_door" && negb (includes blockType "trapdoor")) then
    doorPath t blockType face
  else
    match specialPath t blockType face with
    | Some p => p
    | None =>
        match t.(TEXTURE_NAME_MAPPINGS) blockType with
        | Some n =>
            if String.eqb n "" then
              if inFallbackCategory t blockType
              then blocksDir ++ blockType ++ "_" ++ face ++ ".png"
              else blocksDir ++ blockType ++ ".png"
            else blocksDir ++ n
        | None =>
            if inFallbackCategory t blockType
            then blocksDir ++ blockType ++ "_" ++ face ++ ".png"
            else blocksDir ++ blockType ++ ".png"
        end
    end.

End TextureManager.

(** ** WorldLoader: the spawn chunk and its fallback *)

Module SpawnChunk.

(** [lo, lo + 1, ..., lo + count - 1] *)
Definition zrange (lo : Z) (count : nat) : list Z :=
  List.map (fun i => lo + Z.of_nat i) (seq 0 count).

Definition at2 (bx bz px pz : Z) : bool := Z.eqb bx px && Z.eqb bz pz.

Definition slabAt (t : string) (bx bz : Z) (upper : bool) : Block :=
  set_isUpperSlab (Some upper) (plainBlock t bx 6 bz).

(** The tree at (4, 4) and (12, 12): a trunk and the leaves around its
    top, those inside the chunk.  The [is_leaf] marker of the leaf records
    is read by nothing and has no field here. *)
Definition tree (chunkSize bx bz : Z) : list Block :=
  (List.map (fun by_ => plainBlock "oak_log" bx by_ bz) (zrange 6 5) ++
   flat_map (fun lx =>
     flat_map (fun lz =>
       flat_map (fun ly =>
         if (0 <=? lx) && (lx <? chunkSize) && (0 <=? lz) && (lz <? chunkSize)
         then [plainBlock "oak_leaves" lx ly lz] else [])
         (zrange 9 3))
       (zrange (bz - 2) 5))
     (zrange (bx - 2) 5))%list.

Definition when (c : bool) (l : list Block) : list Block := if c then l else [].

(** The records pushed for one column of the test chunk. *)
Definition column (chunkSize bx bz : Z) : list Block :=
  ([plainBlock "bedrock" bx 0 bz] ++
   List.map (fun by_ => plainBlock "stone" bx by_ bz) (zrange 1 3) ++
   [plainBlock "dirt" bx 4 bz; plainBlock "grass_block" bx 5 bz] ++
   when (at2 bx bz 4 4 || at2 bx bz 12 12) (tree chunkSize bx bz) ++
   when (at2 bx bz 6 6 || at2 bx bz 10 10 || at2 bx bz 8 2)
        [plainBlock "double_plant_grass" bx 6 bz] ++
   when (at2 bx bz 7 7 || at2 bx bz 11 11)
        [plainBlock "double_plant_fern" bx 6 bz] ++
   when (at2 bx bz 3 3 || at2 bx bz 9 9) [slabAt "stone_slab" bx bz false] ++
   when (at2 bx bz 3 4 || at2 bx bz 9 10) [slabAt "stone_slab" bx bz true] ++
   when (at2 bx bz 5 3 || at2 bx bz 11 9) [slabAt "oak_slab" bx bz false] ++
   when (at2 bx bz 5 4 || at2 bx bz 11 10) [slabAt "oak_slab" bx bz true] ++
   when (at2 bx bz 7 3 || at2 bx bz 13 9) [slabAt "spruce_slab" bx bz false] ++
   when (at2 bx bz 7 4 || at2 bx bz 13 10) [slabAt "sandstone_slab" bx bz true] ++
   when (at2 bx bz 9 3) [slabAt "cobblestone_slab" bx bz false] ++
   when (at2 bx bz 9 4) [slabAt "brick_slab" bx bz true])%list.

(** [generateTestChunk()] for a loader whose [chunkSize] is the argument. *)
Definition generateTestChunk (chunkSize : nat) : list Block :=
  flat_map (fun bx =>
              flat_map (fun bz => column (Z.of_nat chunkSize) bx bz)
                       (zrange 0 chunkSize))
           (zrange 0 chunkSize).

(** *** The answer of the server, before validation

    [loadSpawnChunk] hands the blocks array of the answer to
    [processBlocks] as it came and validates the records afterwards, inside
    a [try] whose handler answers the test chunk.  The records are
    therefore taken here as JSON gives them: the type and the coordinates
    may be of any JSON type. *)

(** A coordinate of a record: [null], a boolean, a number or a string.
    Numbers are integers, printed in decimal (as JavaScript prints them
    below 10^21).  An array or an object in the place of a coordinate acts
    as the string of its text does: it is no number, and [+ 1] appends '1'
    to the text.  Every record carries its three coordinates: a record that
    lacks one is not represented (if it lacks [y], [y + 1] is [NaN], which
    the coordinates of a [Block] cannot hold). *)
Inductive Scalar : Type :=
| SNull
| SBool (b : bool)
| SNum (n : Z)
| SStr (s : string).

Definition decimal (n : Z) : string := NilEmpty.string_of_int (Z.to_int n).

(** [`${v}`] *)
Definition toStr (v : Scalar) : string :=
  match v with
  | SNull => "null"
  | SBool b => if b then "true" else "false"
  | SNum n => decimal n
  | SStr s => s
  end.

(** [v + 1]: addition on [null], booleans and numbers, concatenation on
    strings. *)
Definition plusOne (v : Scalar) : Scalar :=
  match v with
  | SNull => SNum 1
  | SBool b => SNum (if b then 2 else 1)
  | SNum n => SNum (n + 1)
  | SStr s => SStr (s ++ "1")
  end.


(** The [type] of a record: a string; an array, of which only the string
    elements matter to [includes]; or anything else ([undefined], [null],
    a number, a boolean, an object), on which calling [includes] throws. *)
Inductive RawType : Type :=
| TypeString (s : string)
| TypeArray (strings : list string)
| TypeOther.

(** A record of the blocks array.  [fields] holds the fields other than
    the type and the coordinates as [processBlocks] reads them; the type
    and the coordinates of [fields] itself are not read. *)
Record RawBlock := {
  raw_type : RawType;
  raw_x : Scalar;
  raw_y : Scalar;
  raw_z : Scalar;
  fields : Block
}.

(** An element of the blocks array: [null], a record, or a value without
    fields (a number, a string, a boolean, an array), whose [x], [y], [z]
    and [type] all read as [undefined]. *)
Inductive Element : Type :=
| ENull
| EPrimitive
| ERecord (r : RawBlock).

(** [`${x},${y},${z}`] *)
Definition keyStr (vx vy vz : Scalar) : string :=
  toStr vx ++ "," ++ toStr vy ++ "," ++ toStr vz.

(** The key of an element; reading [x] of [null] throws. *)
Definition keyOfElement (e : Element) : option string :=
  match e with
  | ENull => None
  | EPrimitive => Some "undefined,undefined,undefined"
  | ERecord r => Some (keyStr r.(raw_x) r.(raw_y) r.(raw_z))
  end.

(** [blocks.forEach(block => blockMap.set(key, block))]; [None] when the
    callback throws. *)
Fixpoint buildRawMap (blocks : list Element) (m : gmap string (option Element))
    : option (gmap string (option Element)) :=
  match blocks with
  | [] => Some m
  | e :: rest =>
      match keyOfElement e with
      | None => None
      | Some k => buildRawMap rest (<[k := Some e]> m)
      end
  end.

(** [blockMap.get(key) === null] *)
Definition isNullAt (m : gmap string (option Element)) (k : string) : bool :=
  match m !! k with
  | Some None => true
  | _ => false
  end.

(** A pushed record: the fields of [b], at the coordinates of [r] with
    [vy] for [y]. *)
Definition pushed (r : RawBlock) (vy : Scalar) (b : Block) : RawBlock :=
  {| raw_type := TypeString b.(type); raw_x := r.(raw_x); raw_y := vy;
     raw_z := r.(raw_z); fields := b |}.

(** What the loop body pushes for a record whose type is the string [t]:
    the cascade of [processBlock], the coordinates copied as they are and
    [y + 1] computed on the raw value. *)
Definition pushes (r : RawBlock) (t : string) : list RawBlock :=
  let b := set_type t r.(fields) in
  if includes t "double_plant" then
    [ pushed r r.(raw_y) (WorldLoader.doublePlantBottom b);
      pushed r (plusOne r.(raw_y)) (WorldLoader.doublePlantTop b) ]
  else List.map (pushed r r.(raw_y)) (WorldLoader.processBlock b).

Definition RawLoop : Type := (gmap string (option Element) * list RawBlock)%type.

(** One iteration of the loop of [processBlocks] on a raw element; [None]
    when it throws.  On an array [includes] tests membership: with
    'double_plant' among the elements the call of [split] throws, and
    otherwise one record is pushed that keeps the array as its type (the
    other fields of that record are left as they were here; validation
    drops it for its type). *)
Definition rawStep (st : RawLoop) (e : Element) : option RawLoop :=
  let '(m, out) := st in
  match e with
  | ENull => None
  | EPrimitive =>
      if isNullAt m "undefined,undefined,undefined" then Some st else None
  | ERecord r =>
      if isNullAt m (keyStr r.(raw_x) r.(raw_y) r.(raw_z)) then Some st
      else
        match r.(raw_type) with
        | TypeOther => None
        | TypeArray strings =>
            if existsb (String.eqb "double_plant") strings then None
            else Some (m, (out ++ [r])%list)
        | TypeString t =>
            if includes t "double_plant" then
              Some (<[keyStr r.(raw_x) (plusOne r.(raw_y)) r.(raw_z) := None]> m,
                    (out ++ pushes r t)%list)
            else Some (m, (out ++ pushes r t)%list)
        end
  end.

Fixpoint rawLoop (blocks : list Element) (st : RawLoop) : option RawLoop :=
  match blocks with
  | [] => Some st
  | e :: rest =>
      match rawStep st e with
      | None => None
      | Some st' => rawLoop rest st'
      end
  end.

(** [processBlocks(data.blocks)] on the raw array; [None] when it throws. *)
Definition processRaw (blocks : list Element) : option (list RawBlock) :=
  match buildRawMap blocks ∅ with
  | None => None
  | Some m =>
      match rawLoop blocks (m, []) with
      | None => None
      | Some (_, out) => Some out
      end
  end.

(** The test of the validation filter: a string type and three numbers.
    A record that passes is a [Block]. *)
Definition toBlock (r : RawBlock) : option Block :=
  match r.(raw_type), r.(raw_x), r.(raw_y), r.(raw_z) with
  | TypeString t, SNum bx, SNum by_, SNum bz =>
      let f := r.(fields) in
      Some {| type := t; x := bx; y := by_; z := bz; data := f.(data);
              isUpperSlab := f.(isUpperSlab); extra_data := f.(extra_data);
              stairData := f.(stairData); facing := f.(facing);
              half := f.(half); shape := f.(shape);
              trapdoorState := f.(trapdoorState); color := f.(color);
              connections := f.(connections); hanging := f.(hanging);
              material := f.(material); originalData := f.(originalData);
              originalType := f.(originalType);
              is_double_plant_bottom := f.(is_double_plant_bottom);
              is_double_plant_top := f.(is_double_plant_top);
              web := f.(web) |}
  | _, _, _, _ => None
  end.

(** [processedBlocks.filter(block => ...)] *)
Definition validate (processed : list RawBlock) : list Block :=
  flat_map (fun r => match toBlock r with Some b => [b] | None => [] end)
           processed.


(** What the loader has to work with.  [FetchFailed]: the request failed,
    the status was not ok or the body was no JSON object.  [Answer None]:
    an answer (or the custom data set beforehand) without a blocks
    array. *)
Inductive ServerData : Type :=
| FetchFailed
| Answer (blocks : option (list Element)).

(** [loadSpawnChunk()].  Every exception inside, those of [processBlocks]
    included, is caught and answered with the test chunk. *)
Definition loadSpawnChunk (chunkSize : nat) (data : ServerData) : list Block :=
  match data with
  | FetchFailed => generateTestChunk chunkSize
  | Answer None => generateTestChunk chunkSize
  | Answer (Some blocks) =>
      match processRaw blocks with
      | None => generateTestChunk chunkSize
      | Some processedBlocks =>
          let validBlocks := validate processedBlocks in
          if Nat.eqb (length validBlocks) 0 then generateTestChunk chunkSize
          else validBlocks
      end
  end.

(** [setChunkRange(range)]: [Math.max(0, range)] *)
Definition setChunkRange (range : Z) : Z := Z.max 0 range.

End SpawnChunk.

(** ** main.js: getTrapdoorRotation *)

(** The names an object literal inherits from [Object.prototype]: the
    members of the language standard and its annex for browsers.
    [baseRotations[name]] is then that member, a function (an object for
    '__proto__'), which is truthy. *)
Definition objectPrototypeMembers : list string :=
  [ "constructor"; "hasOwnProperty"; "isPrototypeOf"; "propertyIsEnumerable";
    "toLocaleString"; "toString"; "valueOf"; "__proto__";
    "__defineGetter__"; "__defineSetter__"; "__lookupGetter__";
    "__lookupSetter__" ].

(** What [getTrapdoorRotation] returns: a number, here in units of pi; or,
    when the lookup found an inherited member, that member itself (closed)
    or the string made of its text and the text of [Math.PI * 0.5]
    (open, where [+=] concatenates). *)
Inductive TrapdoorRotation : Type :=
| Radians (piUnits : Q)
| Member (name : string)
| MemberText (name : string).

(** [baseRotations[facing] || Math.PI], plus a quarter turn when open.
    The entry of 'south' is 0, which is falsy; a facing that is neither a
    key of the table nor an inherited name finds [undefined]. *)
Definition getTrapdoorRotation (facing : string) (isOpen : bool)
    : TrapdoorRotation :=
  let entry : option Q :=
    if String.eqb facing "north" then Some 1%Q
    else if String.eqb facing "south" then Some 0%Q
    else if String.eqb facing "west" then Some 1.5%Q
    else if String.eqb facing "east" then Some 0.5%Q
    else None in
  match entry with
  | None =>
      if existsb (String.eqb facing) objectPrototypeMembers then
        if isOpen then MemberText facing else Member facing
      else Radians (if isOpen then Qred (1 + 0.5) else 1)
  | Some _ =>
      let rotation := orQ entry 1 in
      Radians (if isOpen then Qred (rotation + 0.5) else rotation)
  end.

(** * Environments, samples and observations *)

(** An environment in which every texture loads, no table has an entry and
    every random draw is [r]. *)
Definition plainEnv (r : Q) : Env :=
  {| textureLoads := fun _ => true;
     getTexturePath := fun t face => "textures/blocks/" ++ t ++ "_" ++ face ++ ".png";
     BLOCK_PROPERTIES := fun _ => None;
     SPECIAL_TEXTURE_MAPPINGS := fun _ => None;
     random := fun _ => r |}.

(** The same environment with the image at [path] missing. *)
Definition envWithout (path : string) : Env :=
  {| textureLoads := fun p => negb (String.eqb p path);
     getTexturePath := fun t face => "textures/blocks/" ++ t ++ "_" ++ face ++ ".png";
     BLOCK_PROPERTIES := fun _ => None;
     SPECIAL_TEXTURE_MAPPINGS := fun _ => None;
     random := fun _ => 0%Q |}.

(** [env] with another random source. *)
Definition withRandom (env : Env) (r : nat -> Q) : Env :=
  {| textureLoads := env.(textureLoads);
     getTexturePath := env.(getTexturePath);
     BLOCK_PROPERTIES := env.(BLOCK_PROPERTIES);
     SPECIAL_TEXTURE_MAPPINGS := env.(SPECIAL_TEXTURE_MAPPINGS);
     random := r |}.

(** Records with one more field set, for writing sample blocks. *)
Definition withData (d : Z) (b : Block) : Block :=
  {| type := b.(type); x := b.(x); y := b.(y); z := b.(z); data := Some d;
     isUpperSlab := b.(isUpperSlab); extra_data := b.(extra_data);
     stairData := b.(stairData); facing := b.(facing); half := b.(half);
     shape := b.(shape); trapdoorState := b.(trapdoorState);
     color := b.(color); connections := b.(connections);
     hanging := b.(hanging); material := b.(material);
     originalData := b.(originalData); originalType := b.(originalType);
     is_double_plant_bottom := b.(is_double_plant_bottom);
     is_double_plant_top := b.(is_double_plant_top); web := b.(web) |}.

Definition withConnections (c : list (string * JSVal)) (b : Block) : Block :=
  {| type := b.(type); x := b.(x); y := b.(y); z := b.(z); data := b.(data);
     isUpperSlab := b.(isUpperSlab); extra_data := b.(extra_data);
     stairData := b.(stairData); facing := b.(facing); half := b.(half);
     shape := b.(shape); trapdoorState := b.(trapdoorState);
     color := b.(color); connections := Some c;
     hanging := b.(hanging); material := b.(material);
     originalData := b.(originalData); originalType := b.(originalType);
     is_double_plant_bottom := b.(is_double_plant_bottom);
     is_double_plant_top := b.(is_double_plant_top); web := b.(web) |}.

(** Run a builder on each element of a list, threading the store. *)
Fixpoint runAll {A B} (f : A -> M B) (l : list A) (s : Store)
    : list (Result B) * Store :=
  match l with
  | [] => ([], s)
  | a :: rest =>
      let '(r, s1) := f a s in
      let '(rs, s2) := runAll f rest s1 in
      (r :: rs, s2)
  end.

(** Every entry of the stair geometry cache is the east geometry. *)
Definition StairCacheOk (s : Store) : Prop :=
  forall k g, s.(stairGeometryCache) !! k = Some g ->
              k = "stair_east" /\ g = StairFactory.buildStairGeometry.

(** Every entry of the slab geometry cache under the two keys of
    [getSlabGeometry] is the geometry of that half.  [getSlabGeometry] is
    the only writer of this cache, so every store the program reaches
    satisfies it. *)
Definition SlabCacheOk (s : Store) : Prop :=
  forall (u : bool) (g : Geometry),
    s.(slabGeometryCache) !! (if u then "upper_slab" else "lower_slab") = Some g ->
    g = SlabFactory.buildSlabGeometry u.

(** The block types that [loadBlock] and [createBlock] hand to the slab
    builder: slab types that none of the earlier tests of the two
    functions catches (the cobweb and cross test and the button test of
    [loadBlock]; chain, torch, door, grindstone and concrete or wool in
    [createBlock]). *)
Definition servedAsSlab (env : Env) (t : string) : bool :=
  SlabFactory.isSlabBlock t
  && negb (String.eqb t "cobweb" || String.eqb t "web"
           || TextureLoader.hasCategory env t "cross")
  && negb (includes t "button")
  && negb (BlockFactory.isChainBlock t)
  && negb (includes t "torch")
  && negb (BlockFactory.isDoorBlock t)
  && negb (GrindstoneFactory.isGrindstoneBlock t)
  && negb (includes t "concrete" || includes t "wool").

(** The rotation [createStairBlock] gives the template mesh. *)
Definition stairTemplateRotation (o : StairFactory.StairOptions) : Vec3 :=
  (if String.eqb (orDefault o.(StairFactory.so_half) "bottom") "top" then 1 else 0,
   StairFactory.facingYaw (orDefault o.(StairFactory.so_facing) "east"), 0)%Q.

(** The mesh [createStairBlock] returns when the texture loads. *)
Definition stairMesh (blockType : string) (o : StairFactory.StairOptions) : Object3D :=
  Mesh blockType StairFactory.buildStairGeometry
    (Single (StairFactory.stairMaterial
               (LoadedTexture "textures/blocks/planks_spruce.png")))
    origin (stairTemplateRotation o) unitScale noUserData.

Definition stairOptionsFacing (f : string) : StairFactory.StairOptions :=
  {| StairFactory.so_facing := Some f; StairFactory.so_half := None;
     StairFactory.so_shape := None |}.

Definition fourFacings : list string := ["north"; "south"; "east"; "west"].

(** The order a comparator induces: [a] may come before [b]. *)
Definition orderedBy {A} (compareFn : A -> A -> Z) (a b : A) : Prop :=
  compareFn a b <= 0.

(** The draw rank of an entry: transparency first, then foliage, then slabs. *)
Definition drawRank (e : Main.Entry) : Z :=
  (if e.(Main.isTransparent) then 4 else 0)
  + (if e.(Main.isLeaf) then 2 else 0)
  + (if e.(Main.isSlab) then 1 else 0).

(** An instanced node with the given flags, for examples. *)
Definition sampleEntry (name : string) (t l sl : bool) : Main.Entry :=
  {| Main.entry_mesh :=
       {| Main.im_name := name; Main.im_geometry := emptyGeometry;
          Main.im_material := Multi []; Main.im_matrices := [] |};
     Main.isTransparent := t; Main.isLeaf := l; Main.isSlab := sl |}.

(** A snapshot with one stair and one stone block next to the center. *)
Definition stairAndStone : list Block :=
  [plainBlock "oak_stairs" 128 1 27; plainBlock "stone" 129 1 27].

(** The center post of a wall and of a fence. *)
Definition wallPost (material : Material) : Object3D :=
  meshAt (BoxGeometry 0.5 1 0.5) (Single material) origin origin.

Definition fencePost (material : Material) : Object3D :=
  meshAt (BoxGeometry 0.25 1 0.25) (Single material) origin origin.

(** A computation is quiet when it leaves the store as it found it. *)
Definition quiet {A} (c : M A) : Prop := forall s, snd (c s) = s.

(** A computation succeeds when it returns a value from every store. *)
Definition succeeds {A} (c : M A) : Prop :=
  forall s, exists a s', c s = (Ok a, s').

(** Lowest and highest vertical coordinate of a geometry. *)
Definition minY (g : Geometry) : Q :=
  match g.(positions) with
  | [] => 0%Q
  | (_, py, _) :: rest =>
      fold_left (fun acc '(_, qy, _) => if Qle_bool qy acc then qy else acc) rest py
  end.

Definition maxY (g : Geometry) : Q :=
  match g.(positions) with
  | [] => 0%Q
  | (_, py, _) :: rest =>
      fold_left (fun acc '(_, qy, _) => if Qle_bool acc qy then qy else acc) rest py
  end.

Definition heightOf (g : Geometry) : Q := (maxY g - minY g)%Q.
Definition verticalCenter (g : Geometry) : Q := ((maxY g + minY g) / 2)%Q.

(** The table of the specification for generic slabs: material code to
    material name. *)
Definition slabMaterialTable : list string :=
  [ "stone"; "sandstone"; "oak"; "cobblestone"; "brick"; "stone_brick";
    "nether_brick"; "quartz" ].

(** The sub-type the specification assigns to a material code. *)
Definition specSlabType (code : Z) : string :=
  nth (Z.to_nat code) slabMaterialTable "stone" ++ "_slab".

(** ** Observations on snapshots, groups and matrices *)

(** No character of [s] is [c]. *)
Fixpoint lacks (c : ascii) (s : string) : bool :=
  match s with
  | EmptyString => true
  | String a s' => negb (Ascii.eqb a c) && lacks c s'
  end.

Definition positionOf (b : Block) : WorldLoader.Key :=
  WorldLoader.keyOf b.(x) b.(y) b.(z).

(** The loop of [processBlocks] read as one left-to-right scan that
    carries the set of consumed positions instead of the map. *)
Fixpoint scan (consumed : gset WorldLoader.Key) (blocks : list Block) : list Block :=
  match blocks with
  | [] => []
  | b :: rest =>
      if bool_decide (positionOf b ∈ consumed) then scan consumed rest
      else if includes b.(type) "double_plant" then
        (WorldLoader.processBlock b ++
         scan ({[ WorldLoader.keyOf b.(x) (b.(y) + 1) b.(z) ]} ∪ consumed) rest)%list
      else (WorldLoader.processBlock b ++ scan consumed rest)%list
  end.

(** [instanceGroups.get(key)] *)
Fixpoint getGroup (key : string) (gs : Main.Groups) : option Main.InstanceGroup :=
  match gs with
  | [] => None
  | (k, g) :: rest => if String.eqb k key then Some g else getGroup key rest
  end.

(** The number of instances over all groups. *)
Definition totalCount (gs : Main.Groups) : nat :=
  list_sum (List.map (fun kg => (snd kg).(Main.g_count)) gs).

(** The blocks the first pass pushes in a branch of its own as well as at
    the end of the loop body. *)
Definition countedTwice (b : Block) : bool :=
  Main.hasSlabFlag b || Main.isColoredType b.(type) || Main.isStairType b.(type).

(** The directions of a connections map whose value is the string 'true',
    in the order of the map. *)
Definition trueDirections (conns : list (string * JSVal)) : list string :=
  List.map fst (List.filter (fun e => isStringTrue (snd e)) conns).

(** The blocks whose key is built in the last branch of the grouping pass,
    where the connections enter it: no slab flag, no colored, stair or
    trapdoor type. *)
Definition keyedByConnections (b : Block) : bool :=
  negb (Main.hasSlabFlag b) && negb (Main.isColoredType b.(type))
  && negb (Main.isStairType b.(type)) && negb (Main.isTrapdoorType b.(type)).

(** What [block.hanging] appends to the key. *)
Definition hangingSuffix (b : Block) : string :=
  match b.(hanging) with
  | Some h => "_" ++ (if h then "hanging" else "standing")
  | None => ""
  end.

(** A position is placed under a key when the group of that key lists it. *)
Definition placed (gs : Main.Groups) (key : string) (p : Main.Position) : Prop :=
  exists g, getGroup key gs = Some g /\ In p g.(Main.g_positions).

(** A computation keeps the block cache when it leaves [blockCache] as it
    found it, whatever else it writes. *)
Definition keepsBlockCache {A} (c : M A) : Prop :=
  forall s, (snd (c s)).(blockCache) = s.(blockCache).

(** What the instancing loop can draw: a mesh or a group.  A light has
    neither children nor a geometry, so the loop passes over it. *)
Definition drawable (o : Object3D) : bool :=
  match o with Light _ _ => false | _ => true end.

(** A computation answers a drawable object whenever it answers. *)
Definition answersDrawable (c : M Object3D) : Prop :=
  forall s, match fst (c s) with
            | Ok o => drawable o = true
            | Throw _ => True
            end.

(** The block cache holds drawable objects only. *)
Definition DrawableCache (s : Store) : Prop :=
  forall k o, s.(blockCache) !! k = Some o -> drawable o = true.

(** The options of a request that names a color only. *)
Definition withColor (c : string) : Options :=
  {| o_isUpperSlab := None; o_facing := None; o_half := None;
     o_shape := None; o_trapdoorState := None; o_connections := None;
     o_hanging := None; o_material := None; o_color := Some c;
     o_texture := None; o_opacity := None; o_alphaTest := None |}.

(** The requests that [loadBlock] serves in its trapdoor branch. *)
Definition servedAsTrapdoor (env : Env) (blockType : string) : bool :=
  negb (String.eqb blockType "cobweb" || String.eqb blockType "web" ||
        TextureLoader.hasCategory env blockType "cross")
  && negb (includes blockType "button")
  && negb (SlabFactory.isSlabBlock blockType)
  && (includes blockType "_trapdoor" || String.eqb blockType "trapdoor").

(** [options] with the [open] entry of its trapdoor state set to [v]. *)
Definition withOpen (v : JSVal) (options : Options) : Options :=
  let st := match options.(o_trapdoorState) with
            | Some st => st
            | None => WorldLoader.defaultTrapdoorState
            end in
  {| o_isUpperSlab := options.(o_isUpperSlab); o_facing := options.(o_facing);
     o_half := options.(o_half); o_shape := options.(o_shape);
     o_trapdoorState := Some {| ts_open := v; ts_half := st.(ts_half);
                                ts_facing := st.(ts_facing) |};
     o_connections := options.(o_connections);
     o_hanging := options.(o_hanging); o_material := options.(o_material);
     o_color := options.(o_color); o_texture := options.(o_texture);
     o_opacity := options.(o_opacity); o_alphaTest := options.(o_alphaTest) |}.

(** The types that [createBlock] builds in its last branch, as a textured
    cube: no earlier test of the dispatch applies. *)
Definition builtAsOrdinary (blockType : string) : bool :=
  negb (BlockFactory.isChainBlock blockType)
  && negb (includes blockType "torch")
  && negb (BlockFactory.isDoorBlock blockType)
  && negb (GrindstoneFactory.isGrindstoneBlock blockType)
  && negb (includes blockType "concrete" || includes blockType "wool")
  && negb (SlabFactory.isSlabBlock blockType)
  && negb (StairFactory.isStairBlock blockType)
  && negb (BlockFactory.isWallBlock blockType)
  && negb (BlockFactory.isFenceBlock blockType)
  && negb (BlockFactory.isTrapdoorBlock blockType)
  && negb (BlockFactory.isLanternBlock blockType)
  && negb (BlockFactory.isDoublePlant blockType)
  && negb (BlockFactory.isPlantBlock blockType).

(** Whether all the face textures that [loadBlockTextures] requests for a
    'tbs' or 'directional' block load. *)
Definition facesLoad (env : Env) (blockType cat : string) : bool :=
  if String.eqb cat "tbs" then
    env.(textureLoads) (env.(getTexturePath) blockType "top")
    && env.(textureLoads) (env.(getTexturePath) blockType "bottom")
    && env.(textureLoads) (env.(getTexturePath) blockType "side")
  else
    env.(textureLoads) (env.(getTexturePath) blockType "end")
    && env.(textureLoads) (env.(getTexturePath) blockType "side").

(** An environment in which [blockType] has the given category and the
    image at [path] is missing. *)
Definition envWithCategory (blockType cat path : string) : Env :=
  {| textureLoads := fun p => negb (String.eqb p path);
     getTexturePath := fun t face => "textures/blocks/" ++ t ++ "_" ++ face ++ ".png";
     BLOCK_PROPERTIES := fun t =>
       if String.eqb t blockType then
         Some {| category := Some cat; p_transparent := None;
                 alphaCutoff := None; p_opacity := None; p_color := None;
                 tintColor := None |}
       else None;
     SPECIAL_TEXTURE_MAPPINGS := fun _ => None;
     random := fun _ => 0%Q |}.

Definition transpose3 (m : Main.Mat3) : Main.Mat3 :=
  let '((a11, a12, a13), (a21, a22, a23), (a31, a32, a33)) := m in
  ((a11, a21, a31), (a12, a22, a32), (a13, a23, a33)).

Definition det3 (m : Main.Mat3) : Z :=
  let '((a11, a12, a13), (a21, a22, a23), (a31, a32, a33)) := m in
  a11 * (a22 * a33 - a23 * a32)
  - a12 * (a21 * a33 - a23 * a31)
  + a13 * (a21 * a32 - a22 * a31).

(** A proper rotation: orthogonal, with determinant one. *)
Definition properRotation (m : Main.Mat3) : Prop :=
  Main.mul3 m (transpose3 m) = Main.identity3 /\ det3 m = 1.

(** A load with drawable objects in the cache answers a drawable object
    and leaves drawable objects in the cache, whether it succeeds or not. *)
Definition keepsDrawable (c : M Object3D) : Prop :=
  forall s, DrawableCache s ->
            DrawableCache (snd (c s))
            /\ match fst (c s) with
               | Ok o => drawable o = true
               | Throw _ => True
               end.

(** The group is in the scene: as one instanced mesh named by its key,
    with one matrix per listed position, in order, each a proper rotation
    followed by the translation to the position; or as one container named
    after its key, with one block group of meshes per listed position, in
    order. *)
Definition drawn (scene : Main.Scene) (key : string) (g : Main.InstanceGroup)
    : Prop :=
  (exists e, In e scene.(Main.instanced)
             /\ e.(Main.entry_mesh).(Main.im_name) = key
             /\ List.map Main.translation e.(Main.entry_mesh).(Main.im_matrices)
                = g.(Main.g_positions)
             /\ Forall (fun m => properRotation m.(Main.rotation))
                       e.(Main.entry_mesh).(Main.im_matrices))
  \/ (exists c, In c scene.(Main.containers)
                /\ c.(Main.c_name) = "container_" ++ key
                /\ List.map Main.bg_position c.(Main.c_blocks)
                   = g.(Main.g_positions)
                /\ Forall (fun b => Forall (fun part => Main.isMesh part = true)
                                           b.(Main.bg_parts))
                          c.(Main.c_blocks)).

(** The scene of a world in which nothing is drawn. *)
Definition emptyScene : Main.Scene :=
  {| Main.containers := []; Main.instanced := []; Main.consoleErrors := [] |}.

(** Tables without any entry. *)
Definition noTables : TextureManager.Tables :=
  {| TextureManager.LEAF_TEXTURE_MAPPINGS := fun _ => None;
     TextureManager.SPECIAL_TEXTURE_MAPPINGS := fun _ => None;
     TextureManager.TEXTURE_NAME_MAPPINGS := fun _ => None;
     TextureManager.BLOCK_CATEGORIES_FALLBACKS := [] |}.

(** * Properties *)

(** ** The [&] operator on material codes *)

Lemma ToInt32_small (n : Z) : 0 <= n < 2 ^ 31 -> ToInt32 n = n.
Proof.
  intros H. unfold ToInt32.
  rewrite Z.mod_small by lia.
  destruct (2 ^ 31 <=? n) eqn:E; [apply Z.leb_le in E; lia | reflexivity].
Qed.

Lemma ToInt32_mod8 (n : Z) : ToInt32 n mod 8 = n mod 8.
Proof.
  unfold ToInt32.
  assert (Hd : (8 | 2 ^ 32)) by (exists (2 ^ 29); reflexivity).
  assert (Hm : (n mod 2 ^ 32) mod 8 = n mod 8)
    by (apply Z.mod_mod_divide; exact Hd).
  destruct (2 ^ 31 <=? n mod 2 ^ 32); [| exact Hm].
  rewrite <- Hm.
  replace (n mod 2 ^ 32 - 2 ^ 32) with (n mod 2 ^ 32 + (- 2 ^ 29) * 8) by lia.
  apply Z.mod_add. lia.
Qed.

(** The material bits are the low three bits of the code, whatever its
    size or sign. *)
Lemma bitand_7 (d : Z) : bitand d 7 = Z.land d 7 /\ bitand d 7 = d mod 8.
Proof.
  unfold bitand. rewrite (ToInt32_small 7) by lia.
  change 7 with (Z.ones 3). rewrite !Z.land_ones by lia.
  change (2 ^ 3) with 8. rewrite ToInt32_mod8. auto.
Qed.

Lemma slabTypeOfBits_table (v : Z) :
  0 <= v < 8 -> WorldLoader.slabTypeOfBits v = specSlabType v.
Proof.
  intros H.
  assert (C : v = 0 \/ v = 1 \/ v = 2 \/ v = 3 \/ v = 4 \/ v = 5 \/ v = 6 \/ v = 7) by lia.
  repeat (destruct C as [-> | C]; [reflexivity |]). subst. reflexivity.
Qed.

(** ** Normalisation of generic slabs *)

Lemma includes_slab_double_plant : includes "slab" "double_plant" = false.
Proof. reflexivity. Qed.

Lemma genericSlab_type (b : Block) :
  (WorldLoader.genericSlab b).(type) =
  match b.(data) with
  | Some d => specSlabType (Z.land d 7)
  | None => "stone_slab"
  end.
Proof.
  unfold WorldLoader.genericSlab, WorldLoader.slabTypeOfData. simpl.
  destruct (data b) as [d |]; [| reflexivity].
  destruct (bitand_7 d) as [Hl Hm]. rewrite Hl.
  apply slabTypeOfBits_table.
  rewrite <- Hl, Hm. apply Z.mod_pos_bound. lia.
Qed.

(** C1. For every record whose type is exactly 'slab', the loop of
    [processBlocks] either skips the record (its position was consumed by a
    double plant below it) or pushes exactly one record, the generic-slab
    resolution of it; run on the record alone it yields that one record.
    The resolved type is the entry of the eight-entry table
    stone/sandstone/oak/cobblestone/brick/stone_brick/nether_brick/quartz
    selected by the low three bits of [data]: code 5 gives
    'stone_brick_slab', code 0 gives 'stone_slab', and a record without
    [data] gives 'stone_slab'.  The position is kept. *)
Theorem C1_generic_slab_resolution
    (b : Block) (m : gmap WorldLoader.Key (option Block)) (out : list Block) :
  b.(type) = "slab" ->
  let r := WorldLoader.genericSlab b in
  WorldLoader.processStep (m, out) b =
    (if WorldLoader.isNull m (WorldLoader.keyOf b.(x) b.(y) b.(z))
     then (m, out) else (m, (out ++ [r])%list))
  /\ WorldLoader.processBlocks [b] = [r]
  /\ r.(type) = match b.(data) with
                | Some d => specSlabType (Z.land d 7)
                | None => "stone_slab"
                end
  /\ (b.(data) = Some 5 -> r.(type) = "stone_brick_slab")
  /\ (b.(data) = Some 0 -> r.(type) = "stone_slab")
  /\ (b.(data) = None -> r.(type) = "stone_slab")
  /\ (r.(x), r.(y), r.(z)) = (b.(x), b.(y), b.(z)).
Proof.
  intros Ht r.
  assert (Hpb : WorldLoader.processBlock b = [r]).
  { unfold WorldLoader.processBlock. rewrite Ht. reflexivity. }
  repeat split.
  - unfold WorldLoader.processStep.
    destruct (WorldLoader.isNull m _); [reflexivity |].
    rewrite Ht, includes_slab_double_plant, Hpb. reflexivity.
  - unfold WorldLoader.processBlocks, WorldLoader.buildBlockMap. simpl.
    unfold WorldLoader.isNull. rewrite lookup_insert_eq.
    rewrite Ht, includes_slab_double_plant, Hpb. reflexivity.
  - apply genericSlab_type.
  - intros Hd. subst r. rewrite genericSlab_type, Hd. reflexivity.
  - intros Hd. subst r. rewrite genericSlab_type, Hd. reflexivity.
  - intros Hd. subst r. rewrite genericSlab_type, Hd. reflexivity.
Qed.

Lemma C1_generic_slab_resolution_witness :
  (WorldLoader.genericSlab (withData 5 (plainBlock "slab" 3 4 5))).(type)
  = "stone_brick_slab".
Proof.
  pose proof (C1_generic_slab_resolution
                (withData 5 (plainBlock "slab" 3 4 5)) ∅ [] eq_refl) as H.
  destruct H as (_ & _ & _ & H5 & _).
  apply H5. reflexivity.
Defined.

(** ** Double plants *)

Section Consumption.
Import WorldLoader.

Lemma isNull_insert_None (m : gmap Key (option Block)) (k k' : Key) :
  isNull m k = true -> isNull (<[k' := None]> m) k = true.
Proof.
  unfold isNull. intros H.
  destruct (decide (k' = k)) as [-> | Hne].
  - rewrite lookup_insert_eq. reflexivity.
  - rewrite lookup_insert_ne by exact Hne. exact H.
Qed.

(** A position once marked consumed stays consumed. *)
Lemma processStep_keeps_null (st : LoopState) (b : Block) (k : Key) :
  isNull (fst st) k = true -> isNull (fst (processStep st b)) k = true.
Proof.
  destruct st as [m out]. simpl. intros H. unfold processStep.
  destruct (isNull m (keyOf (x b) (y b) (z b))); [exact H |].
  destruct (includes (type b) "double_plant"); simpl;
    [apply isNull_insert_None; exact H | exact H].
Qed.

Lemma processLoop_keeps_null (l : list Block) (st : LoopState) (k : Key) :
  isNull (fst st) k = true ->
  isNull (fst (fold_left processStep l st)) k = true.
Proof.
  revert st. induction l as [| b l IH]; intros st H; simpl; [exact H |].
  apply IH. apply processStep_keeps_null. exact H.
Qed.

(** A record at a consumed position leaves the loop state as it is. *)
Lemma processStep_skips (st : LoopState) (c : Block) :
  isNull (fst st) (keyOf (x c) (y c) (z c)) = true -> processStep st c = st.
Proof.
  destruct st as [m out]. simpl. intros H. unfold processStep. rewrite H.
  reflexivity.
Qed.
End Consumption.

(** ** Builders that cannot fail *)

Lemma quiet_ret {A} (a : A) : quiet (ret a).
Proof. intros s. reflexivity. Qed.

Lemma quiet_throw {A} (e : Error) : quiet (@throw A e).
Proof. intros s. reflexivity. Qed.

Lemma quiet_bind {A B} (c : M A) (k : A -> M B) :
  quiet c -> (forall a, quiet (k a)) -> quiet (bind c k).
Proof.
  intros Hc Hk s. unfold bind. specialize (Hc s).
  destruct (c s) as [[a | e] s1]; simpl in *; subst; [apply Hk | reflexivity].
Qed.

Lemma quiet_tryCatch {A} (body : M A) (handler : Error -> M A) :
  quiet body -> (forall e, quiet (handler e)) -> quiet (tryCatch body handler).
Proof.
  intros Hb Hh s. unfold tryCatch. specialize (Hb s).
  destruct (body s) as [[a | e] s1]; simpl in *; subst; [reflexivity | apply Hh].
Qed.

Lemma quiet_loadTexture (env : Env) (path : string) : quiet (loadTexture env path).
Proof.
  unfold loadTexture. destruct (textureLoads env path);
    [apply quiet_ret | apply quiet_throw].
Qed.

(** A quiet body under a handler that returns a value always returns. *)
Lemma tryCatch_ret_ok {A} (body : M A) (v : A) (s : Store) :
  quiet body -> exists t, tryCatch body (fun _ => ret v) s = (Ok t, s).
Proof.
  intros Hb. unfold tryCatch. specialize (Hb s).
  destruct (body s) as [[a | e] s1]; simpl in *; subst; eexists; reflexivity.
Qed.

Ltac quiet_step :=
  first [ apply quiet_ret | apply quiet_throw | apply quiet_loadTexture
        | apply quiet_bind; [| intros ?] | apply quiet_tryCatch; [| intros ?]
        | match goal with
          | |- quiet (if ?c then _ else _) => destruct c
          | |- quiet (match ?c with _ => _ end) => destruct c
          end ].

Section Totality.
Import BlockFactory.

(** [loadBlockTextures] catches every failed load. *)
Lemma loadBlockTextures_ok (env : Env) (blockType cat : string) (s : Store) :
  exists t, loadBlockTextures env blockType cat s = (Ok t, s).
Proof.
  unfold loadBlockTextures. apply tryCatch_ret_ok. unfold defaultPath.
  repeat quiet_step.
Qed.

Lemma cached_ok get set key build (s : Store) :
  exists g s', cached get set key build s = (Ok g, s').
Proof.
  unfold cached. destruct (get s !! key); eexists; eexists; reflexivity.
Qed.

(** A double plant is always built as two crossed planes in a group
    lowered by half a block. *)
Lemma createDoublePlantBlock_cross (env : Env) (blockType : string)
    (properties : Properties) (s : Store) :
  exists g mat yaw s',
    createDoublePlantBlock env blockType properties s =
    (Ok (Group blockType (crossedPlanes g mat) (0, -0.5, 0)%Q (0, yaw, 0)%Q), s').
Proof.
  unfold createDoublePlantBlock, tryCatch, bind.
  destruct (loadBlockTextures_ok env blockType "uniform" s) as [t Ht].
  rewrite Ht.
  destruct (cached_ok geometryCache setGeometryCache "plant"
              (translate 0 0 0 (PlaneGeometry 1.0 1.0)) s) as (g & s1 & Hg).
  unfold getPlantGeometry. rewrite Hg.
  destruct (negb (includes blockType "_top")); simpl;
    do 4 eexists; reflexivity.
Qed.
End Totality.

(** What the template factory does with the record types that the
    normalisation of a double plant emits, for the plant types of the data:
    the test for double plants comes before the test for plants, and none of
    the earlier tests of the dispatch applies. *)
Lemma createBlock_double_plant_dispatch (env : Env) (pt part : string)
    (o : Options) (s : Store) :
  In pt ["grass"; "fern"; "rose"; "paeonia"; "syringa"; "sunflower"] ->
  part = "_bottom" \/ part = "_top" ->
  let t := "double_plant_" ++ pt ++ part in
  BlockFactory.createBlock env t o s =
  BlockFactory.createDoublePlantBlock env t (BlockFactory.propertiesOf env t) s.
Proof.
  intros Hpt [-> | ->]; cbn [In] in Hpt;
    repeat (destruct Hpt as [<- | Hpt]; [reflexivity |]); destruct Hpt.
Qed.

(** One loop iteration on a double plant whose own position has not been
    consumed: it pushes exactly two records, the bottom part
    'double_plant_{plantType}_bottom' at (x, y, z) and the synthesized top
    part 'double_plant_{plantType}_top' at (x, y + 1, z), and marks
    (x, y + 1, z) as consumed; every record at (x, y + 1, z) that the loop
    reaches afterwards is skipped and pushes nothing.  The template factory
    hands both parts to the double-plant builder, which always returns two
    crossed planes. *)
Lemma double_plant_step
    (b : Block) (m : gmap WorldLoader.Key (option Block)) (out : list Block) :
  includes b.(type) "double_plant" = true ->
  WorldLoader.isNull m (WorldLoader.keyOf b.(x) b.(y) b.(z)) = false ->
  let pt := WorldLoader.plantTypeOf b.(type) in
  let bottom := WorldLoader.doublePlantBottom b in
  let top := WorldLoader.doublePlantTop b in
  let st := WorldLoader.processStep (m, out) b in
  st = (<[WorldLoader.keyOf b.(x) (b.(y) + 1) b.(z) := None]> m,
        (out ++ [bottom; top])%list)
  /\ WorldLoader.processBlocks [b] = [bottom; top]
  /\ bottom.(type) = "double_plant_" ++ pt ++ "_bottom"
  /\ (bottom.(x), bottom.(y), bottom.(z)) = (b.(x), b.(y), b.(z))
  /\ top.(type) = "double_plant_" ++ pt ++ "_top"
  /\ (top.(x), top.(y), top.(z)) = (b.(x), b.(y) + 1, b.(z))
  /\ (forall (later : list Block) (c : Block),
        (c.(x), c.(y), c.(z)) = (b.(x), b.(y) + 1, b.(z)) ->
        let st' := fold_left WorldLoader.processStep later st in
        WorldLoader.processStep st' c = st')
  /\ (In pt ["grass"; "fern"; "rose"; "paeonia"; "syringa"; "sunflower"] ->
      forall (env : Env) (o : Options) (s : Store) (part : Block),
        part = bottom \/ part = top ->
        exists g mat yaw s',
          BlockFactory.createBlock env part.(type) o s =
          (Ok (Group part.(type) (BlockFactory.crossedPlanes g mat)
                 (0, -0.5, 0)%Q (0, yaw, 0)%Q), s')).
Proof.
  intros Hdp Hnull pt bottom top st.
  assert (Hpb : WorldLoader.processBlock b = [bottom; top]).
  { unfold WorldLoader.processBlock. rewrite Hdp. reflexivity. }
  assert (Hst : st = (<[WorldLoader.keyOf b.(x) (b.(y) + 1) b.(z) := None]> m,
                      (out ++ [bottom; top])%list)).
  { subst st. unfold WorldLoader.processStep. rewrite Hnull, Hdp, Hpb. reflexivity. }
  split; [exact Hst |].
  split.
  { unfold WorldLoader.processBlocks, WorldLoader.buildBlockMap. simpl.
    unfold WorldLoader.isNull. rewrite lookup_insert_eq, Hdp, Hpb. reflexivity. }
  do 4 (split; [reflexivity |]).
  split.
  - intros later c Hc st'.
    apply processStep_skips. subst st'.
    apply processLoop_keeps_null. rewrite Hst. simpl.
    injection Hc as -> -> ->.
    unfold WorldLoader.isNull. rewrite lookup_insert_eq. reflexivity.
  - intros Hpt env o s part Hpart.
    assert (Hty : exists sfx, (sfx = "_bottom" \/ sfx = "_top") /\
                              part.(type) = "double_plant_" ++ pt ++ sfx).
    { destruct Hpart as [-> | ->];
        [exists "_bottom" | exists "_top"]; split; auto. }
    destruct Hty as (sfx & Hsfx & ->).
    rewrite (createBlock_double_plant_dispatch env pt sfx o s Hpt Hsfx).
    apply createDoublePlantBlock_cross.
Qed.

(** The fern of the specification, alone in the snapshot. *)
Example double_plant_fern_alone :
  WorldLoader.processBlocks [plainBlock "double_plant_fern" 2 5 2]
  = [ WorldLoader.doublePlantBottom (plainBlock "double_plant_fern" 2 5 2);
      WorldLoader.doublePlantTop (plainBlock "double_plant_fern" 2 5 2) ].
Proof.
  pose proof (double_plant_step (plainBlock "double_plant_fern" 2 5 2)
                ∅ [] eq_refl eq_refl) as H.
  destruct H as (_ & H & _). exact H.
Qed.

(** A record that is listed after the plant and sits directly above it is
    consumed, here the snapshot's own upper half of the fern. *)
Example later_record_above_is_consumed :
  List.map (fun r => (r.(type), r.(x), r.(y), r.(z)))
    (WorldLoader.processBlocks
       [plainBlock "double_plant_fern" 2 5 2; plainBlock "double_plant_fern" 2 6 2])
  = [ ("double_plant_fern_bottom", 2, 5, 2);
      ("double_plant_fern_top", 2, 6, 2) ].
Proof. vm_compute. reflexivity. Qed.

Lemma processBlock_position (b : Block) :
  includes b.(type) "double_plant" = false ->
  List.map positionOf (WorldLoader.processBlock b) = [positionOf b].
Proof.
  intros Hb. unfold WorldLoader.processBlock. rewrite Hb.
  repeat match goal with
         | |- context [if ?c then _ else _] => destruct c
         end; try reflexivity.
  unfold WorldLoader.withTrapdoorState. destruct (trapdoorState b); reflexivity.
Qed.

(** C2 fails on the code.  The loop marks the position above a double plant
    as processed when it reaches the plant (the code says: "Mark the
    original block at y+1 as processed"), which stops only the records that
    come later in the snapshot.  A record that sits at (x, y + 1, z) and is
    listed before the plant has been pushed already and stays: the output
    then holds it together with the synthesized top part, two records for
    the position (x, y + 1, z) and three in all.  With the two input records
    in the other order the record above is consumed, as the claim says. *)
Theorem C2_record_above_not_consumed (b c : Block) :
  includes b.(type) "double_plant" = true ->
  includes c.(type) "double_plant" = false ->
  (c.(x), c.(y), c.(z)) = (b.(x), b.(y) + 1, b.(z)) ->
  let bottom := WorldLoader.doublePlantBottom b in
  let top := WorldLoader.doublePlantTop b in
  WorldLoader.processBlocks [b; c] = [bottom; top]
  /\ WorldLoader.processBlocks [c; b]
     = (WorldLoader.processBlock c ++ [bottom; top])%list
  /\ List.map positionOf (WorldLoader.processBlocks [c; b])
     = [positionOf c; positionOf b; positionOf c].
Proof.
  intros Hb Hc Hpos bottom top. injection Hpos as Hx Hy Hz.
  assert (Hne : WorldLoader.keyOf (x b) (y b) (z b)
                <> WorldLoader.keyOf (x c) (y c) (z c)).
  { unfold WorldLoader.keyOf. rewrite Hy. intros E. injection E as _ E _. lia. }
  assert (Hpb : WorldLoader.processBlock b = [bottom; top]).
  { unfold WorldLoader.processBlock. rewrite Hb. reflexivity. }
  assert (Hbc : WorldLoader.processBlocks [b; c] = [bottom; top]).
  { unfold WorldLoader.processBlocks, WorldLoader.buildBlockMap.
    cbn [fold_left]. unfold WorldLoader.processStep at 2.
    unfold WorldLoader.isNull at 1.
    rewrite lookup_insert_ne by (intros E; apply Hne; symmetry; exact E).
    rewrite lookup_insert_eq, Hb, Hpb.
    unfold WorldLoader.processStep, WorldLoader.isNull.
    rewrite <- Hx, <- Hz, <- Hy, lookup_insert_eq. reflexivity. }
  assert (Hcb : WorldLoader.processBlocks [c; b]
                = (WorldLoader.processBlock c ++ [bottom; top])%list).
  { unfold WorldLoader.processBlocks, WorldLoader.buildBlockMap.
    cbn [fold_left]. unfold WorldLoader.processStep at 2.
    unfold WorldLoader.isNull at 1.
    rewrite lookup_insert_ne by exact Hne.
    rewrite lookup_insert_eq, Hc.
    unfold WorldLoader.processStep, WorldLoader.isNull.
    rewrite lookup_insert_eq, Hb, Hpb. reflexivity. }
  split; [exact Hbc |]. split; [exact Hcb |].
  rewrite Hcb, List.map_app, (processBlock_position c Hc).
  unfold positionOf. cbn [List.map app]. subst bottom top. simpl.
  rewrite Hx, Hy, Hz. reflexivity.
Qed.

Lemma C2_record_above_not_consumed_witness :
  List.map (fun r => (r.(type), r.(x), r.(y), r.(z)))
    (WorldLoader.processBlocks
       [plainBlock "stone" 2 6 2; plainBlock "double_plant_fern" 2 5 2])
  = [ ("stone", 2, 6, 2);
      ("double_plant_fern_bottom", 2, 5, 2);
      ("double_plant_fern_top", 2, 6, 2) ].
Proof.
  pose proof (C2_record_above_not_consumed
                (plainBlock "double_plant_fern" 2 5 2) (plainBlock "stone" 2 6 2)
                eq_refl eq_refl eq_refl) as H.
  destruct H as (_ & H & _). rewrite H. reflexivity.
Defined.

(** ** Slabs *)

Lemma string_app_inv_head (p a b : string) : (p ++ a = p ++ b)%string -> a = b.
Proof.
  induction p as [| c p IH]; simpl; intros H; [exact H |].
  injection H as H. apply IH. exact H.
Qed.

Section SlabBuild.
Import SlabFactory.

Lemma fromMapping_quiet (env : Env) (m : TextureMapping) (c : M Textures) :
  fromMapping env m = Some c -> quiet c.
Proof.
  unfold fromMapping.
  destruct (truthy (tm_top m) && truthy (tm_bottom m) && truthy (tm_side m)).
  - intros H. injection H as <-. repeat quiet_step.
  - destruct (truthy (tm_default m)); [| discriminate].
    intros H. injection H as <-. repeat quiet_step.
Qed.

Lemma loadSlabTextures_ok (env : Env) (slabType base : string) (s : Store) :
  exists t, loadSlabTextures env slabType base s = (Ok t, s).
Proof.
  unfold loadSlabTextures. apply tryCatch_ret_ok.
  assert (Hg : quiet
                 (tryCatch (loadFaces env slabType)
                    (fun _ =>
                       tryCatch (loadFaces env base)
                         (fun _ =>
                            let* t := loadTexture env (defaultPath env base) in
                            ret (uniformTextures t)))))
    by (unfold loadFaces, defaultPath; repeat quiet_step).
  destruct (SPECIAL_TEXTURE_MAPPINGS env slabType) as [m |];
    [destruct (fromMapping env m) eqn:E;
       [exact (fromMapping_quiet _ _ _ E) |] |];
    (destruct (SPECIAL_TEXTURE_MAPPINGS env base) as [m' |];
       [destruct (fromMapping env m') eqn:E';
          [exact (fromMapping_quiet _ _ _ E') | exact Hg] | exact Hg]).
Qed.

Lemma SlabCacheOk_empty : SlabCacheOk emptyStore.
Proof. intros u g H. simpl in H. rewrite lookup_empty in H. discriminate. Qed.

(** [getSlabGeometry] returns the geometry of the half it is asked for,
    from the cache or newly built, and keeps the cache well formed. *)
Lemma getSlabGeometry_result (u : bool) (s : Store) :
  SlabCacheOk s ->
  exists s', getSlabGeometry u s = (Ok (buildSlabGeometry u), s')
             /\ SlabCacheOk s' /\ blockCache s' = blockCache s.
Proof.
  intros Hs. unfold getSlabGeometry, cached.
  destruct (slabGeometryCache s !! (if u then "upper_slab" else "lower_slab"))
    as [g |] eqn:Hc.
  - rewrite (Hs u g Hc). exists s. auto.
  - eexists. split; [reflexivity |]. split; [| reflexivity].
    intros u' g. simpl. intros H.
    destruct (Bool.bool_dec u u') as [<- | Hne].
    + rewrite lookup_insert_eq in H. injection H as <-. reflexivity.
    + rewrite lookup_insert_ne in H by (destruct u, u'; congruence).
      apply Hs. exact H.
Qed.

(** A slab mesh always carries the geometry of its half, whether the
    textures load or not. *)
Lemma createSlabBlock_result (env : Env) (blockType : string) (u : bool)
    (s : Store) :
  SlabCacheOk s ->
  exists mats s',
    createSlabBlock env blockType u s =
    (Ok (Mesh blockType (buildSlabGeometry u) mats origin origin unitScale
           (slabUserData blockType u)), s')
    /\ SlabCacheOk s' /\ blockCache s' = blockCache s.
Proof.
  intros Hs. unfold createSlabBlock, tryCatch, bind.
  destruct (loadSlabTextures_ok env blockType (getBaseBlockType blockType) s)
    as [t Ht].
  rewrite Ht.
  destruct (getSlabGeometry_result u s Hs) as (s' & Hg & Hs' & Hb).
  rewrite Hg. simpl. eexists _, s'. split; [reflexivity | auto].
Qed.
End SlabBuild.

Section GroupKeys.
Import Main.

Lemma push_keys (k : string) (p : Position) (gs : Groups) :
  List.map fst (push k p gs) = List.map fst gs.
Proof.
  induction gs as [| [k' g] gs IH]; simpl; [reflexivity |].
  destruct (String.eqb k' k); simpl; [reflexivity | rewrite IH; reflexivity].
Qed.

Lemma pushes_keys (k : string) (ps : list Position) (gs : Groups) :
  List.map fst (fold_left (fun acc p => push k p acc) ps gs) = List.map fst gs.
Proof.
  revert gs. induction ps as [| p ps IH]; intros gs; simpl; [reflexivity |].
  rewrite IH. apply push_keys.
Qed.

Lemma has_In (k : string) (gs : Groups) :
  has k gs = true <-> In k (List.map fst gs).
Proof.
  induction gs as [| [k' g] gs IH]; simpl; [split; [discriminate | tauto] |].
  rewrite orb_true_iff, IH, String.eqb_eq. tauto.
Qed.

(** The keys of [instanceGroups] after one more block: a key is appended
    when it is new. *)
Lemma countBlock_keys (gs : Groups) (b : Block) :
  List.map fst (countBlock gs b) =
  if has (groupKey b) gs then List.map fst gs
  else (List.map fst gs ++ [groupKey b])%list.
Proof.
  unfold countBlock. rewrite push_keys, pushes_keys. unfold ensure.
  destruct (has (groupKey b) gs); [reflexivity |].
  rewrite List.map_app. reflexivity.
Qed.
End GroupKeys.

Lemma groupKey_slab (b : Block) (u : bool) :
  Main.groupKey (set_isUpperSlab (Some u) b) =
  b.(type) ++ "_slab_" ++ (if u then "upper" else "lower").
Proof. reflexivity. Qed.

(** C3. An upper and a lower slab of the same type are counted in different
    instance groups, whose keys end in 'upper' and 'lower': after the
    grouping pass over the two records there are exactly these two groups,
    each listing its slab and carrying the [isUpperSlab] option of its
    half.  Built from those options, the template of the upper group has
    the upper geometry and the template of the lower group the lower one,
    and the instanced mesh made from the template keeps that geometry and
    places it at the listed positions.  The two geometries are boxes half
    a unit high whose vertical centers are +0.25 and -0.25, half a unit
    apart. *)
Theorem C3_slab_symmetry (b : Block) (env : Env) :
  let upper := set_isUpperSlab (Some true) b in
  let lower := set_isUpperSlab (Some false) b in
  let keyOf (u : bool) :=
    b.(type) ++ "_slab_" ++ (if u then "upper" else "lower") in
  let groupOf (u : bool) :=
    {| Main.g_type := b.(type);
       Main.g_options := TextureLoader.onlyIsUpperSlab u;
       Main.g_positions :=
         [(b.(x) - 128, b.(y), b.(z) - 27); (b.(x), b.(y), b.(z))];
       Main.g_count := 2 |} in
  Main.groupKey upper = b.(type) ++ "_slab_upper"
  /\ Main.groupKey lower = b.(type) ++ "_slab_lower"
  /\ Main.groupKey upper <> Main.groupKey lower
  /\ Main.instanceGroups [upper; lower]
     = [(keyOf true, groupOf true); (keyOf false, groupOf false)]
  /\ (forall (u : bool) (s : Store),
        SlabCacheOk s ->
        exists mats s',
          SlabFactory.createSlabBlock env b.(type) u s =
          (Ok (Mesh b.(type) (SlabFactory.buildSlabGeometry u) mats
                 origin origin unitScale
                 (SlabFactory.slabUserData b.(type) u)), s'))
  /\ (servedAsSlab env b.(type) = true ->
      forall (u : bool) (s : Store),
        SlabCacheOk s ->
        s.(blockCache) !! keyOf u = None ->
        exists mats s',
          let template :=
            Mesh b.(type) (SlabFactory.buildSlabGeometry u) mats
              origin origin unitScale (SlabFactory.slabUserData b.(type) u) in
          TextureLoader.loadBlock env (Main.g_type (groupOf u))
            (Main.g_options (groupOf u)) s = (Ok template, s')
          /\ SlabCacheOk s'
          /\ s'.(blockCache) !! keyOf u = Some template
          /\ (forall tc : gmap string Object3D,
                tc !! Main.templateCacheKey (keyOf u) (groupOf u) = Some template ->
                exists e,
                  Main.instantiate tc (keyOf u) (groupOf u) = Main.EmitInstanced e
                  /\ Main.im_name (Main.entry_mesh e) = keyOf u
                  /\ Main.im_geometry (Main.entry_mesh e)
                     = SlabFactory.buildSlabGeometry u
                  /\ List.map Main.translation
                       (Main.im_matrices (Main.entry_mesh e))
                     = Main.g_positions (groupOf u)))
  /\ (heightOf (SlabFactory.buildSlabGeometry true) == 0.5)%Q
  /\ (heightOf (SlabFactory.buildSlabGeometry false) == 0.5)%Q
  /\ (verticalCenter (SlabFactory.buildSlabGeometry true) == 0.25)%Q
  /\ (verticalCenter (SlabFactory.buildSlabGeometry false) == -0.25)%Q
  /\ (verticalCenter (SlabFactory.buildSlabGeometry true)
      - verticalCenter (SlabFactory.buildSlabGeometry false) == 0.5)%Q.
Proof.
  intros upper lower keyOf groupOf.
  assert (Hne : (b.(type) ++ "_slab_upper")%string <> (b.(type) ++ "_slab_lower")%string).
  { intros H. apply string_app_inv_head in H. discriminate H. }
  split; [apply (groupKey_slab b true) |].
  split; [apply (groupKey_slab b false) |].
  split; [subst upper lower; rewrite !groupKey_slab; exact Hne |].
  split.
  { subst upper lower keyOf groupOf.
    unfold Main.instanceGroups, Main.countBlock, Main.ensure, Main.branchPush.
    cbn [fold_left]. rewrite !groupKey_slab.
    change (Main.hasSlabFlag (set_isUpperSlab (Some true) b)) with true.
    change (Main.hasSlabFlag (set_isUpperSlab (Some false) b)) with true.
    cbn [Main.has fold_left app Main.push Main.freshGroup
         Main.g_type Main.g_options Main.g_positions Main.g_count].
    set (kU := (type b ++ "_slab_" ++ "upper")%string).
    set (kL := (type b ++ "_slab_" ++ "lower")%string).
    assert (Hne' : String.eqb kU kL = false) by (apply String.eqb_neq; exact Hne).
    repeat (progress
              (rewrite ?String.eqb_refl, ?Hne';
               cbn [orb Main.has fold_left app Main.push Main.freshGroup
                    Main.g_type Main.g_options Main.g_positions Main.g_count])).
    reflexivity. }
  split.
  { intros u s Hs.
    destruct (createSlabBlock_result env b.(type) u s Hs) as (mats & s' & H & _).
    exists mats, s'. exact H. }
  split.
  { intros Hserved u s Hs Hmiss.
    unfold servedAsSlab in Hserved.
    repeat (apply andb_true_iff in Hserved as [Hserved ?]).
    repeat match goal with
           | Hn : negb _ = true |- _ => apply negb_true_iff in Hn
           end.
    destruct (createSlabBlock_result env b.(type) u s Hs)
      as (mats & s1 & Hc & Hs1 & Hb1).
    exists mats, (setBlockCache
                    (<[keyOf u :=
                         Mesh b.(type) (SlabFactory.buildSlabGeometry u) mats
                           origin origin unitScale
                           (SlabFactory.slabUserData b.(type) u)]>
                       (blockCache s1)) s1).
    cbv zeta.
    split.
    { subst groupOf keyOf. cbn [Main.g_type Main.g_options].
      unfold TextureLoader.loadBlock.
      repeat match goal with
             | Hn : ?c = _ |- context [if ?c then _ else _] => rewrite Hn
             end.
      unfold TextureLoader.cachedBlock, TextureLoader.cacheGet, bind.
      cbn [TextureLoader.onlyIsUpperSlab o_isUpperSlab orFalse].
      rewrite Hmiss.
      unfold TextureLoader.rethrowing, tryCatch, bind, BlockFactory.createBlock.
      repeat match goal with
             | Hn : ?c = _ |- context [if ?c then _ else _] => rewrite Hn
             end.
      cbn [TextureLoader.onlyIsUpperSlab o_isUpperSlab orFalse].
      rewrite Hc. reflexivity. }
    split; [exact Hs1 |].
    split; [simpl; apply lookup_insert_eq |].
    intros tc Htc. unfold Main.instantiate. rewrite Htc.
    eexists. split; [reflexivity |].
    split; [reflexivity |]. split; reflexivity. }
  repeat split; vm_compute; reflexivity.
Qed.

Lemma C3_slab_symmetry_witness :
  servedAsSlab (plainEnv 0) "oak_slab" = true
  /\ List.map fst
       (Main.instanceGroups
          [set_isUpperSlab (Some true) (plainBlock "oak_slab" 130 64 30);
           set_isUpperSlab (Some false) (plainBlock "oak_slab" 130 64 30)])
     = ["oak_slab_slab_upper"; "oak_slab_slab_lower"]
  /\ forall u : bool,
       exists mats s',
         TextureLoader.loadBlock (plainEnv 0) "oak_slab"
           (TextureLoader.onlyIsUpperSlab u) emptyStore
         = (Ok (Mesh "oak_slab" (SlabFactory.buildSlabGeometry u) mats
                  origin origin unitScale
                  (SlabFactory.slabUserData "oak_slab" u)), s').
Proof.
  pose proof (C3_slab_symmetry (plainBlock "oak_slab" 130 64 30) (plainEnv 0)) as H.
  cbv zeta in H.
  destruct H as (_ & _ & _ & Hg & _ & Hl & _).
  split; [reflexivity |].
  split; [rewrite Hg; reflexivity |].
  intros u.
  destruct (Hl eq_refl u emptyStore SlabCacheOk_empty (lookup_empty _))
    as (mats & s' & Hload & _).
  exists mats, s'. exact Hload.
Defined.

(** ** Stairs *)

Section StairBuild.
Import StairFactory.

Lemma StairCacheOk_empty : StairCacheOk emptyStore.
Proof. intros k g H. simpl in H. rewrite lookup_empty in H. discriminate. Qed.

(** One stair build: the east geometry is used and cached, whatever the
    facing; the facing only sets the rotation of the mesh. *)
Lemma createStairBlock_result (env : Env) (blockType : string)
    (o : StairOptions) (s : Store) :
  StairCacheOk s ->
  (fst (createStairBlock env blockType o s) = Throw (ReferenceError "createFallbackMesh")
   \/ fst (createStairBlock env blockType o s) = Ok (stairMesh blockType o))
  /\ StairCacheOk (snd (createStairBlock env blockType o s)).
Proof.
  intros Hs.
  unfold createStairBlock, tryCatch, bind, getStairGeometry, cached, loadTexture,
    ret, throw.
  change ("stair_" ++ "east")%string with "stair_east".
  destruct (stairGeometryCache s !! "stair_east") as [g |] eqn:Hc.
  - destruct (Hs _ _ Hc) as [_ ->].
    destruct (textureLoads env "textures/blocks/planks_spruce.png"); simpl;
      (split; [auto | exact Hs]).
  - assert (Hs' : StairCacheOk
                    (setStairGeometryCache
                       (<["stair_east" := buildStairGeometry]> (stairGeometryCache s)) s)).
    { intros k g. simpl. intros H.
      destruct (decide ("stair_east" = k)) as [<- | Hne].
      - rewrite lookup_insert_eq in H. injection H as <-. auto.
      - rewrite lookup_insert_ne in H by exact Hne. apply Hs. exact H. }
    destruct (textureLoads env "textures/blocks/planks_spruce.png"); simpl;
      (split; [auto | exact Hs']).
Qed.

Lemma runAll_stairs (env : Env) (builds : list (string * StairOptions)) (s : Store) :
  StairCacheOk s ->
  let run := runAll (fun b => createStairBlock env (fst b) (snd b)) builds s in
  StairCacheOk (snd run)
  /\ Forall2 (fun b r => r = Throw (ReferenceError "createFallbackMesh")
                         \/ r = Ok (stairMesh (fst b) (snd b)))
             builds (fst run).
Proof.
  revert s. induction builds as [| b builds IH]; intros s Hs; simpl.
  - split; [exact Hs | constructor].
  - destruct (createStairBlock_result env (fst b) (snd b) s Hs) as [Hr Hs1].
    destruct (createStairBlock env (fst b) (snd b) s) as [r s1]. simpl in *.
    destruct (IH s1 Hs1) as [Hs2 Hrs].
    destruct (runAll _ builds s1) as [rs s2]. simpl in *.
    split; [exact Hs2 | constructor; assumption].
Qed.
End StairBuild.

(** C4, as amended. The stair builder keeps a single cached geometry, under
    the key 'stair_east', and every stair mesh carries it whatever its
    facing: starting from empty caches, after any sequence of stair builds
    the cache holds no other entry and each build either fails or returns
    the mesh with that geometry.  The facing is applied as a rotation: as
    the yaw of the template mesh, and at instancing time as the rotation of
    the instance matrix, which is different for each of the four facings. *)
Theorem C4_single_stair_geometry
    (env : Env) (builds : list (string * StairFactory.StairOptions)) :
  let run := runAll (fun b => StairFactory.createStairBlock env (fst b) (snd b))
                    builds emptyStore in
  StairCacheOk (snd run)
  /\ Forall2 (fun b r => r = Throw (ReferenceError "createFallbackMesh")
                         \/ r = Ok (stairMesh (fst b) (snd b)))
             builds (fst run)
  /\ (forall (group : Main.InstanceGroup) (pos : Main.Position),
        (Main.instanceMatrix group pos).(Main.rotation) =
        if Main.isStairType group.(Main.g_type) then
          Main.stairRotation
            (orDefault group.(Main.g_options).(o_facing) "east")
            (orDefault group.(Main.g_options).(o_half) "bottom")
        else Main.identity3)
  /\ NoDup (List.map (fun f => Main.stairRotation f "bottom") fourFacings)
  /\ NoDup (List.map (fun f => Main.stairRotation f "top") fourFacings).
Proof.
  intros run.
  destruct (runAll_stairs env builds emptyStore StairCacheOk_empty) as [H1 H2].
  split; [exact H1 |]. split; [exact H2 |]. split; [reflexivity |].
  split; apply (bool_decide_unpack _); vm_compute; exact I.
Qed.

(** C4 as stated fails: after stairs of all four facings have been built,
    the geometry cache holds one entry, not four; the four meshes carry the
    same vertex positions; and the rotations written into the instance
    matrices differ with the facing. *)
Lemma C4_counterexample :
  let build f := StairFactory.createStairBlock (plainEnv 0) "oak_stairs"
                   (stairOptionsFacing f) in
  let run := runAll build fourFacings emptyStore in
  List.map fst (map_to_list (snd run).(stairGeometryCache)) = ["stair_east"]
  /\ fst run = List.map (fun f => Ok (stairMesh "oak_stairs" (stairOptionsFacing f)))
                 fourFacings
  /\ Main.stairRotation "north" "bottom" <> Main.stairRotation "east" "bottom".
Proof.
  split; [vm_compute; reflexivity |].
  split; [vm_compute; reflexivity |].
  vm_compute. discriminate.
Qed.

(** ** Sorting *)

Section SortFacts.
Context {A : Type} (compareFn : A -> A -> Z).
Hypothesis compare_total :
  forall a b, compareFn a b <= 0 \/ compareFn b a <= 0.
Hypothesis compare_trans :
  forall a b c, compareFn a b <= 0 -> compareFn b c <= 0 -> compareFn a c <= 0.

Lemma insert_Permutation (a : A) (l : list A) :
  Permutation (a :: l) (JSArray.insert compareFn a l).
Proof.
  induction l as [| b l IH]; simpl; [reflexivity |].
  destruct (compareFn a b <=? 0); [reflexivity |].
  rewrite perm_swap. apply perm_skip. exact IH.
Qed.

Lemma sort_Permutation (l : list A) : Permutation l (JSArray.sort compareFn l).
Proof.
  induction l as [| a l IH]; simpl; [reflexivity |].
  rewrite <- insert_Permutation. apply perm_skip. exact IH.
Qed.

Lemma insert_StronglySorted (a : A) (l : list A) :
  StronglySorted (orderedBy compareFn) l ->
  StronglySorted (orderedBy compareFn) (JSArray.insert compareFn a l).
Proof.
  induction 1 as [| b l Hl IH Hb]; simpl.
  - repeat constructor.
  - destruct (compareFn a b <=? 0) eqn:E.
    + apply Z.leb_le in E. constructor; [constructor; assumption |].
      constructor; [exact E |].
      eapply Forall_impl; [exact Hb |].
      intros c Hc. exact (compare_trans _ _ _ E Hc).
    + apply Z.leb_gt in E. constructor; [exact IH |].
      apply (Permutation_Forall (insert_Permutation a l)).
      constructor; [| exact Hb].
      destruct (compare_total a b) as [H | H]; [lia | exact H].
Qed.

Lemma sort_StronglySorted (l : list A) :
  StronglySorted (orderedBy compareFn) (JSArray.sort compareFn l).
Proof.
  induction l as [| a l IH]; simpl; [constructor |].
  apply insert_StronglySorted. exact IH.
Qed.
End SortFacts.

Lemma StronglySorted_lookup {A} (R : A -> A -> Prop) (l : list A) :
  StronglySorted R l ->
  forall (i j : nat) (a b : A),
    (i < j)%nat -> l !! i = Some a -> l !! j = Some b -> R a b.
Proof.
  induction 1 as [| c l Hl IH Hc]; intros i j a b Hij Ha Hb.
  - rewrite lookup_nil in Ha. discriminate.
  - destruct j as [| j]; [lia |].
    simpl in Hb.
    destruct i as [| i].
    + simpl in Ha. injection Ha as <-.
      rewrite Forall_forall in Hc. apply Hc.
      eapply list_elem_of_lookup_2. exact Hb.
    + simpl in Ha. apply (IH i j); [lia | assumption | assumption].
Qed.

(** The comparator of the draw-order sort compares draw ranks. *)
Lemma compareEntries_rank (a b : Main.Entry) :
  Main.compareEntries a b <= 0 <-> drawRank a <= drawRank b.
Proof.
  unfold Main.compareEntries, drawRank.
  destruct (Main.isTransparent a), (Main.isLeaf a), (Main.isSlab a),
    (Main.isTransparent b), (Main.isLeaf b), (Main.isSlab b); simpl; lia.
Qed.

Lemma compareEntries_total (a b : Main.Entry) :
  Main.compareEntries a b <= 0 \/ Main.compareEntries b a <= 0.
Proof. rewrite !compareEntries_rank. lia. Qed.

Lemma compareEntries_trans (a b c : Main.Entry) :
  Main.compareEntries a b <= 0 -> Main.compareEntries b c <= 0 ->
  Main.compareEntries a c <= 0.
Proof. rewrite !compareEntries_rank. lia. Qed.

(** C5. In the list the batcher's sort returns, a node never comes after a
    node that must follow it: no opaque node after a transparent one;
    among nodes of equal transparency no non-leaf node after a leaf node;
    and among nodes equal in both no non-slab node after a slab node.  The
    sort keeps the nodes: its output is a permutation of its input, and the
    instanced nodes of the scene are the output of that sort. *)
Theorem C5_draw_order (nodes : list Main.Entry) (i j : nat) (a b : Main.Entry) :
  let sorted := Main.sortInstanced nodes in
  (i < j)%nat ->
  sorted !! i = Some a ->
  sorted !! j = Some b ->
  ~ (a.(Main.isTransparent) = true /\ b.(Main.isTransparent) = false)
  /\ (a.(Main.isTransparent) = b.(Main.isTransparent) ->
      ~ (a.(Main.isLeaf) = true /\ b.(Main.isLeaf) = false))
  /\ (a.(Main.isTransparent) = b.(Main.isTransparent) ->
      a.(Main.isLeaf) = b.(Main.isLeaf) ->
      ~ (a.(Main.isSlab) = true /\ b.(Main.isSlab) = false))
  /\ Permutation nodes sorted
  /\ (forall env allBlocks s,
        exists emitted,
          (fst (Main.init env allBlocks s)).(Main.instanced) =
          Main.sortInstanced emitted).
Proof.
  intros sorted Hij Ha Hb.
  assert (Hab : drawRank a <= drawRank b).
  { apply compareEntries_rank.
    apply (StronglySorted_lookup _ sorted
             (sort_StronglySorted _ compareEntries_total compareEntries_trans nodes)
             i j a b Hij Ha Hb). }
  unfold drawRank in Hab.
  split; [| split; [| split; [| split]]].
  - intros [H1 H2]. rewrite H1, H2 in Hab.
    destruct (Main.isLeaf a), (Main.isSlab a), (Main.isLeaf b), (Main.isSlab b);
      simpl in Hab; lia.
  - intros Ht [H1 H2]. rewrite Ht, H1, H2 in Hab.
    destruct (Main.isTransparent b), (Main.isSlab a), (Main.isSlab b);
      simpl in Hab; lia.
  - intros Ht Hl [H1 H2]. rewrite Ht, Hl, H1, H2 in Hab.
    destruct (Main.isTransparent b), (Main.isLeaf b); simpl in Hab; lia.
  - apply sort_Permutation.
  - intros env allBlocks s. unfold Main.init.
    destruct (Main.loadTemplates env _ s) as [settled s'].
    eexists. reflexivity.
Qed.

Lemma C5_draw_order_witness :
  let glass := sampleEntry "glass" true false false in
  let stone := sampleEntry "stone" false false false in
  Main.sortInstanced [glass; stone] = [stone; glass]
  /\ ~ (stone.(Main.isTransparent) = true /\ glass.(Main.isTransparent) = false).
Proof.
  split; [reflexivity |].
  apply (C5_draw_order
           [sampleEntry "glass" true false false;
            sampleEntry "stone" false false false]
           0 1 (sampleEntry "stone" false false false)
           (sampleEntry "glass" true false false));
    [lia | reflexivity | reflexivity].
Defined.

(** ** Connection keys *)

(** The code-unit order on strings is transitive. *)
Lemma string_compare_trans (a b c : string) :
  String.compare a b <> Gt -> String.compare b c <> Gt -> String.compare a c <> Gt.
Proof.
  revert b c. induction a as [| ca a IH]; intros [| cb b] [| cc c]; simpl;
    try congruence.
  unfold Ascii.compare.
  destruct (N.compare_spec (N_of_ascii ca) (N_of_ascii cb)) as [E1 | L1 | G1];
    destruct (N.compare_spec (N_of_ascii cb) (N_of_ascii cc)) as [E2 | L2 | G2];
    destruct (N.compare_spec (N_of_ascii ca) (N_of_ascii cc)) as [E3 | L3 | G3];
    try congruence; try lia.
  apply IH.
Qed.

Lemma defaultCompare_le (a b : string) :
  JSArray.defaultCompare a b <= 0 <-> String.compare a b <> Gt.
Proof.
  unfold JSArray.defaultCompare.
  destruct (String.compare a b); split; intros H; try lia; try congruence.
Qed.

Lemma defaultCompare_total (a b : string) :
  JSArray.defaultCompare a b <= 0 \/ JSArray.defaultCompare b a <= 0.
Proof.
  rewrite !defaultCompare_le, (String.compare_antisym a b).
  destruct (String.compare b a); simpl; [left | right | left]; congruence.
Qed.

Lemma defaultCompare_trans (a b c : string) :
  JSArray.defaultCompare a b <= 0 -> JSArray.defaultCompare b c <= 0 ->
  JSArray.defaultCompare a c <= 0.
Proof. rewrite !defaultCompare_le. apply string_compare_trans. Qed.

Lemma defaultCompare_antisym (a b : string) :
  JSArray.defaultCompare a b <= 0 -> JSArray.defaultCompare b a <= 0 -> a = b.
Proof.
  rewrite !defaultCompare_le. intros H1 H2.
  apply String.leb_antisym; unfold String.leb;
    [destruct (String.compare a b) | destruct (String.compare b a)];
    congruence.
Qed.

(** Sorting forgets the order in which the strings arrived. *)
Lemma sortStrings_Permutation (l1 l2 : list string) :
  Permutation l1 l2 -> JSArray.sortStrings l1 = JSArray.sortStrings l2.
Proof.
  intros H. unfold JSArray.sortStrings.
  apply (StronglySorted_unique_strong (orderedBy JSArray.defaultCompare)).
  - intros s1 s2 _ _. apply defaultCompare_antisym.
  - apply sort_StronglySorted; [apply defaultCompare_total | apply defaultCompare_trans].
  - apply sort_StronglySorted; [apply defaultCompare_total | apply defaultCompare_trans].
  - rewrite <- !(sort_Permutation JSArray.defaultCompare). exact H.
Qed.

Lemma connectionsKey_Permutation (c1 c2 : list (string * JSVal)) :
  Permutation c1 c2 -> connectionsKey c1 = connectionsKey c2.
Proof.
  intros H. unfold connectionsKey. f_equal.
  apply sortStrings_Permutation.
  apply Permutation_map.
  induction H; simpl.
  - reflexivity.
  - destruct (isStringTrue (snd x0)); [apply perm_skip |]; assumption.
  - destruct (isStringTrue (snd x0)), (isStringTrue (snd y0));
      try reflexivity. apply perm_swap.
  - etransitivity; eassumption.
Qed.

Lemma split_lacks_app (c : ascii) (p rest : string) :
  lacks c p = true ->
  split c (p ++ String c rest) = p :: split c rest.
Proof.
  induction p as [| a p IH]; simpl; intros H.
  - rewrite Ascii.eqb_refl. reflexivity.
  - apply andb_true_iff in H as [Ha Hp].
    destruct (Ascii.eqb a c); [discriminate |].
    rewrite (IH Hp). reflexivity.
Qed.

Lemma split_lacks (c : ascii) (s : string) :
  Forall (fun p => lacks c p = true) (split c s).
Proof.
  induction s as [| a s IH]; simpl.
  - repeat constructor.
  - destruct (Ascii.eqb a c) eqn:E.
    + constructor; [reflexivity | exact IH].
    + destruct (split c s) as [| h t].
      * repeat constructor. simpl. rewrite E. reflexivity.
      * inversion IH as [| ? ? Hh Ht]; subst.
        constructor; [simpl; rewrite E, Hh; reflexivity | exact Ht].
Qed.

Lemma split_lacks_single (c : ascii) (p : string) :
  lacks c p = true -> split c p = [p].
Proof.
  induction p as [| a p IH]; simpl; intros H; [reflexivity |].
  apply andb_true_iff in H as [Ha Hp].
  destruct (Ascii.eqb a c); [discriminate |].
  rewrite (IH Hp). reflexivity.
Qed.

(** Joining with '_' loses nothing when no part holds a '_'. *)
Lemma split_join (l : list string) :
  l <> [] -> Forall (fun d => lacks "_" d = true) l ->
  split "_" (join "_" l) = l.
Proof.
  induction l as [| p [| q r] IH]; intros Hne Hl; [congruence | |].
  - inversion Hl; subst. apply split_lacks_single. assumption.
  - inversion Hl as [| ? ? Hp Hrest]; subst.
    change (join "_" (p :: q :: r)) with (p ++ String "_" (join "_" (q :: r)))%string.
    rewrite (split_lacks_app "_" p _ Hp), IH; [reflexivity | discriminate | exact Hrest].
Qed.

Lemma join_empty (l : list string) :
  Forall (fun d => d <> "") l -> join "_" l = "" -> l = [].
Proof.
  destruct l as [| p [| q r]]; intros Hl H; [reflexivity | |].
  - inversion Hl; subst. simpl in H. contradiction.
  - exfalso.
    change (join "_" (p :: q :: r)) with (p ++ String "_" (join "_" (q :: r)))%string in H.
    destruct p; discriminate H.
Qed.

Lemma join_inj (l1 l2 : list string) :
  Forall (fun d => lacks "_" d = true /\ d <> "") l1 ->
  Forall (fun d => lacks "_" d = true /\ d <> "") l2 ->
  join "_" l1 = join "_" l2 -> l1 = l2.
Proof.
  intros H1 H2 E.
  apply List.Forall_and_inv in H1 as [L1 N1].
  apply List.Forall_and_inv in H2 as [L2 N2].
  destruct l1 as [| p1 r1].
  - symmetry. apply (join_empty l2 N2). symmetry. exact E.
  - destruct l2 as [| p2 r2].
    + apply (join_empty (p1 :: r1) N1). exact E.
    + rewrite <- (split_join (p1 :: r1)), <- (split_join (p2 :: r2)), E;
        [reflexivity | discriminate | exact L2 | discriminate | exact L1].
Qed.

Lemma append_empty_r (s : string) : (s ++ "")%string = s.
Proof.
  induction s as [| a s IH]; [reflexivity |].
  change ((String a s ++ "")%string) with (String a (s ++ "")%string).
  rewrite IH. reflexivity.
Qed.

Lemma trueDirections_Permutation (c1 c2 : list (string * JSVal)) :
  Permutation c1 c2 -> Permutation (trueDirections c1) (trueDirections c2).
Proof.
  intros H. unfold trueDirections. apply Permutation_map.
  induction H; simpl.
  - reflexivity.
  - destruct (isStringTrue (snd x0)); [apply perm_skip |]; assumption.
  - destruct (isStringTrue (snd x0)), (isStringTrue (snd y0));
      try reflexivity. apply perm_swap.
  - etransitivity; eassumption.
Qed.

(** C6. The connection part of a group key is built from the connected
    directions (those whose value is the string 'true') after sorting: it
    is the '_'-join of the one sorted arrangement of these directions, so
    it does not depend on the order in which the connections map lists
    them.  Two records that differ only in that order get the same key from
    the key function of main.js, [type]_connections_[joined directions] (or
    'none'), and the same cache key from [loadBlock],
    [type]_[joined directions] (or 'no_connections').  For direction names
    without '_' the joined string determines the directions: maps with
    different sets of connected directions get different connection
    parts. *)
Theorem C6_connection_key_order
    (b : Block) (c1 c2 : list (string * JSVal)) (blockType : string) :
  Permutation c1 c2 ->
  exists sorted : list string,
    Permutation sorted (trueDirections c1)
    /\ Permutation sorted (trueDirections c2)
    /\ StronglySorted (orderedBy JSArray.defaultCompare) sorted
    /\ connectionsKey c1 = join "_" sorted
    /\ connectionsKey c2 = join "_" sorted
    /\ Main.groupKey (withConnections c1 b) = Main.groupKey (withConnections c2 b)
    /\ (keyedByConnections b = true ->
        Main.groupKey (withConnections c1 b)
        = (b.(type) ++ "_connections_"
           ++ (if String.eqb (join "_" sorted) "" then "none"
               else join "_" sorted)) ++ hangingSuffix b)
    /\ TextureLoader.connectedCacheKey blockType c1
       = blockType ++ "_"
         ++ (if String.eqb (join "_" sorted) "" then "no_connections"
             else join "_" sorted)
    /\ TextureLoader.connectedCacheKey blockType c2
       = TextureLoader.connectedCacheKey blockType c1
    /\ (forall c3 : list (string * JSVal),
          Forall (fun d => lacks "_" d = true /\ d <> "")
                 (trueDirections c1 ++ trueDirections c3) ->
          connectionsKey c1 = connectionsKey c3 ->
          Permutation (trueDirections c1) (trueDirections c3)).
Proof.
  intros H. exists (JSArray.sortStrings (trueDirections c1)).
  pose proof (connectionsKey_Permutation c1 c2 H) as Hk.
  assert (Hs1 : Permutation (JSArray.sortStrings (trueDirections c1))
                            (trueDirections c1))
    by (symmetry; apply (sort_Permutation JSArray.defaultCompare)).
  split; [exact Hs1 |].
  split; [rewrite Hs1; apply trueDirections_Permutation; exact H |].
  split; [apply sort_StronglySorted;
          [apply defaultCompare_total | apply defaultCompare_trans] |].
  split; [reflexivity |].
  split; [rewrite <- Hk; reflexivity |].
  split; [unfold Main.groupKey; simpl; rewrite Hk; reflexivity |].
  split.
  { unfold keyedByConnections. intros Hb.
    repeat (apply andb_true_iff in Hb as [Hb ?]).
    repeat match goal with
           | Hn : negb _ = true |- _ => apply negb_true_iff in Hn
           end.
    unfold Main.groupKey, hangingSuffix.
    change (Main.hasSlabFlag (withConnections c1 b)) with (Main.hasSlabFlag b).
    cbn [type connections hanging withConnections].
    repeat match goal with
           | Hn : ?c = false |- context [if ?c then _ else _] => rewrite Hn
           end.
    fold (trueDirections c1). 
    change (connectionsKey c1) with (join "_" (JSArray.sortStrings (trueDirections c1))).
    destruct (hanging b) as [h |]; [reflexivity |].
    symmetry. apply append_empty_r. }
  split; [reflexivity |].
  split; [unfold TextureLoader.connectedCacheKey; rewrite Hk; reflexivity |].
  intros c3 Hall E.
  apply Forall_app in Hall as [Ha1 Ha3].
  assert (Hsort : forall c, Permutation (trueDirections c)
                              (JSArray.sortStrings (trueDirections c)))
    by (intros c; apply (sort_Permutation JSArray.defaultCompare)).
  rewrite (Hsort c1), (Hsort c3).
  replace (JSArray.sortStrings (trueDirections c3))
    with (JSArray.sortStrings (trueDirections c1)); [reflexivity |].
  apply join_inj; [| | exact E].
  - apply List.Forall_forall. intros d Hd.
    rewrite List.Forall_forall in Ha1. apply Ha1.
    apply (Permutation_in d (Permutation_sym (Hsort c1))). exact Hd.
  - apply List.Forall_forall. intros d Hd.
    rewrite List.Forall_forall in Ha3. apply Ha3.
    apply (Permutation_in d (Permutation_sym (Hsort c3))). exact Hd.
Qed.

Lemma C6_connection_key_order_witness :
  Main.groupKey (withConnections [("east", JStr "true"); ("north", JStr "true")]
                   (plainBlock "cobblestone_wall" 0 0 0))
  = "cobblestone_wall_connections_east_north"
  /\ TextureLoader.connectedCacheKey "cobblestone_wall"
       [("east", JStr "true"); ("north", JStr "true")]
     = "cobblestone_wall_east_north".
Proof.
  destruct (C6_connection_key_order (plainBlock "cobblestone_wall" 0 0 0)
              [("north", JStr "true"); ("east", JStr "true")]
              [("east", JStr "true"); ("north", JStr "true")]
              "cobblestone_wall" (perm_swap _ _ _))
    as (sorted & _ & _ & _ & _ & _ & Hg & _ & _ & Hc & _).
  split; [rewrite <- Hg | rewrite Hc]; reflexivity.
Defined.

(** ** Which builders can fail *)

Lemma succeeds_ret {A} (a : A) : succeeds (ret a).
Proof. intros s. eexists. eexists. reflexivity. Qed.

Lemma succeeds_bind {A B} (c : M A) (k : A -> M B) :
  succeeds c -> (forall a, succeeds (k a)) -> succeeds (bind c k).
Proof.
  intros Hc Hk s. unfold bind. destruct (Hc s) as (a & s1 & ->). apply Hk.
Qed.

(** Under a handler that always returns, a [try] always returns. *)
Lemma succeeds_tryCatch {A} (body : M A) (handler : Error -> M A) :
  (forall e, succeeds (handler e)) -> succeeds (tryCatch body handler).
Proof.
  intros Hh s. unfold tryCatch.
  destruct (body s) as [[a | e] s1]; [eexists; eexists; reflexivity | apply Hh].
Qed.

Lemma succeeds_cached get set key build : succeeds (cached get set key build).
Proof. intros s. apply cached_ok. Qed.

Lemma succeeds_loadBlockTextures (env : Env) (blockType cat : string) :
  succeeds (loadBlockTextures env blockType cat).
Proof.
  intros s. destruct (loadBlockTextures_ok env blockType cat s) as [t Ht].
  exists t, s. exact Ht.
Qed.

Lemma succeeds_mathRandom (env : Env) : succeeds (mathRandom env).
Proof. intros s. eexists. eexists. reflexivity. Qed.

Ltac succeeds_step :=
  first [ apply succeeds_ret | apply succeeds_cached
        | apply succeeds_loadBlockTextures | apply succeeds_mathRandom
        | apply succeeds_tryCatch; intros ?
        | apply succeeds_bind; [| intros ?]
        | match goal with
          | |- succeeds (if ?c then _ else _) => destruct c
          | |- succeeds (match ?c with _ => _ end) => destruct c
          end ].

Section BuilderOutcomes.
Import SlabFactory StairFactory GrindstoneFactory BlockFactory.

Lemma succeeds_createFallbackMesh (blockType : string) :
  succeeds (BlockFactory.createFallbackMesh blockType).
Proof. unfold BlockFactory.createFallbackMesh, getBlockGeometry. repeat succeeds_step. Qed.

Lemma succeeds_createChainBlock (env : Env) (blockType : string) :
  succeeds (createChainBlock env blockType).
Proof.
  unfold createChainBlock. apply succeeds_tryCatch. intros _.
  apply succeeds_createFallbackMesh.
Qed.

Lemma succeeds_createGrindstoneBlock (env : Env) (blockType : string) (o : Options) :
  succeeds (createGrindstoneBlock env blockType o).
Proof. unfold createGrindstoneBlock. repeat succeeds_step. Qed.

Lemma succeeds_createSlabBlock (env : Env) (blockType : string) (u : bool) :
  succeeds (createSlabBlock env blockType u).
Proof.
  unfold createSlabBlock, getSlabGeometry. repeat succeeds_step.
Qed.

Lemma succeeds_createWallBlock (env : Env) (blockType : string) conns :
  succeeds (createWallBlock env blockType conns).
Proof. unfold createWallBlock, boxFallback, getBlockGeometry. repeat succeeds_step. Qed.

Lemma succeeds_createFenceBlock (env : Env) (blockType : string) conns :
  succeeds (createFenceBlock env blockType conns).
Proof. unfold createFenceBlock, boxFallback, getBlockGeometry. repeat succeeds_step. Qed.

Lemma succeeds_createTrapdoorBlock (env : Env) (blockType : string) (o : Options) :
  succeeds (createTrapdoorBlock env blockType o).
Proof.
  unfold createTrapdoorBlock. apply succeeds_tryCatch. intros _.
  apply succeeds_createFallbackMesh.
Qed.

Lemma succeeds_createLanternBlock (env : Env) (blockType : string) (h : bool) :
  succeeds (createLanternBlock env blockType h).
Proof.
  unfold createLanternBlock. apply succeeds_tryCatch. intros _.
  apply succeeds_createFallbackMesh.
Qed.

Lemma succeeds_createPlantBlock (env : Env) (blockType : string) (p : Properties) :
  succeeds (createPlantBlock env blockType p).
Proof.
  unfold createPlantBlock, plantFallback, getPlantGeometry. repeat succeeds_step.
Qed.

Lemma succeeds_createDoublePlantBlock (env : Env) (blockType : string) (p : Properties) :
  succeeds (createDoublePlantBlock env blockType p).
Proof.
  unfold createDoublePlantBlock, plantFallback, getPlantGeometry. repeat succeeds_step.
Qed.

(** A stair build returns a mesh when the spruce texture loads and throws
    the reference error of its handler when it does not. *)
Lemma createStairBlock_outcome (env : Env) (blockType : string)
    (o : StairOptions) (s : Store) :
  if textureLoads env "textures/blocks/planks_spruce.png"
  then exists obj, fst (createStairBlock env blockType o s) = Ok obj
  else fst (createStairBlock env blockType o s)
       = Throw (ReferenceError "createFallbackMesh").
Proof.
  unfold createStairBlock, tryCatch, bind, getStairGeometry, cached, loadTexture,
    ret, throw.
  destruct (stairGeometryCache s !! _);
    destruct (textureLoads env "textures/blocks/planks_spruce.png"); simpl;
    try (eexists; reflexivity); reflexivity.
Qed.

(** Every path of [createBlock] other than the stair path returns a mesh or
    a group, with a fallback in place of a failed build; only a stair whose
    texture is missing makes [createBlock] throw. *)
Lemma createBlock_throws_only_for_stairs (env : Env) (blockType : string)
    (o : Options) (s : Store) (e : Error) :
  fst (createBlock env blockType o s) = Throw e ->
  isStairBlock blockType = true
  /\ textureLoads env "textures/blocks/planks_spruce.png" = false
  /\ e = ReferenceError "createFallbackMesh".
Proof.
  assert (Hok : forall c : M Object3D,
             succeeds c -> fst (c s) = Throw e -> False).
  { intros c Hc H. destruct (Hc s) as (a & s1 & Hs). rewrite Hs in H. discriminate. }
  unfold createBlock.
  destruct (isChainBlock blockType);
    [intros H; exfalso; exact (Hok _ (succeeds_createChainBlock _ _) H) |].
  destruct (includes blockType "torch");
    [intros H; exfalso; exact (Hok _ (succeeds_ret _) H) |].
  destruct (isDoorBlock blockType);
    [intros H; exfalso; exact (Hok _ (succeeds_ret _) H) |].
  destruct (isGrindstoneBlock blockType);
    [intros H; exfalso; exact (Hok _ (succeeds_createGrindstoneBlock _ _ _) H) |].
  destruct (includes blockType "concrete" || includes blockType "wool").
  { intros H; exfalso. refine (Hok _ _ H).
    unfold createBlockFallback, getBlockGeometry. repeat succeeds_step. }
  destruct (isSlabBlock blockType);
    [intros H; exfalso; exact (Hok _ (succeeds_createSlabBlock _ _ _) H) |].
  destruct (isStairBlock blockType).
  { intros H.
    pose proof (createStairBlock_outcome env blockType
                  {| so_facing := Some (orDefault (o_facing o) "east");
                     so_half := None; so_shape := None |} s) as Ho.
    destruct (textureLoads env "textures/blocks/planks_spruce.png").
    - destruct Ho as [obj Ho]. rewrite Ho in H. discriminate.
    - rewrite Ho in H. injection H as <-. auto. }
  destruct (isWallBlock blockType);
    [intros H; exfalso; exact (Hok _ (succeeds_createWallBlock _ _ _) H) |].
  destruct (isFenceBlock blockType);
    [intros H; exfalso; exact (Hok _ (succeeds_createFenceBlock _ _ _) H) |].
  destruct (isTrapdoorBlock blockType);
    [intros H; exfalso; exact (Hok _ (succeeds_createTrapdoorBlock _ _ _) H) |].
  destruct (isLanternBlock blockType);
    [intros H; exfalso; exact (Hok _ (succeeds_createLanternBlock _ _ _) H) |].
  destruct (isDoublePlant blockType);
    [intros H; exfalso; exact (Hok _ (succeeds_createDoublePlantBlock _ _ _) H) |].
  destruct (isPlantBlock blockType);
    [intros H; exfalso; exact (Hok _ (succeeds_createPlantBlock _ _ _) H) |].
  intros H; exfalso. refine (Hok _ _ H).
  unfold createBlockFallback, getBlockGeometry. repeat succeeds_step.
Qed.
End BuilderOutcomes.

(** ** Template failures *)

(** C7 fails on the code for stairs. When the stair texture does not load,
    the [catch] of [createStairBlock] calls [createFallbackMesh], which
    stairFactory.js does not define; the resulting error is not seen by the
    [catch] of [createBlock], which returned the builder's promise without
    awaiting it, and [loadBlock] rethrows it.  No fallback mesh is
    produced.  The batching loop does log the failure and goes on: the
    stair group is left out of the scene, the stone group is instanced. *)
Theorem C7_stair_failure_escapes :
  let env := envWithout "textures/blocks/planks_spruce.png" in
  fst (StairFactory.createStairBlock env "oak_stairs" (stairOptionsFacing "east")
         emptyStore)
  = Throw (ReferenceError "createFallbackMesh")
  /\ fst (BlockFactory.createBlock env "oak_stairs" noOptions emptyStore)
     = Throw (ReferenceError "createFallbackMesh")
  /\ fst (TextureLoader.loadBlock env "oak_stairs" noOptions emptyStore)
     = Throw (ReferenceError "createFallbackMesh")
  /\ (let scene := fst (Main.init env stairAndStone emptyStore) in
      List.map (fun e => e.(Main.entry_mesh).(Main.im_name)) scene.(Main.instanced)
      = ["stone"]
      /\ scene.(Main.containers) = []
      /\ scene.(Main.consoleErrors)
         = [("spruce_stairs_facing_east_half_bottom",
             ReferenceError "createFallbackMesh")]).
Proof. repeat split; vm_compute; reflexivity. Qed.

(** For contrast, the sibling builders that do define their fallback: a
    chain whose texture is missing comes back as the magenta fallback
    mesh. *)
Example chain_failure_falls_back :
  exists g,
    fst (BlockFactory.createBlock (envWithout "textures/blocks/chain1.png")
           "chain" noOptions emptyStore)
    = Ok (mesh "fallback_chain" g (Single createFallbackMaterial))
    /\ createFallbackMaterial.(mat_color) = 0xFF00FF
    /\ createFallbackMaterial.(mat_wireframe) = true.
Proof. eexists. repeat split. Qed.

(** ** Walls and fences *)

Lemma lookupConnection_not_true (name : string) (conns : list (string * JSVal)) :
  (forall k v, In (k, v) conns -> isStringTrue v = false) ->
  isStringTrue (lookupConnection name conns) = false.
Proof.
  induction conns as [| [k v] conns IH]; intros H; simpl; [reflexivity |].
  destruct (String.eqb k name).
  - apply (H k v). left. reflexivity.
  - apply IH. intros k' v' Hin. apply (H k' v'). right. exact Hin.
Qed.

Lemma connectionsKey_no_true (conns : list (string * JSVal)) :
  (forall k v, In (k, v) conns -> isStringTrue v = false) ->
  connectionsKey conns = "".
Proof.
  intros H. unfold connectionsKey.
  replace (List.filter (fun e => isStringTrue (snd e)) conns) with (@nil (string * JSVal));
    [reflexivity |].
  induction conns as [| [k v] conns IH]; simpl; [reflexivity |].
  rewrite (H k v) by (left; reflexivity).
  apply IH. intros k' v' Hin. apply (H k' v'). right. exact Hin.
Qed.

Section WallBuild.
Import BlockFactory.

Lemma createWallBlock_parts (env : Env) (blockType : string)
    (conns : list (string * JSVal)) (s : Store) :
  exists material,
    createWallBlock env blockType conns s =
    (Ok (Group blockType
           (wallPost material ::
            List.map (wallSegment material)
              (List.filter (connected conns) directions))
           origin origin), s).
Proof.
  unfold createWallBlock, tryCatch, bind.
  destruct (loadBlockTextures_ok env blockType "uniform" s) as [t Ht].
  rewrite Ht. eexists. reflexivity.
Qed.

Lemma createFenceBlock_parts (env : Env) (blockType : string)
    (conns : list (string * JSVal)) (s : Store) :
  exists material,
    createFenceBlock env blockType conns s =
    (Ok (Group blockType
           (fencePost material ::
            flat_map (fenceRails material)
              (List.filter (connected conns) directions))
           origin origin), s).
Proof.
  unfold createFenceBlock, tryCatch, bind.
  destruct (loadBlockTextures_ok env blockType "uniform" s) as [t Ht].
  rewrite Ht. eexists. reflexivity.
Qed.

Lemma no_arms (conns : list (string * JSVal)) :
  (forall k v, In (k, v) conns -> isStringTrue v = false) ->
  List.filter (connected conns) directions = [].
Proof.
  intros H. unfold directions, connected. simpl.
  rewrite !(lookupConnection_not_true _ conns H). reflexivity.
Qed.
End WallBuild.

(** C8. A wall or fence template consists of the center post and, for each
    of the four directions in turn, the arm of that direction exactly when
    the connections map stores the string 'true' for it (one segment for a
    wall, two rails for a fence).  When no stored value is the string
    'true', as when the map stores booleans, the template is the post
    alone, and the group key of the record reads 'connections_none'. *)
Theorem C8_string_true_connections
    (env : Env) (b : Block) (conns : list (string * JSVal)) (s : Store) :
  b.(connections) = Some conns ->
  Main.hasSlabFlag b = false ->
  Main.isColoredType b.(type) = false ->
  Main.isStairType b.(type) = false ->
  Main.isTrapdoorType b.(type) = false ->
  b.(hanging) = None ->
  let armed d := BlockFactory.connected conns d in
  (exists material,
     BlockFactory.createWallBlock env b.(type) conns s =
     (Ok (Group b.(type)
            (wallPost material ::
             List.map (BlockFactory.wallSegment material)
               (List.filter armed BlockFactory.directions))
            origin origin), s))
  /\ (exists material,
        BlockFactory.createFenceBlock env b.(type) conns s =
        (Ok (Group b.(type)
               (fencePost material ::
                flat_map (BlockFactory.fenceRails material)
                  (List.filter armed BlockFactory.directions))
               origin origin), s))
  /\ (forall d, armed d = true <->
                lookupConnection d.(BlockFactory.dir_name) conns = JStr "true")
  /\ ((forall k v, In (k, v) conns -> exists flag, v = JBool flag) ->
      (exists material,
         BlockFactory.createWallBlock env b.(type) conns s =
         (Ok (Group b.(type) [wallPost material] origin origin), s))
      /\ (exists material,
            BlockFactory.createFenceBlock env b.(type) conns s =
            (Ok (Group b.(type) [fencePost material] origin origin), s))
      /\ Main.groupKey b = b.(type) ++ "_connections_none").
Proof.
  intros Hc Hslab Hcol Hstair Htrap Hhang armed.
  split; [apply createWallBlock_parts |].
  split; [apply createFenceBlock_parts |].
  split.
  - intros d. subst armed. unfold BlockFactory.connected, isStringTrue.
    destruct (lookupConnection (BlockFactory.dir_name d) conns) as [| | | | v];
      try (split; [discriminate | discriminate]).
    rewrite String.eqb_eq. split; [intros -> | intros H; injection H]; auto.
  - intros Hbool.
    assert (Hnt : forall k v, In (k, v) conns -> isStringTrue v = false).
    { intros k v Hin. destruct (Hbool k v Hin) as [flag ->]. reflexivity. }
    split; [| split].
    + destruct (createWallBlock_parts env b.(type) conns s) as [m Hm].
      exists m. rewrite Hm, (no_arms conns Hnt). reflexivity.
    + destruct (createFenceBlock_parts env b.(type) conns s) as [m Hm].
      exists m. rewrite Hm, (no_arms conns Hnt). reflexivity.
    + unfold Main.groupKey.
      rewrite Hslab, Hcol, Hstair, Htrap, Hc, Hhang,
        (connectionsKey_no_true conns Hnt).
      reflexivity.
Qed.

Lemma C8_string_true_connections_witness :
  Main.groupKey (withConnections [("north", JBool true)]
                   (plainBlock "cobblestone_wall" 0 0 0))
  = "cobblestone_wall_connections_none".
Proof.
  pose proof (C8_string_true_connections (plainEnv 0)
                (withConnections [("north", JBool true)]
                   (plainBlock "cobblestone_wall" 0 0 0))
                [("north", JBool true)] emptyStore
                eq_refl eq_refl eq_refl eq_refl eq_refl eq_refl) as H.
  destruct H as (_ & _ & _ & H).
  apply H. intros k v [E | []]. injection E as _ <-. exists true. reflexivity.
Defined.

(** ** The render range *)

(** The filter keeps exactly the blocks whose height lies in [-1, 189] and
    whose horizontal distance from (128, 27) is at most 75. *)
Lemma withinRenderRange_iff (b : Block) :
  Main.withinRenderRange b = true <->
  (-1 <= b.(y) <= 189
   /\ (b.(x) - 128) * (b.(x) - 128) + (b.(z) - 27) * (b.(z) - 27) <= 75 * 75).
Proof.
  unfold Main.withinRenderRange, Main.sqrtExceeds, Main.minRenderHeight,
    Main.maxRenderHeight.
  change Main.centerX with 128. change Main.centerZ with 27.
  destruct (y b <? -1) eqn:E1; simpl.
  - apply Z.ltb_lt in E1. split; [discriminate | lia].
  - apply Z.ltb_ge in E1.
    destruct (189 <? y b) eqn:E2.
    + apply Z.ltb_lt in E2. split; [discriminate | lia].
    + apply Z.ltb_ge in E2.
      destruct (75 * 75 <? _) eqn:E3.
      * apply Z.ltb_lt in E3. split; [discriminate | lia].
      * apply Z.ltb_ge in E3. split; [intros _; lia | reflexivity].
Qed.

Lemma filter_drop_excluded (before after : list Block) (b : Block) :
  Main.withinRenderRange b = false ->
  List.filter Main.withinRenderRange (before ++ b :: after)%list
  = List.filter Main.withinRenderRange (before ++ after)%list.
Proof.
  intros H. rewrite !List.filter_app. simpl. rewrite H. reflexivity.
Qed.

(** C9. A block whose height is outside [-1, 189], or whose horizontal
    distance from the center (128, 27) exceeds 75, is dropped by the filter
    at the head of the assembly routine; the snapshot with the block and
    the snapshot without it give the same rendered blocks, the same
    instance groups, the same scene and the same caches, so the block
    contributes no instance, no group and no template build. *)
Theorem C9_render_range
    (env : Env) (before after : list Block) (b : Block) (s : Store) :
  (b.(y) < -1 \/ 189 < b.(y)
   \/ 75 * 75 < (b.(x) - 128) * (b.(x) - 128) + (b.(z) - 27) * (b.(z) - 27)) ->
  Main.withinRenderRange b = false
  /\ Main.renderedBlocks (before ++ b :: after)%list
     = Main.renderedBlocks (before ++ after)%list
  /\ Main.instanceGroups (Main.renderedBlocks (before ++ b :: after)%list)
     = Main.instanceGroups (Main.renderedBlocks (before ++ after)%list)
  /\ Main.init env (before ++ b :: after)%list s
     = Main.init env (before ++ after)%list s.
Proof.
  intros Hout.
  assert (Hf : Main.withinRenderRange b = false).
  { destruct (Main.withinRenderRange b) eqn:E; [| reflexivity].
    apply withinRenderRange_iff in E. lia. }
  assert (Hr : Main.renderedBlocks (before ++ b :: after)%list
               = Main.renderedBlocks (before ++ after)%list).
  { unfold Main.renderedBlocks. rewrite (filter_drop_excluded _ _ _ Hf). reflexivity. }
  split; [exact Hf |]. split; [exact Hr |].
  split; [rewrite Hr; reflexivity |].
  unfold Main.init. rewrite Hr. reflexivity.
Qed.

Lemma C9_render_range_witness :
  Main.renderedBlocks [plainBlock "stone" 128 0 27; plainBlock "stone" 128 190 27]
  = Main.renderedBlocks [plainBlock "stone" 128 0 27].
Proof.
  pose proof (C9_render_range (plainEnv 0) [plainBlock "stone" 128 0 27] []
                (plainBlock "stone" 128 190 27) emptyStore) as H.
  simpl in H. destruct H as (_ & H & _); [lia | exact H].
Defined.

(** ** Random yaw of plants *)

Section PlantBuild.
Import BlockFactory.

(** The result of a plant build: everything but the yaw is fixed by the
    arguments and the store; the yaw is zero for an exempt type and twice
    the next random draw (in units of pi) otherwise. *)
Lemma plant_build_shape (env : Env) (blockType : string)
    (properties : Properties) (s : Store) (exempt : bool) :
  exists children s0 s1,
    forall r : nat -> Q,
      tryCatch
        (let* textures := loadBlockTextures (withRandom env r) blockType "uniform" in
         let material := plantMaterial textures.(texture) properties in
         let* geometry := getPlantGeometry in
         let* yaw := (if negb exempt then randomYaw (withRandom env r) else ret 0%Q) in
         ret (Group blockType (crossedPlanes geometry material)
                (0, -0.5, 0)%Q (0, yaw, 0)%Q))
        (fun _ => plantFallback blockType) s
      = (Ok (Group blockType children (0, -0.5, 0)%Q
               (0, if exempt then 0 else Qred (r s.(randomCalls) * 2), 0)%Q),
         if exempt then s0 else s1).
Proof.
  destruct (loadBlockTextures_ok env blockType "uniform" s) as [t Ht].
  destruct (cached_ok geometryCache setGeometryCache "plant"
              (translate 0 0 0 (PlaneGeometry 1.0 1.0)) s) as (g & s' & Hg).
  assert (Hrc : randomCalls s' = randomCalls s).
  { unfold cached in Hg. destruct (geometryCache s !! "plant");
      injection Hg as _ <-; reflexivity. }
  exists (crossedPlanes g (plantMaterial t.(texture) properties)), s',
    {| geometryCache := s'.(geometryCache);
       slabGeometryCache := s'.(slabGeometryCache);
       stairGeometryCache := s'.(stairGeometryCache);
       blockCache := s'.(blockCache);
       randomCalls := S s'.(randomCalls) |}.
  intros r. unfold tryCatch, bind.
  change (loadBlockTextures (withRandom env r) blockType "uniform" s)
    with (loadBlockTextures env blockType "uniform" s).
  rewrite Ht. unfold getPlantGeometry. rewrite Hg.
  destruct exempt; simpl; [reflexivity |].
  rewrite Hrc. reflexivity.
Qed.
End PlantBuild.

(** C10. The template built for a plant is a function of the record and of
    the random source.  For a plant whose type contains neither 'crop' nor
    'wheat', and for a double plant whose type does not contain '_top', the
    yaw of the template is twice pi times the next [Math.random()] draw:
    name, children and position are the same for every random source, and
    two sources give templates with different yaw.  For the exempt types
    the yaw is zero whatever the random source. *)
Theorem C10_random_yaw
    (env : Env) (blockType : string) (properties : Properties) (s : Store) :
  let plantExempt := includes blockType "crop" || includes blockType "wheat" in
  let doubleExempt := includes blockType "_top" in
  (exists children s0 s1,
     forall r : nat -> Q,
       BlockFactory.createPlantBlock (withRandom env r) blockType properties s
       = (Ok (Group blockType children (0, -0.5, 0)%Q
                (0, if plantExempt then 0 else Qred (r s.(randomCalls) * 2), 0)%Q),
          if plantExempt then s0 else s1))
  /\ (exists children s0 s1,
        forall r : nat -> Q,
          BlockFactory.createDoublePlantBlock (withRandom env r) blockType properties s
          = (Ok (Group blockType children (0, -0.5, 0)%Q
                   (0, if doubleExempt then 0 else Qred (r s.(randomCalls) * 2), 0)%Q),
             if doubleExempt then s0 else s1))
  /\ (if plantExempt then True
      else fst (BlockFactory.createPlantBlock (withRandom env (fun _ => 0%Q))
                  blockType properties s)
           <> fst (BlockFactory.createPlantBlock (withRandom env (fun _ => 0.25%Q))
                     blockType properties s))
  /\ (if doubleExempt then True
      else fst (BlockFactory.createDoublePlantBlock (withRandom env (fun _ => 0%Q))
                  blockType properties s)
           <> fst (BlockFactory.createDoublePlantBlock (withRandom env (fun _ => 0.25%Q))
                     blockType properties s)).
Proof.
  intros plantExempt doubleExempt.
  assert (Hp : exists children s0 s1,
             forall r : nat -> Q,
               BlockFactory.createPlantBlock (withRandom env r) blockType properties s
               = (Ok (Group blockType children (0, -0.5, 0)%Q
                        (0, if plantExempt then 0 else Qred (r s.(randomCalls) * 2), 0)%Q),
                  if plantExempt then s0 else s1)).
  { destruct (plant_build_shape env blockType properties s plantExempt)
      as (ch & s0 & s1 & H).
    exists ch, s0, s1. intros r. rewrite <- (H r).
    unfold BlockFactory.createPlantBlock. subst plantExempt.
    rewrite negb_orb. reflexivity. }
  assert (Hd : exists children s0 s1,
             forall r : nat -> Q,
               BlockFactory.createDoublePlantBlock (withRandom env r) blockType properties s
               = (Ok (Group blockType children (0, -0.5, 0)%Q
                        (0, if doubleExempt then 0 else Qred (r s.(randomCalls) * 2), 0)%Q),
                  if doubleExempt then s0 else s1)).
  { destruct (plant_build_shape env blockType properties s doubleExempt)
      as (ch & s0 & s1 & H).
    exists ch, s0, s1. intros r. rewrite <- (H r). reflexivity. }
  split; [exact Hp |]. split; [exact Hd |]. split.
  - destruct Hp as (ch & s0 & s1 & H).
    destruct plantExempt; [exact I |].
    rewrite !H. simpl. intros E. discriminate E.
  - destruct Hd as (ch & s0 & s1 & H).
    destruct doubleExempt; [exact I |].
    rewrite !H. simpl. intros E. discriminate E.
Qed.

(** * Further properties of the loader, the grouping and the caches *)

(** ** The transformation pass as a scan *)

Section Scan.
Import WorldLoader.

Lemma buildBlockMap_loop_no_null (blocks : list Block) (m : gmap Key (option Block)) :
  (forall k, isNull m k = false) ->
  forall k,
    isNull (fold_left (fun m b => <[keyOf b.(x) b.(y) b.(z) := Some b]> m) blocks m) k
    = false.
Proof.
  revert m. induction blocks as [| b l IH]; intros m H k; simpl; [apply H |].
  apply IH. intros k'. unfold isNull.
  destruct (decide (keyOf (x b) (y b) (z b) = k')) as [<- | Hne].
  - rewrite lookup_insert_eq. reflexivity.
  - rewrite lookup_insert_ne by exact Hne. apply H.
Qed.

(** The map built from a snapshot holds no consumed mark. *)
Lemma buildBlockMap_no_null (blocks : list Block) (k : Key) :
  isNull (buildBlockMap blocks) k = false.
Proof.
  unfold buildBlockMap. apply buildBlockMap_loop_no_null.
  intros k'. unfold isNull. rewrite lookup_empty. reflexivity.
Qed.

(** The loop reads the map only through its consumed marks. *)
Lemma processLoop_scan (l : list Block) (m : gmap Key (option Block))
    (out : list Block) (D : gset Key) :
  (forall k, isNull m k = true <-> k ∈ D) ->
  snd (fold_left processStep l (m, out)) = (out ++ scan D l)%list.
Proof.
  revert m out D. induction l as [| b l IH]; intros m out D H.
  - simpl. rewrite app_nil_r. reflexivity.
  - cbn [fold_left scan]. unfold processStep at 2. unfold positionOf.
    destruct (isNull m (keyOf (x b) (y b) (z b))) eqn:E.
    + rewrite bool_decide_eq_true_2 by (apply H; exact E). apply IH, H.
    + rewrite bool_decide_eq_false_2
        by (intros Hin; apply H in Hin; congruence).
      destruct (includes (type b) "double_plant").
      * rewrite (IH _ _ ({[ keyOf (x b) (y b + 1) (z b) ]} ∪ D)).
        { rewrite <- app_assoc. reflexivity. }
        intros k. unfold isNull.
        destruct (decide (keyOf (x b) (y b + 1) (z b) = k)) as [<- | Hne].
        -- rewrite lookup_insert_eq.
           split; [intros _; apply elem_of_union_l, elem_of_singleton | ];
             reflexivity.
        -- rewrite lookup_insert_ne by exact Hne.
           fold (isNull m k). rewrite H, elem_of_union, elem_of_singleton.
           split; [auto | intros [Heq | Hin]; [congruence | exact Hin]].
      * rewrite (IH _ _ D H), <- app_assoc. reflexivity.
Qed.

Lemma processBlocks_scan (blocks : list Block) :
  processBlocks blocks = scan ∅ blocks.
Proof.
  unfold processBlocks.
  rewrite (processLoop_scan blocks (buildBlockMap blocks) [] ∅); [reflexivity |].
  intros k. rewrite buildBlockMap_no_null. split; [discriminate | set_solver].
Qed.

Lemma scan_kept (D : gset Key) (l : list Block) :
  exists kept, sublist kept l /\ scan D l = flat_map processBlock kept.
Proof.
  revert D. induction l as [| b l IH]; intros D; simpl.
  - exists []. split; [constructor | reflexivity].
  - destruct (bool_decide (positionOf b ∈ D)).
    + destruct (IH D) as (kept & Hs & He).
      exists kept. split; [apply sublist_cons; exact Hs | exact He].
    + destruct (includes (type b) "double_plant").
      * destruct (IH ({[ keyOf (x b) (y b + 1) (z b) ]} ∪ D)) as (kept & Hs & He).
        exists (b :: kept). split; [apply sublist_skip; exact Hs |].
        simpl. rewrite He. reflexivity.
      * destruct (IH D) as (kept & Hs & He).
        exists (b :: kept). split; [apply sublist_skip; exact Hs |].
        simpl. rewrite He. reflexivity.
Qed.

Lemma processBlock_length (b : Block) :
  (1 <= length (processBlock b) <= 2)%nat.
Proof.
  unfold processBlock.
  repeat match goal with
         | |- context [if ?c then _ else _] => destruct c
         end; simpl; lia.
Qed.

Lemma flat_map_processBlock_length (l : list Block) :
  (length l <= length (flat_map processBlock l) <= 2 * length l)%nat.
Proof.
  induction l as [| b l IH]; simpl; [lia |].
  rewrite length_app. pose proof (processBlock_length b). lia.
Qed.

End Scan.

(** X1. The output of [processBlocks] is the concatenation, in input
    order, of what the branch cascade of the loop body pushes for the
    records that are not skipped: some records of the input are left out,
    none is reordered and none is invented.  Every kept record contributes
    one or two records, so the output is at most twice as long as the
    input. *)
Theorem processBlocks_keeps_order (blocks : list Block) :
  exists kept,
    sublist kept blocks
    /\ WorldLoader.processBlocks blocks = flat_map WorldLoader.processBlock kept
    /\ (length kept <= length (WorldLoader.processBlocks blocks)
        <= 2 * length blocks)%nat.
Proof.
  rewrite processBlocks_scan.
  destruct (scan_kept ∅ blocks) as (kept & Hs & He).
  exists kept. split; [exact Hs |]. split; [exact He |].
  rewrite He. pose proof (flat_map_processBlock_length kept) as Hl.
  pose proof (sublist_length _ _ Hs). lia.
Qed.

(** X2. A snapshot without double plants loses no record: the output
    holds exactly one record per input record, at the same position and in
    the same order. *)
Theorem processBlocks_without_double_plants (blocks : list Block) :
  Forall (fun b => includes b.(type) "double_plant" = false) blocks ->
  WorldLoader.processBlocks blocks = flat_map WorldLoader.processBlock blocks
  /\ List.map positionOf (WorldLoader.processBlocks blocks)
     = List.map positionOf blocks.
Proof.
  intros H. rewrite processBlocks_scan.
  assert (Hs : forall D : gset WorldLoader.Key, D = ∅ ->
            scan D blocks = flat_map WorldLoader.processBlock blocks).
  { intros D ->. induction H as [| b l Hb Hl IH]; simpl; [reflexivity |].
    rewrite bool_decide_eq_false_2 by apply not_elem_of_empty.
    rewrite Hb, IH. reflexivity. }
  rewrite (Hs ∅ eq_refl). split; [reflexivity |]. clear Hs.
  induction H as [| b l Hb Hl IH]; simpl; [reflexivity |].
  rewrite List.map_app, IH, (processBlock_position b Hb). reflexivity.
Qed.

Lemma processBlocks_without_double_plants_witness :
  List.map positionOf
    (WorldLoader.processBlocks
       [plainBlock "slab" 1 2 3; plainBlock "oak_stairs" 1 3 3;
        plainBlock "stone" 1 3 3])
  = [(1, 2, 3); (1, 3, 3); (1, 3, 3)].
Proof.
  apply (processBlocks_without_double_plants
           [plainBlock "slab" 1 2 3; plainBlock "oak_stairs" 1 3 3;
            plainBlock "stone" 1 3 3]).
  repeat constructor.
Defined.

(** ** Plant types and the parts synthesized from them *)

(** A plant type holds no underscore. *)
Lemma plantTypeOf_lacks (t : string) :
  lacks "_" (WorldLoader.plantTypeOf t) = true.
Proof.
  unfold WorldLoader.plantTypeOf.
  pose proof (split_lacks "_" t) as H.
  destruct (split "_" t) as [| a [| b [| c r]]]; try reflexivity.
  simpl. inversion H as [| ? ? _ H1]; subst.
  inversion H1 as [| ? ? _ H2]; subst.
  inversion H2 as [| ? ? Hc _]; subst. exact Hc.
Qed.

(** The plant type read back from a synthesized part type. *)
Lemma plantTypeOf_part (p suffix : string) :
  lacks "_" p = true ->
  WorldLoader.plantTypeOf ("double_plant_" ++ p ++ String "_" suffix) = p.
Proof.
  intros H. unfold WorldLoader.plantTypeOf.
  change ("double_plant_" ++ p ++ String "_" suffix)%string
    with ("double" ++ String "_" ("plant" ++ String "_" (p ++ String "_" suffix)))%string.
  rewrite !split_lacks_app by (reflexivity || exact H).
  reflexivity.
Qed.

Lemma doublePlantBottom_again (b : Block) :
  WorldLoader.doublePlantBottom (WorldLoader.doublePlantBottom b)
  = WorldLoader.doublePlantBottom b
  /\ WorldLoader.doublePlantTop (WorldLoader.doublePlantBottom b)
     = WorldLoader.doublePlantTop b.
Proof.
  unfold WorldLoader.doublePlantBottom, WorldLoader.doublePlantTop.
  destruct b; simpl.
  change "_bottom" with (String "_" "bottom").
  rewrite plantTypeOf_part by apply plantTypeOf_lacks.
  split; reflexivity.
Qed.

Lemma slabTypeOfData_cases (d : option Z) :
  In (WorldLoader.slabTypeOfData d)
     [ "stone_slab"; "sandstone_slab"; "oak_slab"; "cobblestone_slab";
       "brick_slab"; "stone_brick_slab"; "nether_brick_slab"; "quartz_slab" ].
Proof.
  destruct d as [v |]; simpl; [| tauto].
  unfold WorldLoader.slabTypeOfBits.
  destruct (bitand v 7) as [| p | p]; try tauto.
  do 3 (try destruct p as [p | p |]); tauto.
Qed.

(** ** Running the pass on its own output *)

Section Settled.
Import WorldLoader.

Lemma upperFlag_set (b : Block) :
  upperFlag (set_isUpperSlab (Some (upperFlag b)) b) = upperFlag b.
Proof.
  destruct b as [? ? ? ? ? [[|] |] [[[[|] |]] |]]; reflexivity.
Qed.

Lemma specificSlab_again (b : Block) :
  specificSlab (specificSlab b) = specificSlab b.
Proof.
  unfold specificSlab.
  destruct b as [? ? ? ? ? [[|] |] [[[[|] |]] |]]; reflexivity.
Qed.

Lemma specificSlab_genericSlab (b : Block) :
  specificSlab (genericSlab b) = genericSlab b.
Proof.
  unfold specificSlab, genericSlab.
  destruct b as [? ? ? ? ? [[|] |] [[[[|] |]] |]]; reflexivity.
Qed.

Lemma withStairData_again (b : Block) :
  withStairData (withStairData b) = withStairData b.
Proof. destruct b; reflexivity. Qed.

Lemma withStairData_genericStairs (b : Block) :
  withStairData (genericStairs b) = genericStairs b.
Proof. destruct b; reflexivity. Qed.

Lemma withTrapdoorState_again (b : Block) :
  withTrapdoorState (withTrapdoorState b) = withTrapdoorState b.
Proof. destruct b as [? ? ? ? ? ? ? ? ? ? ? [st |]]; reflexivity. Qed.

Lemma orDefault_again (o : option string) (d : string) :
  d <> "" -> orDefault (Some (orDefault o d)) d = orDefault o d.
Proof.
  intros Hd. unfold orDefault.
  destruct o as [s |].
  - destruct (String.eqb s "") eqn:E; [| rewrite E; reflexivity].
    destruct (String.eqb d ""); reflexivity.
  - destruct (String.eqb d "") eqn:E; [| reflexivity].
    reflexivity.
Qed.

Lemma coloredBlock_again (b : Block) :
  coloredBlock (coloredBlock b) = coloredBlock b.
Proof.
  unfold coloredBlock. destruct b; cbn -[orDefault].
  rewrite orDefault_again by discriminate. reflexivity.
Qed.

(** What the cascade makes of a record that is no double plant is a single
    record at the same position, again no double plant, which the cascade
    leaves as it is. *)
Lemma processBlock_settled (b : Block) :
  includes b.(type) "double_plant" = false ->
  exists b',
    processBlock b = [b']
    /\ positionOf b' = positionOf b
    /\ includes b'.(type) "double_plant" = false
    /\ processBlock b' = [b'].
Proof.
  intros H. unfold processBlock at 1. rewrite H.
  destruct (includes (type b) "_slab" || String.eqb (type b) "slab") eqn:Es.
  { destruct (String.eqb (type b) "slab") eqn:Eg.
    - exists (genericSlab b). split; [reflexivity |]. split; [reflexivity |].
      assert (Ht : type (genericSlab b) = slabTypeOfData (data b)) by reflexivity.
      pose proof (slabTypeOfData_cases (data b)) as Hc.
      pose proof (specificSlab_genericSlab b) as Hg.
      unfold processBlock. revert Ht Hg. generalize (genericSlab b) as g.
      intros g Ht Hg. cbn [In] in Hc.
      repeat (destruct Hc as [Hc | Hc];
              [rewrite <- Hc in Ht; rewrite Ht; simpl; rewrite Hg;
               split; reflexivity |]).
      destruct Hc.
    - exists (specificSlab b). split; [reflexivity |]. split; [reflexivity |].
      assert (Ht : type (specificSlab b) = type b) by reflexivity.
      unfold processBlock. rewrite Ht, H, Eg, Es, specificSlab_again.
      split; reflexivity. }
  destruct (includes (type b) "_stairs" || String.eqb (type b) "stairs") eqn:Et.
  { destruct (String.eqb (type b) "stairs") eqn:Eg.
    - exists (genericStairs b). split; [reflexivity |]. split; [reflexivity |].
      assert (Ht : type (genericStairs b) = "spruce_stairs") by reflexivity.
      unfold processBlock. rewrite Ht. simpl.
      rewrite withStairData_genericStairs. split; reflexivity.
    - exists (withStairData b). split; [reflexivity |]. split; [reflexivity |].
      assert (Ht : type (withStairData b) = type b) by reflexivity.
      unfold processBlock. rewrite Ht, H, Es, Eg, Et, withStairData_again.
      split; reflexivity. }
  destruct (includes (type b) "_trapdoor" || String.eqb (type b) "trapdoor") eqn:Ed.
  { exists (withTrapdoorState b). split; [reflexivity |].
    assert (Ht : type (withTrapdoorState b) = type b)
      by (unfold withTrapdoorState; destruct (trapdoorState b); reflexivity).
    split; [unfold withTrapdoorState; destruct (trapdoorState b); reflexivity |].
    unfold processBlock. rewrite Ht, H, Es, Et, Ed, withTrapdoorState_again.
    split; reflexivity. }
  destruct (includes (type b) "concrete" || includes (type b) "wool") eqn:Ec.
  { exists (coloredBlock b). split; [reflexivity |]. split; [reflexivity |].
    assert (Ht : type (coloredBlock b) = type b) by reflexivity.
    unfold processBlock. rewrite Ht, H, Es, Et, Ed, Ec, coloredBlock_again.
    split; reflexivity. }
  exists b. split; [reflexivity |]. split; [reflexivity |].
  unfold processBlock. rewrite H, Es, Et, Ed, Ec. split; reflexivity.
Qed.

Lemma scan_again (l : list Block) (D : gset Key) :
  scan D (scan D l) = scan D l.
Proof.
  revert D. induction l as [| b l IH]; intros D; [reflexivity |].
  cbn [scan].
  destruct (bool_decide (positionOf b ∈ D)) eqn:Ed; [apply IH |].
  destruct (includes (type b) "double_plant") eqn:Ep.
  - unfold processBlock. rewrite Ep.
    destruct (doublePlantBottom_again b) as [Hb Ht].
    cbn [app scan].
    change (positionOf (doublePlantBottom b)) with (positionOf b). rewrite Ed.
    assert (Hi : includes (type (doublePlantBottom b)) "double_plant" = true)
      by reflexivity.
    rewrite Hi. unfold processBlock. rewrite Hi, Hb, Ht.
    cbn [app scan].
    change (positionOf (doublePlantTop b))
      with (keyOf (x b) (y b + 1) (z b)).
    change (y (doublePlantBottom b)) with (y b).
    change (x (doublePlantBottom b)) with (x b).
    change (z (doublePlantBottom b)) with (z b).
    rewrite bool_decide_eq_true_2
      by (apply elem_of_union_l, elem_of_singleton; reflexivity).
    rewrite IH. reflexivity.
  - destruct (processBlock_settled b Ep) as (b' & H1 & H2 & H3 & H4).
    rewrite H1. cbn [app scan]. rewrite H2, Ed, H3, H4, IH. reflexivity.
Qed.

End Settled.

(** X3. The transformation pass is idempotent: run on its own output it
    returns that output unchanged.  The synthesized bottom record is
    recognised again as a double plant of the same plant type, its
    regenerated top replaces the synthesized one, and every other record
    is already in the form its branch produces. *)
Theorem processBlocks_idempotent (blocks : list Block) :
  WorldLoader.processBlocks (WorldLoader.processBlocks blocks)
  = WorldLoader.processBlocks blocks.
Proof.
  rewrite (processBlocks_scan (WorldLoader.processBlocks blocks)).
  rewrite processBlocks_scan. apply scan_again.
Qed.

Lemma scan_In (D : gset WorldLoader.Key) (l : list Block) (o : Block) :
  In o (scan D l) -> exists b, In b l /\ In o (WorldLoader.processBlock b).
Proof.
  revert D. induction l as [| b l IH]; intros D; simpl; [tauto |].
  destruct (bool_decide (positionOf b ∈ D)).
  - intros H. destruct (IH _ H) as (b' & Hb & Ho). exists b'. tauto.
  - destruct (includes (type b) "double_plant"); intros H;
      apply in_app_or in H as [H | H];
      try (exists b; tauto);
      destruct (IH _ H) as (b' & Hb & Ho); exists b'; tauto.
Qed.

(** What the cascade pushes is in normal form. *)
Lemma processBlock_normal_form (b o : Block) :
  In o (WorldLoader.processBlock b) ->
  o.(type) <> "slab" /\ o.(type) <> "stairs"
  /\ (includes o.(type) "double_plant" = false ->
      includes o.(type) "_slab" = true -> Main.hasSlabFlag o = true).
Proof.
  unfold WorldLoader.processBlock.
  destruct (includes (type b) "double_plant") eqn:Ep.
  { intros [<- | [<- | []]]; (split; [discriminate |]; split; [discriminate |]);
      intros Hd; discriminate Hd. }
  destruct (includes (type b) "_slab" || String.eqb (type b) "slab") eqn:Es.
  { destruct (String.eqb (type b) "slab") eqn:Eg; intros [<- | []].
    - pose proof (slabTypeOfData_cases (data b)) as Hc.
      change (WorldLoader.slabTypeOfData (data b))
        with (type (WorldLoader.genericSlab b)) in Hc.
      split; [| split; [| reflexivity]]; intros E; rewrite E in Hc;
        cbn [In] in Hc; repeat (destruct Hc as [Hc | Hc]; [discriminate Hc |]);
        destruct Hc.
    - change (type (WorldLoader.specificSlab b)) with (type b).
      apply String.eqb_neq in Eg.
      split; [exact Eg |]. split; [| reflexivity].
      intros E. rewrite E in Es. discriminate Es. }
  apply orb_false_iff in Es as [Es1 Es2]. apply String.eqb_neq in Es2.
  destruct (includes (type b) "_stairs" || String.eqb (type b) "stairs") eqn:Et.
  { destruct (String.eqb (type b) "stairs") eqn:Eg; intros [<- | []].
    - split; [discriminate |]. split; [discriminate |].
      intros _ E. discriminate E.
    - change (type (WorldLoader.withStairData b)) with (type b).
      apply String.eqb_neq in Eg.
      split; [exact Es2 |]. split; [exact Eg |]. congruence. }
  apply orb_false_iff in Et as [Et1 Et2]. apply String.eqb_neq in Et2.
  assert (Hd : forall o', type o' = type b ->
            type o' <> "slab" /\ type o' <> "stairs"
            /\ (includes (type o') "double_plant" = false ->
                includes (type o') "_slab" = true -> Main.hasSlabFlag o' = true)).
  { intros o' ->. split; [exact Es2 |]. split; [exact Et2 |]. congruence. }
  repeat match goal with
         | |- context [if ?c then _ else _] => destruct c
         end; intros [<- | []]; apply Hd; try reflexivity.
  unfold WorldLoader.withTrapdoorState. destruct (trapdoorState b); reflexivity.
Qed.

(** X4. The output of [processBlocks] is in normal form: no record has the
    generic type 'slab' or 'stairs' any more, and every slab record (a type
    containing '_slab' that is no double plant) carries an explicit
    upper/lower flag, which is the test that puts it in the slab branch of
    the grouping pass of main.js. *)
Theorem processBlocks_normal_form (blocks : list Block) :
  Forall (fun o =>
            o.(type) <> "slab" /\ o.(type) <> "stairs"
            /\ (includes o.(type) "double_plant" = false ->
                includes o.(type) "_slab" = true ->
                Main.hasSlabFlag o = true))
         (WorldLoader.processBlocks blocks).
Proof.
  rewrite processBlocks_scan. apply List.Forall_forall. intros o Ho.
  destruct (scan_In _ _ _ Ho) as (b & _ & Hb).
  exact (processBlock_normal_form b o Hb).
Qed.

(** ** The grouping pass of main.js *)

Section Grouping.
Import Main.

Lemma getGroup_has (k : string) (gs : Groups) :
  has k gs = true <-> exists g, getGroup k gs = Some g.
Proof.
  induction gs as [| [k' g] gs IH]; simpl.
  - split; [discriminate | intros [g H]; discriminate H].
  - destruct (String.eqb k' k); simpl; [| exact IH].
    split; [intros _; exists g; reflexivity | reflexivity].
Qed.

Lemma ensure_has (k : string) (fresh : InstanceGroup) (gs : Groups) :
  has k (ensure k fresh gs) = true.
Proof.
  unfold ensure. destruct (has k gs) eqn:E; [exact E |].
  induction gs as [| [k' g] gs IH]; simpl.
  - rewrite String.eqb_refl. reflexivity.
  - simpl in E. apply orb_false_iff in E as [E1 E2].
    rewrite E1. simpl. apply IH. exact E2.
Qed.

Lemma ensure_placed (k k' : string) (fresh : InstanceGroup) (gs : Groups)
    (p : Position) :
  placed gs k' p -> placed (ensure k fresh gs) k' p.
Proof.
  unfold ensure. destruct (has k gs); [tauto |].
  intros (g & Hg & Hp). exists g. split; [| exact Hp].
  induction gs as [| [k0 g0] gs IH]; simpl in *; [discriminate |].
  destruct (String.eqb k0 k'); [exact Hg | apply IH; exact Hg].
Qed.

Lemma push_has (k k' : string) (p : Position) (gs : Groups) :
  has k' (push k p gs) = has k' gs.
Proof.
  induction gs as [| [k0 g0] gs IH]; simpl; [reflexivity |].
  destruct (String.eqb k0 k); simpl; [reflexivity | rewrite IH; reflexivity].
Qed.

Lemma push_placed_new (k : string) (p : Position) (gs : Groups) :
  has k gs = true -> placed (push k p gs) k p.
Proof.
  induction gs as [| [k0 g0] gs IH]; simpl; [discriminate |].
  destruct (String.eqb k0 k) eqn:E; simpl.
  - intros _. unfold placed. simpl. rewrite E. eexists. split; [reflexivity |].
    simpl. apply in_or_app. right. left. reflexivity.
  - intros H. destruct (IH H) as (g & Hg & Hp).
    unfold placed. simpl. rewrite E. exists g. tauto.
Qed.

Lemma push_placed_old (k k' : string) (p q : Position) (gs : Groups) :
  placed gs k' q -> placed (push k p gs) k' q.
Proof.
  unfold placed. induction gs as [| [k0 g0] gs IH]; simpl; [tauto |].
  destruct (String.eqb k0 k) eqn:E; simpl.
  - destruct (String.eqb k0 k'); [| tauto].
    intros (g & Hg & Hq). injection Hg as <-. eexists. split; [reflexivity |].
    simpl. apply in_or_app. left. exact Hq.
  - destruct (String.eqb k0 k'); [tauto | exact IH].
Qed.

Lemma pushes_placed_old (k k' : string) (ps : list Position) (q : Position)
    (gs : Groups) :
  placed gs k' q -> placed (fold_left (fun acc p => push k p acc) ps gs) k' q.
Proof.
  revert gs. induction ps as [| p ps IH]; intros gs H; simpl; [exact H |].
  apply IH, push_placed_old, H.
Qed.

Lemma pushes_has (k k' : string) (ps : list Position) (gs : Groups) :
  has k' (fold_left (fun acc p => push k p acc) ps gs) = has k' gs.
Proof.
  revert gs. induction ps as [| p ps IH]; intros gs; simpl; [reflexivity |].
  rewrite IH. apply push_has.
Qed.

Lemma pushes_placed_new (k : string) (ps : list Position) (q : Position)
    (gs : Groups) :
  has k gs = true -> In q ps ->
  placed (fold_left (fun acc p => push k p acc) ps gs) k q.
Proof.
  revert gs. induction ps as [| p ps IH]; intros gs H Hq; simpl; [destruct Hq |].
  destruct Hq as [-> | Hq].
  - apply pushes_placed_old, push_placed_new, H.
  - apply IH; [rewrite push_has; exact H | exact Hq].
Qed.

Lemma countBlock_placed_old (gs : Groups) (b : Block) (k : string) (q : Position) :
  placed gs k q -> placed (countBlock gs b) k q.
Proof.
  intros H. unfold countBlock.
  apply push_placed_old, pushes_placed_old, ensure_placed, H.
Qed.

Lemma countBlock_placed_new (gs : Groups) (b : Block) (q : Position) :
  In q (branchPush b ++ [(b.(x), b.(y), b.(z))])%list ->
  placed (countBlock gs b) (groupKey b) q.
Proof.
  intros H. unfold countBlock. apply in_app_or in H as [H | [<- | []]].
  - apply push_placed_old, pushes_placed_new; [apply ensure_has | exact H].
  - apply push_placed_new. rewrite pushes_has. apply ensure_has.
Qed.

Lemma instanceGroups_placed_old (l : list Block) (gs : Groups) (k : string)
    (q : Position) :
  placed gs k q -> placed (fold_left countBlock l gs) k q.
Proof.
  revert gs. induction l as [| b l IH]; intros gs H; simpl; [exact H |].
  apply IH, countBlock_placed_old, H.
Qed.

Lemma instanceGroups_placed (l : list Block) (gs : Groups) (b : Block)
    (q : Position) :
  In b l ->
  In q (branchPush b ++ [(b.(x), b.(y), b.(z))])%list ->
  placed (fold_left countBlock l gs) (groupKey b) q.
Proof.
  revert gs. induction l as [| a l IH]; intros gs Hb Hq; simpl; [destruct Hb |].
  destruct Hb as [-> | Hb].
  - apply instanceGroups_placed_old, countBlock_placed_new, Hq.
  - apply IH; assumption.
Qed.

End Grouping.

(** X5. Every block handed to the grouping pass is listed, at its own
    position, in the group of its key.  A block with a slab flag and a
    block of a colored type (concrete, wool) is listed a second time in the
    same group at its position moved by (-128, 0, -27): the branch of the
    loop body subtracts the centre from coordinates that the preceding
    [map] has already centred, and the push at the end of the loop body
    follows for every block. *)
Theorem instanceGroups_lists_every_block (blocks : list Block) (b : Block) :
  In b blocks ->
  placed (Main.instanceGroups blocks) (Main.groupKey b) (b.(x), b.(y), b.(z))
  /\ (Main.hasSlabFlag b || Main.isColoredType b.(type) = true ->
      placed (Main.instanceGroups blocks) (Main.groupKey b)
             (b.(x) - 128, b.(y), b.(z) - 27)).
Proof.
  intros Hb. split.
  - apply instanceGroups_placed; [exact Hb |].
    apply in_or_app. right. left. reflexivity.
  - intros Hc. apply instanceGroups_placed; [exact Hb |].
    apply in_or_app. left. unfold Main.branchPush.
    destruct (Main.hasSlabFlag b); [left; reflexivity |].
    simpl in Hc. rewrite Hc. left. reflexivity.
Qed.

Lemma instanceGroups_lists_every_block_witness :
  placed (Main.instanceGroups [set_isUpperSlab (Some true) (plainBlock "stone_slab" 3 64 5)])
         "stone_slab_slab_upper" (3 - 128, 64, 5 - 27).
Proof.
  apply (instanceGroups_lists_every_block
           [set_isUpperSlab (Some true) (plainBlock "stone_slab" 3 64 5)]
           (set_isUpperSlab (Some true) (plainBlock "stone_slab" 3 64 5))).
  - left. reflexivity.
  - reflexivity.
Defined.

Section GroupCounts.
Import Main.

Lemma totalCount_app (gs hs : Groups) :
  totalCount (gs ++ hs)%list = (totalCount gs + totalCount hs)%nat.
Proof.
  unfold totalCount. rewrite List.map_app, list_sum_app. reflexivity.
Qed.

Lemma totalCount_ensure (k : string) (t : string) (o : Options) (gs : Groups) :
  totalCount (ensure k (freshGroup t o) gs) = totalCount gs.
Proof.
  unfold ensure. destruct (has k gs); [reflexivity |].
  rewrite totalCount_app. unfold totalCount at 2. simpl. lia.
Qed.

Lemma totalCount_push (k : string) (p : Position) (gs : Groups) :
  has k gs = true -> totalCount (push k p gs) = S (totalCount gs).
Proof.
  unfold totalCount.
  induction gs as [| [k0 g0] gs IH]; simpl; [discriminate |].
  destruct (String.eqb k0 k); simpl; [reflexivity |].
  intros H. rewrite (IH H). lia.
Qed.

Lemma totalCount_pushes (k : string) (ps : list Position) (gs : Groups) :
  has k gs = true ->
  totalCount (fold_left (fun acc p => push k p acc) ps gs)
  = (totalCount gs + length ps)%nat.
Proof.
  revert gs. induction ps as [| p ps IH]; intros gs H; simpl; [lia |].
  rewrite IH by (rewrite push_has; exact H).
  rewrite totalCount_push by exact H. lia.
Qed.

Lemma branchPush_length (b : Block) :
  length (branchPush b) = if countedTwice b then 1%nat else 0%nat.
Proof.
  unfold branchPush, countedTwice.
  destruct (hasSlabFlag b); [reflexivity |].
  destruct (isColoredType (type b)); [reflexivity |].
  destruct (isStairType (type b)); reflexivity.
Qed.

Lemma totalCount_countBlock (gs : Groups) (b : Block) :
  totalCount (countBlock gs b)
  = (totalCount gs + (if countedTwice b then 2 else 1))%nat.
Proof.
  unfold countBlock.
  rewrite totalCount_push by (rewrite pushes_has; apply ensure_has).
  rewrite totalCount_pushes by apply ensure_has.
  rewrite totalCount_ensure, branchPush_length.
  destruct (countedTwice b); lia.
Qed.

Lemma totalCount_loop (l : list Block) (gs : Groups) :
  totalCount (fold_left countBlock l gs)
  = (totalCount gs + length l + length (List.filter countedTwice l))%nat.
Proof.
  revert gs. induction l as [| b l IH]; intros gs; simpl; [lia |].
  rewrite IH, totalCount_countBlock.
  destruct (countedTwice b); simpl; lia.
Qed.

(** The invariant of the loop: keys are distinct, every count is the
    number of listed positions, and no group is empty. *)
Lemma push_counts (k : string) (p : Position) (gs : Groups) :
  Forall (fun kg => g_count (snd kg) = length (g_positions (snd kg))) gs ->
  Forall (fun kg => g_count (snd kg) = length (g_positions (snd kg)))
         (push k p gs).
Proof.
  induction 1 as [| [k0 g0] gs Hg Hgs IH]; simpl; [constructor |].
  destruct (String.eqb k0 k); constructor; try assumption.
  simpl in *. rewrite length_app, Hg. simpl. lia.
Qed.

Lemma pushes_counts (k : string) (ps : list Position) (gs : Groups) :
  Forall (fun kg => g_count (snd kg) = length (g_positions (snd kg))) gs ->
  Forall (fun kg => g_count (snd kg) = length (g_positions (snd kg)))
         (fold_left (fun acc p => push k p acc) ps gs).
Proof.
  revert gs. induction ps as [| p ps IH]; intros gs H; simpl; [exact H |].
  apply IH, push_counts, H.
Qed.

Lemma countBlock_counts (gs : Groups) (b : Block) :
  Forall (fun kg => g_count (snd kg) = length (g_positions (snd kg))) gs ->
  Forall (fun kg => g_count (snd kg) = length (g_positions (snd kg)))
         (countBlock gs b).
Proof.
  intros H. unfold countBlock. apply push_counts, pushes_counts.
  unfold ensure. destruct (has (groupKey b) gs); [exact H |].
  apply Forall_app. split; [exact H | repeat constructor].
Qed.

Lemma push_nonempty (k : string) (p : Position) (gs : Groups) :
  Forall (fun kg => fst kg = k \/ (1 <= g_count (snd kg))%nat) gs ->
  NoDup (List.map fst gs) ->
  Forall (fun kg => (1 <= g_count (snd kg))%nat) (push k p gs).
Proof.
  induction 1 as [| [k0 g0] gs Hg Hgs IH]; simpl; intros Hn; [constructor |].
  inversion Hn as [| ? ? Hnot Hn']; subst.
  destruct (String.eqb k0 k) eqn:E.
  - apply String.eqb_eq in E. subst k0.
    constructor; [simpl; lia |].
    apply List.Forall_forall. intros [k1 g1] Hin.
    rewrite List.Forall_forall in Hgs. destruct (Hgs _ Hin) as [Hk | Hc]; [| exact Hc].
    simpl in Hk. subst k1. exfalso. apply Hnot.
    apply list_elem_of_In, in_map_iff. exists (k, g1). split; [reflexivity | exact Hin].
  - constructor; [| apply IH; exact Hn'].
    destruct Hg as [Hk | Hc]; [| exact Hc].
    simpl in Hk. subst k0. rewrite String.eqb_refl in E. discriminate E.
Qed.

Lemma push_weaken (k : string) (p : Position) (gs : Groups) :
  Forall (fun kg => fst kg = k \/ (1 <= g_count (snd kg))%nat) gs ->
  Forall (fun kg => fst kg = k \/ (1 <= g_count (snd kg))%nat) (push k p gs).
Proof.
  induction 1 as [| [k0 g0] gs Hg Hgs IH]; simpl; [constructor |].
  destruct (String.eqb k0 k); constructor; try assumption.
  right. simpl. lia.
Qed.

Lemma pushes_weaken (k : string) (ps : list Position) (gs : Groups) :
  Forall (fun kg => fst kg = k \/ (1 <= g_count (snd kg))%nat) gs ->
  Forall (fun kg => fst kg = k \/ (1 <= g_count (snd kg))%nat)
         (fold_left (fun acc p => push k p acc) ps gs).
Proof.
  revert gs. induction ps as [| p ps IH]; intros gs H; simpl; [exact H |].
  apply IH, push_weaken, H.
Qed.

Lemma countBlock_NoDup (gs : Groups) (b : Block) :
  NoDup (List.map fst gs) -> NoDup (List.map fst (countBlock gs b)).
Proof.
  intros H. rewrite countBlock_keys.
  destruct (has (groupKey b) gs) eqn:E; [exact H |].
  apply NoDup_app. split; [exact H |]. split.
  - intros k Hin Hk. apply list_elem_of_In in Hk. destruct Hk as [Hk | []].
    subst k. apply list_elem_of_In in Hin. apply has_In in Hin. congruence.
  - apply NoDup_singleton.
Qed.

Lemma countBlock_nonempty (gs : Groups) (b : Block) :
  NoDup (List.map fst gs) ->
  Forall (fun kg => (1 <= g_count (snd kg))%nat) gs ->
  Forall (fun kg => (1 <= g_count (snd kg))%nat) (countBlock gs b).
Proof.
  intros Hn H. unfold countBlock. apply push_nonempty.
  - apply pushes_weaken. unfold ensure.
    destruct (has (groupKey b) gs).
    + eapply List.Forall_impl; [| exact H]. intros kg Hc. right. exact Hc.
    + apply Forall_app. split.
      * eapply List.Forall_impl; [| exact H]. intros kg Hc. right. exact Hc.
      * repeat constructor.
  - rewrite pushes_keys.
    assert (Hk := countBlock_NoDup gs b Hn).
    rewrite countBlock_keys in Hk. unfold ensure.
    destruct (has (groupKey b) gs); [exact Hn |].
    rewrite List.map_app. exact Hk.
Qed.

Lemma instanceGroups_invariant (l : list Block) (gs : Groups) :
  NoDup (List.map fst gs)
  /\ Forall (fun kg => g_count (snd kg) = length (g_positions (snd kg))
                       /\ (1 <= g_count (snd kg))%nat) gs ->
  NoDup (List.map fst (fold_left countBlock l gs))
  /\ Forall (fun kg => g_count (snd kg) = length (g_positions (snd kg))
                       /\ (1 <= g_count (snd kg))%nat)
            (fold_left countBlock l gs).
Proof.
  revert gs. induction l as [| b l IH]; intros gs H; simpl; [exact H |].
  apply IH. destruct H as [Hn Hf].
  apply List.Forall_and_inv in Hf as [Hc H1].
  split; [apply countBlock_NoDup; exact Hn |].
  apply List.Forall_and;
    [apply countBlock_counts; exact Hc | apply countBlock_nonempty; assumption].
Qed.

End GroupCounts.

(** X6. The number of instances over all groups is the number of blocks
    plus the number of blocks that have a slab flag, a colored type or a
    stair type: the branches for slabs, colored blocks and stairs push a
    position themselves and the shared push at the end of the loop body
    adds another, so each such block is instanced twice. *)
Theorem instanceGroups_total (blocks : list Block) :
  totalCount (Main.instanceGroups blocks)
  = (length blocks + length (List.filter countedTwice blocks))%nat.
Proof.
  unfold Main.instanceGroups. rewrite totalCount_loop. reflexivity.
Qed.

(** X7. Whatever the blocks, the groups built by the first pass have
    pairwise distinct keys, the [count] of every group is the number of
    positions it lists, and no group is empty. *)
Theorem instanceGroups_well_formed (blocks : list Block) :
  NoDup (List.map fst (Main.instanceGroups blocks))
  /\ Forall (fun kg =>
               (snd kg).(Main.g_count) = length (snd kg).(Main.g_positions)
               /\ (1 <= (snd kg).(Main.g_count))%nat)
            (Main.instanceGroups blocks).
Proof.
  unfold Main.instanceGroups. apply instanceGroups_invariant.
  split; constructor.
Qed.

(** ** The draw-order sort keeps ties in place *)

Lemma insert_rank_class (r : Z) (a : Main.Entry) (l : list Main.Entry) :
  List.filter (fun e => drawRank e =? r) (JSArray.insert Main.compareEntries a l)
  = List.filter (fun e => drawRank e =? r) (a :: l).
Proof.
  induction l as [| b l IH]; [reflexivity |].
  cbn [JSArray.insert].
  destruct (Main.compareEntries a b <=? 0) eqn:E; [reflexivity |].
  apply Z.leb_gt in E.
  assert (Hr : drawRank b < drawRank a).
  { destruct (Z.le_gt_cases (drawRank a) (drawRank b)) as [Hle | Hgt];
      [apply compareEntries_rank in Hle; lia | exact Hgt]. }
  cbn [List.filter]. rewrite IH. cbn [List.filter].
  destruct (drawRank a =? r) eqn:Ea; [| reflexivity].
  destruct (drawRank b =? r) eqn:Eb; [| reflexivity].
  apply Z.eqb_eq in Ea, Eb. lia.
Qed.

Lemma insert_sorted_head (a : Main.Entry) (l : list Main.Entry) :
  Forall (orderedBy Main.compareEntries a) l ->
  JSArray.insert Main.compareEntries a l = a :: l.
Proof.
  intros H. destruct l as [| b l]; [reflexivity |].
  cbn [JSArray.insert]. inversion H as [| ? ? Hb _]; subst.
  unfold orderedBy in Hb. apply Z.leb_le in Hb. rewrite Hb. reflexivity.
Qed.

Lemma sort_sorted (l : list Main.Entry) :
  StronglySorted (orderedBy Main.compareEntries) l ->
  JSArray.sort Main.compareEntries l = l.
Proof.
  induction 1 as [| a l Hs IH Ha]; [reflexivity |].
  cbn [JSArray.sort]. rewrite IH. apply insert_sorted_head, Ha.
Qed.

(** X8. The draw-order sort is stable and idempotent: for every rank the
    entries of that rank (same transparency, foliage and slab flags) come
    out in the order in which they went in, and sorting a sorted list of
    entries changes nothing. *)
Theorem sortInstanced_stable (l : list Main.Entry) :
  (forall r, List.filter (fun e => drawRank e =? r) (Main.sortInstanced l)
             = List.filter (fun e => drawRank e =? r) l)
  /\ Main.sortInstanced (Main.sortInstanced l) = Main.sortInstanced l.
Proof.
  unfold Main.sortInstanced. split.
  - intros r. induction l as [| a l IH]; [reflexivity |].
    cbn [JSArray.sort]. rewrite insert_rank_class.
    cbn [List.filter]. rewrite IH. reflexivity.
  - apply sort_sorted, sort_StronglySorted;
      [exact compareEntries_total | exact compareEntries_trans].
Qed.

(** ** The fallback chunk *)

Section TestChunk.
Import SpawnChunk.

Lemma zrange_In (lo : Z) (count : nat) (v : Z) :
  In v (zrange lo count) <-> lo <= v < lo + Z.of_nat count.
Proof.
  unfold zrange. rewrite in_map_iff. split.
  - intros (i & <- & Hi). apply in_seq in Hi. lia.
  - intros H. exists (Z.to_nat (v - lo)). split; [lia |].
    apply in_seq. lia.
Qed.

Lemma zrange_length (lo : Z) (count : nat) : length (zrange lo count) = count.
Proof. unfold zrange. rewrite length_map, length_seq. reflexivity. Qed.

(** Inside the chunk and at most eleven high. *)
Lemma tree_bounds (n bx bz : Z) :
  0 <= bx < n -> 0 <= bz < n ->
  Forall (fun b => (0 <= b.(x) < n /\ 0 <= b.(z) < n) /\ 0 <= b.(y) <= 11)
         (tree n bx bz).
Proof.
  intros Hx Hz. unfold tree. apply Forall_app. split.
  - apply List.Forall_forall. intros b Hb. apply in_map_iff in Hb as (v & <- & Hv).
    apply zrange_In in Hv. simpl. lia.
  - apply List.Forall_forall. intros b Hb.
    apply in_flat_map in Hb as (lx & _ & Hb).
    apply in_flat_map in Hb as (lz & _ & Hb).
    apply in_flat_map in Hb as (ly & Hly & Hb).
    apply zrange_In in Hly.
    destruct ((0 <=? lx) && (lx <? n) && (0 <=? lz) && (lz <? n)) eqn:E;
      [| destruct Hb].
    destruct Hb as [<- | []].
    repeat (apply andb_true_iff in E as [E ?]). simpl. lia.
Qed.

Lemma column_bounds (n bx bz : Z) :
  0 <= bx < n -> 0 <= bz < n ->
  Forall (fun b => (0 <= b.(x) < n /\ 0 <= b.(z) < n) /\ 0 <= b.(y) <= 11)
         (column n bx bz).
Proof.
  intros Hx Hz. unfold column.
  repeat (apply Forall_app; split);
    try (unfold when;
         match goal with |- Forall _ (if ?c then _ else _) => destruct c end);
    try apply tree_bounds; try assumption;
    try (apply List.Forall_forall; intros b Hb;
         apply in_map_iff in Hb as (v & <- & Hv); apply zrange_In in Hv;
         simpl; lia);
    repeat constructor; simpl; lia.
Qed.

Lemma generateTestChunk_bounds (chunkSize : nat) :
  Forall (fun b => (0 <= b.(x) < Z.of_nat chunkSize
                    /\ 0 <= b.(z) < Z.of_nat chunkSize)
                   /\ 0 <= b.(y) <= 11)
         (generateTestChunk chunkSize).
Proof.
  unfold generateTestChunk. apply List.Forall_forall. intros b Hb.
  apply in_flat_map in Hb as (bx & Hx & Hb).
  apply in_flat_map in Hb as (bz & Hz & Hb).
  apply zrange_In in Hx, Hz.
  pose proof (column_bounds (Z.of_nat chunkSize) bx bz) as H.
  rewrite List.Forall_forall in H. apply H; [lia | lia | exact Hb].
Qed.

Lemma column_length (n bx bz : Z) : (6 <= length (column n bx bz))%nat.
Proof.
  unfold column. rewrite !length_app. simpl. lia.
Qed.

Lemma flat_map_length_ge {A B} (f : A -> list B) (k : nat) (l : list A) :
  (forall a, (k <= length (f a))%nat) ->
  (k * length l <= length (flat_map f l))%nat.
Proof.
  intros H. induction l as [| a l IH]; simpl; [lia |].
  rewrite length_app. specialize (H a). lia.
Qed.

Lemma generateTestChunk_length (chunkSize : nat) :
  (6 * chunkSize * chunkSize <= length (generateTestChunk chunkSize))%nat.
Proof.
  unfold generateTestChunk.
  pose proof (flat_map_length_ge
                (fun bx => flat_map (fun bz => column (Z.of_nat chunkSize) bx bz)
                                    (zrange 0 chunkSize))
                (6 * chunkSize) (zrange 0 chunkSize)) as H.
  rewrite zrange_length in H.
  apply H. intros bx.
  pose proof (flat_map_length_ge (fun bz => column (Z.of_nat chunkSize) bx bz)
                6 (zrange 0 chunkSize) (column_length _ bx)) as H'.
  rewrite zrange_length in H'. exact H'.
Qed.


End TestChunk.

(** X9. The test chunk stays inside its chunk: every record has
    [0 <= x, z < chunkSize] and [0 <= y <= 11] (the leaves of the two trees
    are clipped at the border), and every column holds at least its six
    ground records. *)
Theorem generateTestChunk_inside_chunk (chunkSize : nat) :
  Forall (fun b => (0 <= b.(x) < Z.of_nat chunkSize
                    /\ 0 <= b.(z) < Z.of_nat chunkSize)
                   /\ 0 <= b.(y) <= 11)
         (SpawnChunk.generateTestChunk chunkSize)
  /\ (6 * chunkSize * chunkSize
      <= length (SpawnChunk.generateTestChunk chunkSize))%nat.
Proof.
  split; [apply generateTestChunk_bounds | apply generateTestChunk_length].
Qed.

Section RawAnswer.
Import SpawnChunk WorldLoader.

















End RawAnswer.


(** The record [{type: 'stone', x: '1', y: 2, z: 3}], whose [x] is a string,
    does not pass validation: the answer is the test chunk. *)
Example string_coordinate_gives_test_chunk :
  SpawnChunk.loadSpawnChunk 2
    (SpawnChunk.Answer
       (Some [SpawnChunk.ERecord
                {| SpawnChunk.raw_type := SpawnChunk.TypeString "stone";
                   SpawnChunk.raw_x := SpawnChunk.SStr "1";
                   SpawnChunk.raw_y := SpawnChunk.SNum 2;
                   SpawnChunk.raw_z := SpawnChunk.SNum 3;
                   SpawnChunk.fields := plainBlock "stone" 0 0 0 |}]))
  = SpawnChunk.generateTestChunk 2.
Proof. vm_compute. reflexivity. Qed.

(** X11. With a chunk size of at least one the loader never hands an
    empty world to the renderer, whatever the server did. *)
Theorem loadSpawnChunk_never_empty (chunkSize : nat) (data : SpawnChunk.ServerData) :
  (1 <= chunkSize)%nat ->
  (1 <= length (SpawnChunk.loadSpawnChunk chunkSize data))%nat.
Proof.
  intros Hn.
  assert (Ht : (1 <= length (SpawnChunk.generateTestChunk chunkSize))%nat).
  { pose proof (generateTestChunk_length chunkSize). nia. }
  destruct data as [| [blocks |]]; try exact Ht.
  unfold SpawnChunk.loadSpawnChunk.
  destruct (SpawnChunk.processRaw blocks) as [processed |]; [| exact Ht].
  destruct (length (SpawnChunk.validate processed)) eqn:E; simpl;
    [exact Ht | rewrite E; lia].
Qed.

Lemma loadSpawnChunk_never_empty_witness :
  (1 <= length (SpawnChunk.loadSpawnChunk 16 (SpawnChunk.Answer (Some []))))%nat.
Proof.
  apply (loadSpawnChunk_never_empty 16 (SpawnChunk.Answer (Some []))). lia.
Defined.

(** X12. A test chunk of size up to 53 lies wholly outside the render
    radius of 75 around (128, 27): when the fetch fails (the loader has
    chunk size 16) the scene that [init] assembles from the fallback is
    empty, no template is loaded and the caches stay as they were. *)
Theorem fallback_chunk_is_not_drawn (env : Env) (chunkSize : nat) (s : Store) :
  (chunkSize <= 53)%nat ->
  Main.renderedBlocks (SpawnChunk.generateTestChunk chunkSize) = []
  /\ Main.init env (SpawnChunk.loadSpawnChunk chunkSize SpawnChunk.FetchFailed) s
     = (emptyScene, s).
Proof.
  intros Hn.
  assert (Hr : Main.renderedBlocks (SpawnChunk.generateTestChunk chunkSize) = []).
  { unfold Main.renderedBlocks.
    pose proof (generateTestChunk_bounds chunkSize) as Hb.
    induction Hb as [| b l Hb Hl IH]; [reflexivity |].
    cbn [List.filter].
    assert (Hw : Main.withinRenderRange b = false).
    { destruct (Main.withinRenderRange b) eqn:E; [| reflexivity].
      apply withinRenderRange_iff in E.
      assert (H1 : 76 * 76 <= (128 - x b) * (128 - x b))
        by (apply Z.mul_le_mono_nonneg; lia).
      replace ((128 - x b) * (128 - x b))
        with ((x b - 128) * (x b - 128)) in H1 by ring.
      pose proof (Z.square_nonneg (z b - 27)) as H2.
      lia. }
    rewrite Hw. exact IH. }
  split; [exact Hr |].
  unfold Main.init. cbn [SpawnChunk.loadSpawnChunk]. rewrite Hr. reflexivity.
Qed.

Lemma fallback_chunk_is_not_drawn_witness :
  Main.init (plainEnv 0) (SpawnChunk.loadSpawnChunk 16 SpawnChunk.FetchFailed)
            emptyStore
  = (emptyScene, emptyStore).
Proof.
  apply (fallback_chunk_is_not_drawn (plainEnv 0) 16 emptyStore). lia.
Defined.

(** ** Texture paths *)

Section TexturePaths.
Import TextureManager.

Lemma includes_append_l (a s sub : string) :
  includes s sub = true -> includes (a ++ s) sub = true.
Proof.
  intros H. induction a as [| c a IH]; simpl; [exact H |].
  rewrite IH. apply orb_true_r.
Qed.

Lemma prefix_cons (c a : ascii) (s1 s2 : string) :
  String.prefix (String c s1) (String a s2)
  = Ascii.eqb c a && String.prefix s1 s2.
Proof.
  cbn -[ascii_dec]. destruct (ascii_dec c a) as [-> | Hne].
  - rewrite Ascii.eqb_refl. reflexivity.
  - destruct (Ascii.eqb_spec c a); [contradiction | reflexivity].
Qed.

Lemma includes_lacks_bottom (p : string) :
  lacks "_" p = true -> includes (p ++ "_bottom") "_top" = false.
Proof.
  induction p as [| a p IH]; [reflexivity |].
  intros H. cbn [lacks] in H. apply andb_true_iff in H as [Ha Hp].
  change (includes (String a p ++ "_bottom") "_top")
    with (String.prefix "_top" (String a (p ++ "_bottom"))
          || includes (p ++ "_bottom") "_top").
  rewrite (IH Hp), prefix_cons, Ascii.eqb_sym.
  apply negb_true_iff in Ha. rewrite Ha. reflexivity.
Qed.

Lemma append_cons (a : ascii) (s t : string) :
  (String a s ++ t)%string = String a (s ++ t).
Proof. reflexivity. Qed.

Lemma prefix_top_bottom (p : string) :
  String.prefix "top" (p ++ "_bottom") = String.prefix "top" p.
Proof.
  destruct p as [| a [| b [| c r]]]; try reflexivity;
    rewrite !append_cons, ?prefix_cons;
    repeat match goal with
           | |- context [Ascii.eqb ?u ?v] => destruct (Ascii.eqb u v)
           end; try reflexivity.
  destruct r; reflexivity.
Qed.

Lemma includes_top_of_part (q : string) :
  includes ("double_plant_" ++ q) "_top"
  = String.prefix "top" q || includes q "_top".
Proof. reflexivity. Qed.

Lemma getTexturePath_double_plant (t : Tables) (p suffix face : string) :
  (forall k, includes k "double_plant" = true -> LEAF_TEXTURE_MAPPINGS t k = None) ->
  lacks "_" p = true ->
  getTexturePath t ("double_plant_" ++ p ++ String "_" suffix) face
  = if includes ("double_plant_" ++ p ++ String "_" suffix) "_top"
    then "textures/blocks/double_plant_" ++ p ++ "_top.tga"
    else "textures/blocks/double_plant_" ++ p ++ "_bottom.tga".
Proof.
  intros Hleaf Hp. unfold getTexturePath.
  change (stripWaxedPrefix ("double_plant_" ++ p ++ String "_" suffix))
    with ("double_plant_" ++ p ++ String "_" suffix)%string.
  rewrite (Hleaf ("double_plant_" ++ p ++ String "_" suffix)%string eq_refl).
  cbn [SlabFactory.truthy]. rewrite andb_false_r.
  change (includes ("double_plant_" ++ p ++ String "_" suffix) "double_plant")
    with true.
  cbv iota.
  change (plantTypeOf ("double_plant_" ++ p ++ String "_" suffix))
    with (WorldLoader.plantTypeOf ("double_plant_" ++ p ++ String "_" suffix)).
  rewrite (plantTypeOf_part p suffix Hp).
  destruct (includes ("double_plant_" ++ p ++ String "_" suffix) "_top");
    [reflexivity |].
  destruct (includes ("double_plant_" ++ p ++ String "_" suffix) "_bottom");
    reflexivity.
Qed.

End TexturePaths.

(** X13. The two records that [processBlocks] synthesizes for a double
    plant resolve to the textures of its plant type: the top record to
    [double_plant_<type>_top.tga] and the bottom record to
    [double_plant_<type>_bottom.tga] -- unless the plant type starts with
    'top', in which case the test for '_top' fires first and the bottom
    record gets the top texture as well.  The leaf table is assumed to
    hold no double-plant key. *)
Theorem double_plant_part_textures
    (t : TextureManager.Tables) (b : Block) (face : string) :
  (forall k, includes k "double_plant" = true ->
             TextureManager.LEAF_TEXTURE_MAPPINGS t k = None) ->
  let p := WorldLoader.plantTypeOf b.(type) in
  TextureManager.getTexturePath t (WorldLoader.doublePlantTop b).(type) face
  = "textures/blocks/double_plant_" ++ p ++ "_top.tga"
  /\ TextureManager.getTexturePath t (WorldLoader.doublePlantBottom b).(type) face
     = if startsWith p "top"
       then "textures/blocks/double_plant_" ++ p ++ "_top.tga"
       else "textures/blocks/double_plant_" ++ p ++ "_bottom.tga".
Proof.
  intros Hleaf p.
  pose proof (plantTypeOf_lacks (type b)) as Hp. fold p in Hp.
  split.
  - change (type (WorldLoader.doublePlantTop b))
      with ("double_plant_" ++ p ++ String "_" "top")%string.
    rewrite (getTexturePath_double_plant t p "top" face Hleaf Hp).
    rewrite includes_top_of_part.
    rewrite (includes_append_l p "_top" "_top" eq_refl), orb_true_r.
    reflexivity.
  - change (type (WorldLoader.doublePlantBottom b))
      with ("double_plant_" ++ p ++ String "_" "bottom")%string.
    rewrite (getTexturePath_double_plant t p "bottom" face Hleaf Hp).
    rewrite includes_top_of_part.
    change (p ++ String "_" "bottom")%string with (p ++ "_bottom")%string.
    rewrite prefix_top_bottom, (includes_lacks_bottom p Hp), orb_false_r.
    reflexivity.
Qed.

Lemma double_plant_part_textures_witness :
  TextureManager.getTexturePath noTables
    (WorldLoader.doublePlantTop (plainBlock "double_plant_fern" 0 0 0)).(type) "side"
  = "textures/blocks/double_plant_fern_top.tga"
  /\ TextureManager.getTexturePath noTables
       (WorldLoader.doublePlantBottom (plainBlock "double_plant_fern" 0 0 0)).(type)
       "side"
     = "textures/blocks/double_plant_fern_bottom.tga".
Proof.
  apply (double_plant_part_textures noTables
           (plainBlock "double_plant_fern" 0 0 0) "side").
  intros k _. reflexivity.
Defined.

Lemma under_blocksDir (rest : string) :
  startsWith (TextureManager.blocksDir ++ rest) "textures/blocks/" = true.
Proof. destruct rest; reflexivity. Qed.

Lemma specialPath_under (t : TextureManager.Tables) (bt face p : string) :
  TextureManager.specialPath t bt face = Some p ->
  startsWith p "textures/blocks/" = true.
Proof.
  unfold TextureManager.specialPath.
  destruct (TextureManager.SPECIAL_TEXTURE_MAPPINGS t bt); [| discriminate].
  destruct (TextureManager.faceOrDefault _ face); [| discriminate].
  intros [= <-]. apply under_blocksDir.
Qed.

(** X14. Whatever the tables hold and whatever the block type and face,
    [getTexturePath] answers with a path under [textures/blocks/]: none of
    its branches returns a table entry or a type name on its own. *)
Theorem getTexturePath_under_blocks
    (t : TextureManager.Tables) (blockType face : string) :
  startsWith (TextureManager.getTexturePath t blockType face)
             "textures/blocks/" = true.
Proof.
  unfold TextureManager.getTexturePath, TextureManager.slabPath,
    TextureManager.wallPath, TextureManager.fencePath,
    TextureManager.trapdoorPath, TextureManager.doorPath.
  generalize (stripWaxedPrefix blockType) as bt. intros bt.
  repeat match goal with
         | |- startsWith (TextureManager.blocksDir ++ _) _ = true =>
             apply under_blocksDir
         | E : TextureManager.specialPath _ _ _ = Some ?p
           |- startsWith ?p _ = true =>
             exact (specialPath_under _ _ _ _ E)
         | |- context [match TextureManager.specialPath ?a ?b ?c with _ => _ end] =>
             destruct (TextureManager.specialPath a b c) eqn:?
         | |- context [if ?c then _ else _] => destruct c
         | |- context [match ?o with Some _ => _ | None => _ end] => destruct o
         | |- _ => reflexivity
         end.
Qed.

(** ** The block cache of [loadBlock] *)

Lemma keeps_ret {A} (a : A) : keepsBlockCache (ret a).
Proof. intros s. reflexivity. Qed.

Lemma keeps_throw {A} (e : Error) : keepsBlockCache (@throw A e).
Proof. intros s. reflexivity. Qed.

Lemma keeps_bind {A B} (c : M A) (k : A -> M B) :
  keepsBlockCache c -> (forall a, keepsBlockCache (k a)) ->
  keepsBlockCache (bind c k).
Proof.
  intros Hc Hk s. unfold bind. specialize (Hc s).
  destruct (c s) as [[a | e] s1]; simpl in *; [| exact Hc].
  rewrite (Hk a s1). exact Hc.
Qed.

Lemma keeps_tryCatch {A} (body : M A) (handler : Error -> M A) :
  keepsBlockCache body -> (forall e, keepsBlockCache (handler e)) ->
  keepsBlockCache (tryCatch body handler).
Proof.
  intros Hb Hh s. unfold tryCatch. specialize (Hb s).
  destruct (body s) as [[a | e] s1]; simpl in *; [exact Hb |].
  rewrite (Hh e s1). exact Hb.
Qed.

Lemma keeps_quiet {A} (c : M A) : quiet c -> keepsBlockCache c.
Proof. intros H s. rewrite (H s). reflexivity. Qed.

Lemma keeps_loadTexture (env : Env) (path : string) :
  keepsBlockCache (loadTexture env path).
Proof. apply keeps_quiet, quiet_loadTexture. Qed.

Lemma keeps_loadBlockTextures (env : Env) (blockType cat : string) :
  keepsBlockCache (loadBlockTextures env blockType cat).
Proof.
  intros s. destruct (loadBlockTextures_ok env blockType cat s) as [t ->].
  reflexivity.
Qed.

Lemma keeps_mathRandom (env : Env) : keepsBlockCache (mathRandom env).
Proof. intros s. reflexivity. Qed.

Lemma keeps_cached get set key build :
  (forall c s, blockCache (set c s) = blockCache s) ->
  keepsBlockCache (cached get set key build).
Proof.
  intros Hset s. unfold cached.
  destruct (get s !! key); simpl; [reflexivity | apply Hset].
Qed.

Lemma keeps_loadSlabTextures (env : Env) (slabType base : string) :
  keepsBlockCache (SlabFactory.loadSlabTextures env slabType base).
Proof.
  intros s. destruct (loadSlabTextures_ok env slabType base s) as [t ->].
  reflexivity.
Qed.

Ltac keeps_step :=
  first [ apply keeps_ret | apply keeps_throw | apply keeps_loadTexture
        | apply keeps_loadBlockTextures | apply keeps_loadSlabTextures
        | apply keeps_mathRandom
        | apply keeps_cached; intros ? ?; reflexivity
        | apply keeps_tryCatch; [| intros ?]
        | apply keeps_bind; [| intros ?]
        | match goal with
          | |- keepsBlockCache (if ?c then _ else _) => destruct c
          | |- keepsBlockCache (match ?c with _ => _ end) => destruct c
          end ].

Section CacheFacts.
Import SlabFactory StairFactory GrindstoneFactory BlockFactory TextureLoader.

(** No builder writes the block cache. *)
Lemma keeps_createBlock (env : Env) (blockType : string) (o : Options) :
  keepsBlockCache (createBlock env blockType o).
Proof.
  unfold createBlock, createChainBlock, createTorchBlock, createDoorBlock,
    createGrindstoneBlock, createBlockFallback, createSlabBlock,
    createStairBlock, createWallBlock, createFenceBlock, createTrapdoorBlock,
    createLanternBlock, createDoublePlantBlock, createPlantBlock,
    BlockFactory.createFallbackMesh, boxFallback, plantFallback,
    getBlockGeometry, getPlantGeometry, getSlabGeometry, getStairGeometry.
  repeat keeps_step.
Qed.

End CacheFacts.

Section Reload.
Import SlabFactory BlockFactory TextureLoader.

Lemma quiet_reload {A} (c : M A) (s s1 : Store) (a : A) :
  quiet c -> c s = (Ok a, s1) -> c s1 = (Ok a, s1).
Proof.
  intros Hq Hc. pose proof (Hq s) as H. rewrite Hc in H. simpl in H.
  subst s1. exact Hc.
Qed.

Lemma cachedBlock_hit (env : Env) (key blockType : string) (o : Options)
    (s : Store) (obj : Object3D) :
  blockCache s !! key = Some obj ->
  cachedBlock env key blockType o s = (Ok obj, s).
Proof.
  intros H. unfold cachedBlock, bind, cacheGet. rewrite H. reflexivity.
Qed.

Lemma cachedBlock_stores (env : Env) (key blockType : string) (o : Options)
    (s s1 : Store) (obj : Object3D) :
  cachedBlock env key blockType o s = (Ok obj, s1) ->
  blockCache s1 !! key = Some obj.
Proof.
  unfold cachedBlock, bind, cacheGet.
  destruct (blockCache s !! key) as [o0 |] eqn:E.
  - intros [= <- <-]. exact E.
  - unfold rethrowing, tryCatch, bind, cacheSet, ret, throw, clone.
    destruct (createBlock env blockType o s) as [[block | e] s'];
      [| discriminate].
    intros [= <- <-]. simpl. apply lookup_insert_eq.
Qed.

Lemma cachedBlock_reload (env : Env) (key blockType : string) (o : Options)
    (s s1 : Store) (obj : Object3D) :
  cachedBlock env key blockType o s = (Ok obj, s1) ->
  cachedBlock env key blockType o s1 = (Ok obj, s1).
Proof.
  intros H. apply cachedBlock_hit. exact (cachedBlock_stores _ _ _ _ _ _ _ H).
Qed.

Lemma append_ne (s t : string) : t <> "" -> (s ++ t)%string <> s.
Proof.
  intros Ht. induction s as [| c s IH]; [exact Ht |].
  intros H. injection H as H. exact (IH H).
Qed.

End Reload.

(** X15. A template that [loadBlock] has returned is returned again,
    the store untouched, when the same request is repeated: every branch
    that builds a mesh stores it in the block cache under the key it looks
    up first, and the branches without a cache only read.  The statement
    leaves out a result that is a group: the branch of ordinary types
    stores no group, so a plant is built anew on every call. *)
Theorem loadBlock_reload (env : Env) (blockType : string) (o : Options)
    (s s1 : Store) (obj : Object3D) :
  TextureLoader.loadBlock env blockType o s = (Ok obj, s1) ->
  isGroup obj = false ->
  TextureLoader.loadBlock env blockType o s1 = (Ok obj, s1).
Proof.
  unfold TextureLoader.loadBlock.
  destruct (String.eqb blockType "cobweb" || String.eqb blockType "web" ||
            TextureLoader.hasCategory env blockType "cross").
  { intros H _. revert H. apply quiet_reload. repeat quiet_step. }
  destruct (includes blockType "button").
  { intros H _. revert H. apply quiet_reload. repeat quiet_step. }
  destruct (SlabFactory.isSlabBlock blockType);
    [intros H _; exact (cachedBlock_reload _ _ _ _ _ _ _ H) |].
  destruct (includes blockType "_trapdoor" || String.eqb blockType "trapdoor");
    [intros H _; exact (cachedBlock_reload _ _ _ _ _ _ _ H) |].
  destruct (includes blockType "lantern");
    [intros H _; exact (cachedBlock_reload _ _ _ _ _ _ _ H) |].
  destruct ((includes blockType "_wall" || String.eqb blockType "wall" ||
             (includes blockType "_fence" && negb (includes blockType "gate")))
            && SlabFactory.isSome (o_connections o));
    [intros H _; exact (cachedBlock_reload _ _ _ _ _ _ _ H) |].
  destruct (String.eqb blockType "door" ||
            (endsWith blockType "_door" && negb (includes blockType "trapdoor"))).
  { intros H _. revert H. apply quiet_reload. apply quiet_ret. }
  unfold bind, TextureLoader.cacheGet, TextureLoader.rethrowing, tryCatch,
    loadTexture, TextureLoader.cacheSet, ret, throw, TextureLoader.clone.
  destruct (blockCache s !! blockType) as [o0 |] eqn:E0.
  { intros [= <- <-] _. rewrite E0. reflexivity. }
  destruct (includes blockType "concrete" || includes blockType "wool").
  - set (cacheKey := (blockType ++ "_" ++ orDefault (o_color o) "white")%string).
    destruct (blockCache s !! cacheKey) as [o1 |] eqn:E1.
    + intros [= <- <-] _. rewrite E0, E1. reflexivity.
    + destruct (textureLoads env _); [| discriminate].
      intros [= <- <-] _. simpl.
      rewrite lookup_insert_ne by (apply append_ne; discriminate).
      rewrite E0. simpl. rewrite lookup_insert_eq. reflexivity.
  - destruct (BlockFactory.createBlock env blockType o s) as [[block | e] s'];
      [| discriminate].
    destruct (isGroup block) eqn:Eg.
    + intros [= <- <-] Hg. congruence.
    + intros [= <- <-] _. simpl. rewrite lookup_insert_eq. reflexivity.
Qed.

Lemma loadBlock_reload_witness :
  exists obj s1,
    TextureLoader.loadBlock (plainEnv 0) "stone" noOptions emptyStore = (Ok obj, s1)
    /\ TextureLoader.loadBlock (plainEnv 0) "stone" noOptions s1 = (Ok obj, s1).
Proof.
  destruct (TextureLoader.loadBlock (plainEnv 0) "stone" noOptions emptyStore)
    as [[obj | e] s1] eqn:E; [| vm_compute in E; discriminate E].
  exists obj, s1. split; [reflexivity |].
  apply (loadBlock_reload (plainEnv 0) "stone" noOptions emptyStore s1 obj E).
  vm_compute in E. injection E as <- _. reflexivity.
Defined.

Section Failure.
Import SlabFactory StairFactory BlockFactory TextureLoader.

Lemma createBlock_throw_keeps (env : Env) (blockType : string) (o : Options)
    (s : Store) (e : Error) :
  fst (createBlock env blockType o s) = Throw e ->
  blockCache (snd (createBlock env blockType o s)) = blockCache s
  /\ e = ReferenceError "createFallbackMesh"
  /\ isStairBlock blockType = true
  /\ textureLoads env "textures/blocks/planks_spruce.png" = false.
Proof.
  intros H. split; [apply keeps_createBlock |].
  destruct (createBlock_throws_only_for_stairs env blockType o s e H)
    as (H1 & H2 & H3).
  auto.
Qed.

Lemma cachedBlock_throw (env : Env) (key blockType : string) (o : Options)
    (s : Store) (e : Error) :
  fst (cachedBlock env key blockType o s) = Throw e ->
  blockCache (snd (cachedBlock env key blockType o s)) = blockCache s
  /\ e = ReferenceError "createFallbackMesh"
  /\ isStairBlock blockType = true
  /\ textureLoads env "textures/blocks/planks_spruce.png" = false.
Proof.
  unfold cachedBlock, bind, cacheGet, rethrowing, tryCatch, cacheSet, ret,
    throw, clone.
  destruct (blockCache s !! key); [intros Hd; discriminate Hd |].
  pose proof (createBlock_throw_keeps env blockType o s) as Hc.
  destruct (createBlock env blockType o s) as [[block | e'] s'];
    [intros Hd; discriminate Hd |].
  simpl in *. intros [= <-]. apply Hc. reflexivity.
Qed.

(** How [loadBlock] can fail, and what it leaves behind when it does. *)
Lemma loadBlock_throw (env : Env) (blockType : string) (o : Options)
    (s : Store) (e : Error) :
  fst (loadBlock env blockType o s) = Throw e ->
  blockCache (snd (loadBlock env blockType o s)) = blockCache s
  /\ ((exists path, e = TextureLoadError path /\ textureLoads env path = false)
      \/ (e = ReferenceError "createFallbackMesh"
          /\ isStairBlock blockType = true
          /\ textureLoads env "textures/blocks/planks_spruce.png" = false)).
Proof.
  assert (Hk : forall key o',
            fst (cachedBlock env key blockType o' s) = Throw e ->
            blockCache (snd (cachedBlock env key blockType o' s)) = blockCache s
            /\ ((exists path, e = TextureLoadError path
                              /\ textureLoads env path = false)
                \/ (e = ReferenceError "createFallbackMesh"
                    /\ isStairBlock blockType = true
                    /\ textureLoads env "textures/blocks/planks_spruce.png"
                       = false))).
  { intros key o' H. destruct (cachedBlock_throw _ _ _ _ _ _ H) as (H1 & H2).
    split; [exact H1 | right; exact H2]. }
  assert (Ht : forall path (k : Texture -> Object3D),
            fst (bind (loadTexture env path) (fun t => ret (k t)) s) = Throw e ->
            blockCache (snd (bind (loadTexture env path) (fun t => ret (k t)) s))
            = blockCache s
            /\ ((exists path, e = TextureLoadError path
                              /\ textureLoads env path = false)
                \/ (e = ReferenceError "createFallbackMesh"
                    /\ isStairBlock blockType = true
                    /\ textureLoads env "textures/blocks/planks_spruce.png"
                       = false))).
  { intros path k. unfold bind, loadTexture, ret, throw.
    destruct (textureLoads env path) eqn:El; simpl; [intros Hd; discriminate Hd |].
    intros [= <-]. split; [reflexivity |]. left. exists path. auto. }
  unfold loadBlock.
  destruct (String.eqb blockType "cobweb" || String.eqb blockType "web" ||
            hasCategory env blockType "cross"); [apply Ht |].
  destruct (includes blockType "button"); [apply Ht |].
  destruct (isSlabBlock blockType); [apply Hk |].
  destruct (includes blockType "_trapdoor" || String.eqb blockType "trapdoor");
    [apply Hk |].
  destruct (includes blockType "lantern"); [apply Hk |].
  destruct ((includes blockType "_wall" || String.eqb blockType "wall" ||
             (includes blockType "_fence" && negb (includes blockType "gate")))
            && isSome (o_connections o)); [apply Hk |].
  destruct (String.eqb blockType "door" ||
            (endsWith blockType "_door" && negb (includes blockType "trapdoor")));
    [intros Hd; discriminate Hd |].
  unfold bind, cacheGet, rethrowing, tryCatch, loadTexture, cacheSet, ret,
    throw, clone.
  destruct (blockCache s !! blockType); [intros Hd; discriminate Hd |].
  destruct (includes blockType "concrete" || includes blockType "wool").
  - destruct (blockCache s !! _); [intros Hd; discriminate Hd |].
    destruct (textureLoads env
                (coloredTexturePath blockType (orDefault (o_color o) "white")))
      eqn:El; simpl; [intros Hd; discriminate Hd |].
    intros [= <-]. split; [reflexivity |]. left. eexists. split; [reflexivity |].
    exact El.
  - pose proof (createBlock_throw_keeps env blockType o s) as Hc.
    destruct (createBlock env blockType o s) as [[block | e'] s'].
    + destruct (isGroup block); intros Hd; discriminate Hd.
    + simpl in *. intros [= <-].
      destruct (Hc e' eq_refl) as (H1 & H2). split; [exact H1 | right; exact H2].
Qed.

End Failure.

(** X16. [loadBlock] fails in two ways only: with the load error of a
    texture that does not load (the cobweb, button and colored-block
    branches, which load their texture unguarded), or with the reference
    error raised in the handler of the stair builder when the stair texture
    is missing.  Every other failed build is replaced by a fallback inside
    the builders.  A failed request leaves the block cache as it was, so it
    is built again when repeated. *)
Theorem loadBlock_failure (env : Env) (blockType : string) (o : Options)
    (s : Store) (e : Error) :
  fst (TextureLoader.loadBlock env blockType o s) = Throw e ->
  blockCache (snd (TextureLoader.loadBlock env blockType o s)) = blockCache s
  /\ ((exists path, e = TextureLoadError path /\ textureLoads env path = false)
      \/ (e = ReferenceError "createFallbackMesh"
          /\ StairFactory.isStairBlock blockType = true
          /\ textureLoads env "textures/blocks/planks_spruce.png" = false)).
Proof. apply loadBlock_throw. Qed.

Lemma loadBlock_failure_witness :
  blockCache (snd (TextureLoader.loadBlock
                     (envWithout "textures/blocks/wool_colored_red.png")
                     "wool" (withColor "red") emptyStore))
  = blockCache emptyStore
  /\ ((exists path,
         TextureLoadError "textures/blocks/wool_colored_red.png"
         = TextureLoadError path
         /\ textureLoads (envWithout "textures/blocks/wool_colored_red.png") path
            = false)
      \/ (TextureLoadError "textures/blocks/wool_colored_red.png"
          = ReferenceError "createFallbackMesh"
          /\ StairFactory.isStairBlock "wool" = true
          /\ textureLoads (envWithout "textures/blocks/wool_colored_red.png")
               "textures/blocks/planks_spruce.png" = false)).
Proof.
  apply (loadBlock_failure (envWithout "textures/blocks/wool_colored_red.png")
           "wool" (withColor "red") emptyStore
           (TextureLoadError "textures/blocks/wool_colored_red.png")).
  vm_compute. reflexivity.
Defined.

Lemma loadTemplates_failures (env : Env) (gs : Main.Groups) (s : Store) :
  Forall (fun ke =>
            (exists path, snd ke = TextureLoadError path
                          /\ textureLoads env path = false)
            \/ (snd ke = ReferenceError "createFallbackMesh"
                /\ textureLoads env "textures/blocks/planks_spruce.png" = false))
         (Main.loggedFailures (fst (Main.loadTemplates env gs s))).
Proof.
  revert s. induction gs as [| [key group] gs IH]; intros s; [constructor |].
  cbn [Main.loadTemplates].
  pose proof (loadBlock_throw env (Main.g_type group) (Main.g_options group) s)
    as Hl.
  destruct (TextureLoader.loadBlock env (Main.g_type group)
              (Main.g_options group) s) as [r s1].
  specialize (IH s1).
  destruct (Main.loadTemplates env gs s1) as [settled s2].
  simpl in *. destruct r as [obj | e]; [exact IH |].
  constructor; [| exact IH]. simpl.
  destruct (Hl e eq_refl) as (_ & [Hp | (He & _ & Ht)]); [left; exact Hp |].
  right. auto.
Qed.

(** X17. Every failure that [init] writes to the console is the load
    error of a texture that does not load or the reference error of the
    stair builder with the stair texture missing; this holds for each load
    on its own, whatever the other loads have written.  When every texture
    loads, [init] logs no failure at all. *)
Theorem init_logged_failures (env : Env) (allBlocks : list Block) (s : Store) :
  Forall (fun ke =>
            (exists path, snd ke = TextureLoadError path
                          /\ textureLoads env path = false)
            \/ (snd ke = ReferenceError "createFallbackMesh"
                /\ textureLoads env "textures/blocks/planks_spruce.png" = false))
         (Main.consoleErrors (fst (Main.init env allBlocks s)))
  /\ ((forall path, textureLoads env path = true) ->
      Main.consoleErrors (fst (Main.init env allBlocks s)) = []).
Proof.
  assert (H : Forall (fun ke =>
            (exists path, snd ke = TextureLoadError path
                          /\ textureLoads env path = false)
            \/ (snd ke = ReferenceError "createFallbackMesh"
                /\ textureLoads env "textures/blocks/planks_spruce.png" = false))
         (Main.consoleErrors (fst (Main.init env allBlocks s)))).
  { unfold Main.init.
    pose proof (loadTemplates_failures env
                  (Main.instanceGroups (Main.renderedBlocks allBlocks)) s) as H.
    destruct (Main.loadTemplates env _ s) as [settled s']. exact H. }
  split; [exact H |].
  intros Hall.
  destruct (Main.consoleErrors (fst (Main.init env allBlocks s)))
    as [| ke rest]; [reflexivity |].
  inversion H as [| ? ? Hke _]; subst.
  destruct Hke as [(path & _ & Hp) | (_ & Hp)]; rewrite Hall in Hp; discriminate Hp.
Qed.

(** X18. The trapdoor branch of [loadBlock] keys its cache on the
    truthiness of [open], while the builder (and the grouping of main.js)
    take a trapdoor as open only for [true] and ['true'].  Two requests
    that differ only in [open] values of equal truthiness -- the string
    'false' and [true], say -- therefore share one cache entry: once the
    first has been built, the second is answered with the first one's
    template. *)
Theorem trapdoor_template_shared (env : Env) (blockType : string)
    (o : Options) (v1 v2 : JSVal) (s s1 : Store) (obj : Object3D) :
  servedAsTrapdoor env blockType = true ->
  TextureLoader.truthyVal v1 = TextureLoader.truthyVal v2 ->
  TextureLoader.loadBlock env blockType (withOpen v1 o) s = (Ok obj, s1) ->
  TextureLoader.loadBlock env blockType (withOpen v2 o) s1 = (Ok obj, s1).
Proof.
  unfold servedAsTrapdoor. intros Hs Hv.
  apply andb_true_iff in Hs as [Hs H4].
  apply andb_true_iff in Hs as [Hs H3].
  apply andb_true_iff in Hs as [H1 H2].
  apply negb_true_iff in H1, H2, H3.
  unfold TextureLoader.loadBlock. rewrite H1, H2, H3, H4.
  cbn [o_trapdoorState o_material withOpen].
  intros H. apply cachedBlock_stores in H.
  apply cachedBlock_hit.
  unfold TextureLoader.trapdoorCacheKey in *. cbn [ts_open ts_half ts_facing] in *.
  rewrite <- Hv. exact H.
Qed.

Lemma trapdoor_template_shared_witness :
  exists obj s1,
    TextureLoader.loadBlock (plainEnv 0) "oak_trapdoor"
      (withOpen (JStr "false") noOptions) emptyStore = (Ok obj, s1)
    /\ TextureLoader.loadBlock (plainEnv 0) "oak_trapdoor"
         (withOpen (JBool true) noOptions) s1 = (Ok obj, s1).
Proof.
  destruct (TextureLoader.loadBlock (plainEnv 0) "oak_trapdoor"
              (withOpen (JStr "false") noOptions) emptyStore)
    as [[obj | e] s1] eqn:E; [| vm_compute in E; discriminate E].
  exists obj, s1. split; [reflexivity |].
  apply (trapdoor_template_shared (plainEnv 0) "oak_trapdoor" noOptions
           (JStr "false") (JBool true) emptyStore s1 obj);
    [reflexivity | reflexivity | exact E].
Defined.

(** ** A missing face texture *)

Section MissingFace.
Import BlockFactory.

Lemma loadBlockTextures_blank (env : Env) (blockType cat : string) (s : Store) :
  cat = "tbs" \/ cat = "directional" ->
  facesLoad env blockType cat = false ->
  loadBlockTextures env blockType cat s = (Ok (uniformTextures CanvasTexture), s).
Proof.
  unfold facesLoad, loadBlockTextures, tryCatch, bind, loadTexture, ret, throw.
  intros [-> | ->]; cbn [String.eqb Ascii.eqb Bool.eqb];
    repeat match goal with
           | |- context [textureLoads env ?p] => destruct (textureLoads env p)
           end; simpl; intros H; try reflexivity; discriminate H.
Qed.

Lemma materialsFor_blank (cat blockType : string) (properties : Properties) :
  cat = "tbs" \/ cat = "directional" ->
  exists ms,
    materialsFor cat blockType (uniformTextures CanvasTexture) properties = Multi ms
    /\ Forall (fun m => mat_map m = None) ms.
Proof.
  unfold materialsFor, createMultiFaceMaterial, createDirectionalMaterial.
  intros [-> | ->]; cbn [String.eqb Ascii.eqb Bool.eqb];
    eexists; (split; [reflexivity |]);
    repeat constructor;
    repeat match goal with
           | |- context [if ?c then _ else _] => destruct c
           end; reflexivity.
Qed.

End MissingFace.

(** X19. An ordinary block of category 'tbs' or 'directional' with a face
    texture that does not load is built as a cube none of whose six
    materials has a texture: [loadBlockTextures] answers a failed load with
    the checkerboard in the [texture] entry only, and the material
    factories for these two categories read the entries of the faces.  The
    build itself succeeds, so neither the checkerboard nor the magenta
    fallback cube appears. *)
Theorem missing_face_blanks_block (env : Env) (blockType : string) (o : Options)
    (s : Store) :
  builtAsOrdinary blockType = true ->
  let cat := BlockFactory.categoryOf blockType
               (BlockFactory.propertiesOf env blockType) in
  cat = "tbs" \/ cat = "directional" ->
  facesLoad env blockType cat = false ->
  exists g ms s',
    BlockFactory.createBlock env blockType o s
    = (Ok (mesh blockType g (Multi ms)), s')
    /\ Forall (fun m => mat_map m = None) ms.
Proof.
  intros Hb cat Hc Hf. unfold builtAsOrdinary in Hb.
  repeat (apply andb_true_iff in Hb as [Hb ?]).
  repeat match goal with
         | H : negb _ = true |- _ => apply negb_true_iff in H
         end.
  unfold BlockFactory.createBlock.
  repeat match goal with
         | H : ?c = false |- context [if ?c then _ else _] => rewrite H
         end.
  fold cat. unfold tryCatch, bind.
  rewrite (loadBlockTextures_blank env blockType cat s Hc Hf).
  destruct (materialsFor_blank cat blockType
              (BlockFactory.propertiesOf env blockType) Hc) as (ms & Hm & Hall).
  rewrite Hm. unfold BlockFactory.getBlockGeometry, cached, ret.
  destruct (geometryCache s !! "block") as [g |]; simpl;
    eexists; exists ms; eexists; (split; [reflexivity | exact Hall]).
Qed.

Lemma missing_face_blanks_block_witness :
  exists g ms s',
    BlockFactory.createBlock
      (envWithCategory "grass_block" "tbs" "textures/blocks/grass_block_top.png")
      "grass_block" noOptions emptyStore
    = (Ok (mesh "grass_block" g (Multi ms)), s')
    /\ Forall (fun m => mat_map m = None) ms.
Proof.
  apply (missing_face_blanks_block
           (envWithCategory "grass_block" "tbs" "textures/blocks/grass_block_top.png")
           "grass_block" noOptions emptyStore);
    [reflexivity | left; reflexivity | reflexivity].
Defined.

(** ** Instancing *)

Lemma stairRotation_proper (facing half : string) :
  properRotation (Main.stairRotation facing half).
Proof.
  unfold Main.stairRotation.
  destruct (String.eqb facing "north"); destruct (String.eqb facing "south");
    destruct (String.eqb facing "west"); destruct (String.eqb facing "east");
    destruct (String.eqb half "top"); split; reflexivity.
Qed.

Lemma mapi_positions (key : string) (parts : list Object3D)
    (i : nat) (l : list Main.Position) :
  List.map Main.bg_position
    (SlabFactory.mapi
       (fun i pos => {| Main.bg_index := i; Main.bg_parts := parts;
                        Main.bg_position := pos |}) i l) = l.
Proof.
  revert i. induction l as [| p l IH]; intros i; simpl; [reflexivity |].
  rewrite IH. reflexivity.
Qed.

Lemma mapi_parts (parts : list Object3D) (P : list Object3D -> Prop)
    (i : nat) (l : list Main.Position) :
  P parts ->
  Forall (fun b => P (Main.bg_parts b))
    (SlabFactory.mapi
       (fun i pos => {| Main.bg_index := i; Main.bg_parts := parts;
                        Main.bg_position := pos |}) i l).
Proof.
  intros H. revert i. induction l as [| p l IH]; intros i; simpl; constructor;
    [exact H | apply IH].
Qed.

(** What one instancing step emits, whatever the template. *)
Lemma instantiate_shape (templateCache : gmap string Object3D)
    (key : string) (group : Main.InstanceGroup) :
  match Main.instantiate templateCache key group with
  | Main.EmitInstanced e =>
      List.map Main.translation e.(Main.entry_mesh).(Main.im_matrices)
      = group.(Main.g_positions)
      /\ Forall (fun m => properRotation m.(Main.rotation))
                e.(Main.entry_mesh).(Main.im_matrices)
  | Main.EmitContainer c =>
      List.map Main.bg_position c.(Main.c_blocks) = group.(Main.g_positions)
      /\ Forall (fun b => Forall (fun part => Main.isMesh part = true)
                                 b.(Main.bg_parts))
                c.(Main.c_blocks)
  | Main.EmitNothing => True
  end.
Proof.
  unfold Main.instantiate.
  destruct (templateCache !! Main.templateCacheKey key group)
    as [[name g m p r sc ud | name children p r | l p] |]; try exact I; simpl.
  - split.
    + rewrite List.map_map. simpl. apply List.map_id.
    + apply List.Forall_forall. intros mtx Hin.
      apply in_map_iff in Hin as (pos & <- & _). simpl.
      destruct (Main.isStairType (Main.g_type group));
        [apply stairRotation_proper | split; reflexivity].
  - split; [apply (mapi_positions key) |].
    apply (mapi_parts _ (fun parts => Forall (fun part => Main.isMesh part = true) parts)).
    apply List.Forall_forall. intros part Hin.
    apply filter_In in Hin as [_ H]. exact H.
Qed.

(** ** Templates are drawable *)

Lemma drawable_ret (o : Object3D) :
  drawable o = true -> answersDrawable (ret o).
Proof. intros H s. exact H. Qed.

Lemma drawable_throw (e : Error) : answersDrawable (throw e).
Proof. intros s. exact I. Qed.

Lemma drawable_bind {A} (c : M A) (k : A -> M Object3D) :
  (forall a, answersDrawable (k a)) -> answersDrawable (bind c k).
Proof.
  intros Hk s. unfold bind.
  destruct (c s) as [[a | e] s1]; [apply Hk | exact I].
Qed.

Lemma drawable_tryCatch (body : M Object3D) (handler : Error -> M Object3D) :
  answersDrawable body -> (forall e, answersDrawable (handler e)) ->
  answersDrawable (tryCatch body handler).
Proof.
  intros Hb Hh s. unfold tryCatch. specialize (Hb s).
  destruct (body s) as [[a | e] s1]; [exact Hb | apply Hh].
Qed.

Ltac drawable_step :=
  first [ apply drawable_ret; reflexivity
        | apply drawable_throw
        | apply drawable_tryCatch; [| intros ?]
        | apply drawable_bind; intros ?
        | match goal with
          | |- answersDrawable (if ?c then _ else _) => destruct c
          | |- answersDrawable (match ?c with _ => _ end) => destruct c
          end ].

Section Drawable.
Import SlabFactory StairFactory GrindstoneFactory BlockFactory TextureLoader.

(** Every builder answers a mesh or a group. *)
Lemma drawable_createBlock (env : Env) (blockType : string) (o : Options) :
  answersDrawable (createBlock env blockType o).
Proof.
  unfold createBlock, createChainBlock, createTorchBlock, createDoorBlock,
    createGrindstoneBlock, createBlockFallback, createSlabBlock,
    createStairBlock, createWallBlock, createFenceBlock, createTrapdoorBlock,
    createLanternBlock, createDoublePlantBlock, createPlantBlock,
    BlockFactory.createFallbackMesh, boxFallback, plantFallback.
  repeat drawable_step.
Qed.

Lemma keepsDrawable_quiet (c : M Object3D) :
  quiet c -> answersDrawable c -> keepsDrawable c.
Proof.
  intros Hq Hd s Hs. rewrite (Hq s). split; [exact Hs | apply Hd].
Qed.

Lemma DrawableCache_insert (s : Store) (key : string) (o : Object3D) :
  DrawableCache s -> drawable o = true ->
  DrawableCache (setBlockCache (<[key := o]> (blockCache s)) s).
Proof.
  intros Hs Ho k o'. simpl.
  destruct (decide (key = k)) as [<- | Hne].
  - rewrite lookup_insert_eq. intros [= <-]. exact Ho.
  - rewrite lookup_insert_ne by exact Hne. apply Hs.
Qed.

Lemma createBlock_drawable (env : Env) (blockType : string) (o : Options)
    (s : Store) :
  DrawableCache s ->
  DrawableCache (snd (createBlock env blockType o s))
  /\ match fst (createBlock env blockType o s) with
     | Ok r => drawable r = true
     | Throw _ => True
     end.
Proof.
  intros Hs. split; [| apply drawable_createBlock].
  intros k o'. rewrite (keeps_createBlock env blockType o s). apply Hs.
Qed.

Lemma cachedBlock_drawable (env : Env) (key blockType : string) (o : Options) :
  keepsDrawable (cachedBlock env key blockType o).
Proof.
  intros s Hs. unfold cachedBlock, bind, cacheGet.
  destruct (blockCache s !! key) as [o0 |] eqn:E.
  - simpl. split; [exact Hs | exact (Hs _ _ E)].
  - unfold rethrowing, tryCatch, bind, cacheSet, ret, throw, clone.
    destruct (createBlock_drawable env blockType o s Hs) as [Hs1 Hr].
    destruct (createBlock env blockType o s) as [[block | e] s1]; simpl in *.
    + split; [apply DrawableCache_insert; assumption | exact Hr].
    + split; [exact Hs1 | exact I].
Qed.

Lemma loadBlock_drawable (env : Env) (blockType : string) (o : Options) :
  keepsDrawable (loadBlock env blockType o).
Proof.
  unfold loadBlock.
  destruct (String.eqb blockType "cobweb" || String.eqb blockType "web" ||
            hasCategory env blockType "cross").
  { apply keepsDrawable_quiet; [repeat quiet_step | repeat drawable_step]. }
  destruct (includes blockType "button").
  { apply keepsDrawable_quiet; [repeat quiet_step | repeat drawable_step]. }
  destruct (isSlabBlock blockType); [apply cachedBlock_drawable |].
  destruct (includes blockType "_trapdoor" || String.eqb blockType "trapdoor");
    [apply cachedBlock_drawable |].
  destruct (includes blockType "lantern"); [apply cachedBlock_drawable |].
  destruct ((includes blockType "_wall" || String.eqb blockType "wall" ||
             (includes blockType "_fence" && negb (includes blockType "gate")))
            && isSome (o_connections o)); [apply cachedBlock_drawable |].
  destruct (String.eqb blockType "door" ||
            (endsWith blockType "_door" && negb (includes blockType "trapdoor"))).
  { apply keepsDrawable_quiet; [apply quiet_ret | repeat drawable_step]. }
  intros s Hs.
  unfold bind, cacheGet, rethrowing, tryCatch, loadTexture, cacheSet, ret,
    throw, clone.
  destruct (blockCache s !! blockType) as [o0 |] eqn:E0.
  { simpl. split; [exact Hs | exact (Hs _ _ E0)]. }
  destruct (includes blockType "concrete" || includes blockType "wool").
  - set (cacheKey := (blockType ++ "_" ++ orDefault (o_color o) "white")%string).
    destruct (blockCache s !! cacheKey) as [o1 |] eqn:E1.
    + simpl. split; [exact Hs | exact (Hs _ _ E1)].
    + destruct (textureLoads env _); simpl.
      * split; [apply DrawableCache_insert; [exact Hs |] |]; reflexivity.
      * split; [exact Hs | exact I].
  - destruct (createBlock_drawable env blockType o s Hs) as [Hs1 Hr].
    destruct (createBlock env blockType o s) as [[block | e] s1]; simpl in *.
    + destruct (isGroup block); simpl.
      * split; [exact Hs1 | exact Hr].
      * split; [apply DrawableCache_insert; assumption | exact Hr].
    + split; [exact Hs1 | exact I].
Qed.

End Drawable.

Section Drawing.
Import Main.

Lemma loadTemplates_drawable (env : Env) (gs : Groups) (s : Store) :
  DrawableCache s ->
  Forall (fun st : Settled =>
            match snd st with
            | Ok o => drawable o = true
            | Throw _ => True
            end)
         (fst (loadTemplates env gs s)).
Proof.
  revert s. induction gs as [| [key g] gs IH]; intros s Hs; simpl;
    [constructor |].
  destruct (loadBlock_drawable env (g_type g) (g_options g) s Hs) as [Hs1 Hr].
  destruct (TextureLoader.loadBlock env (g_type g) (g_options g) s) as [r s1].
  specialize (IH s1 Hs1).
  destruct (loadTemplates env gs s1) as [settled s2]. simpl in *.
  constructor; [exact Hr | exact IH].
Qed.

Lemma loadTemplates_keys (env : Env) (gs : Groups) (s : Store) :
  List.map fst (fst (loadTemplates env gs s))
  = List.map (fun kg => templateCacheKey (fst kg) (snd kg)) gs.
Proof.
  revert s. induction gs as [| [key g] gs IH]; intros s; simpl; [reflexivity |].
  destruct (TextureLoader.loadBlock env (g_type g) (g_options g) s) as [r s1].
  specialize (IH s1).
  destruct (loadTemplates env gs s1) as [settled s2]. simpl in *.
  rewrite IH. reflexivity.
Qed.

(** [templateCache] from any starting map. *)
Lemma templateCache_keeps (settled : list Settled) (m : gmap string Object3D)
    (k : string) :
  is_Some (m !! k) ->
  is_Some (fold_left (fun m '(k, r) =>
                        match r with
                        | Ok template => <[k := template]> m
                        | Throw _ => m
                        end) settled m !! k).
Proof.
  revert m. induction settled as [| [k' r] settled IH]; intros m H; simpl;
    [exact H |].
  apply IH. destruct r as [t |]; [| exact H].
  destruct (decide (k' = k)) as [<- | Hne].
  - rewrite lookup_insert_eq. eauto.
  - rewrite lookup_insert_ne by exact Hne. exact H.
Qed.

Lemma templateCache_Some (settled : list Settled) (m : gmap string Object3D)
    (k : string) (o : Object3D) :
  fold_left (fun m '(k, r) =>
               match r with
               | Ok template => <[k := template]> m
               | Throw _ => m
               end) settled m !! k = Some o ->
  m !! k = Some o \/ In (k, Ok o) settled.
Proof.
  revert m. induction settled as [| [k' r] settled IH]; intros m H; simpl in *;
    [left; exact H |].
  destruct (IH _ H) as [Hm | Hin]; [| right; right; exact Hin].
  destruct r as [t |]; [| left; exact Hm].
  destruct (decide (k' = k)) as [<- | Hne].
  - rewrite lookup_insert_eq in Hm. injection Hm as ->. right. left. reflexivity.
  - rewrite lookup_insert_ne in Hm by exact Hne. left. exact Hm.
Qed.

Lemma templateCache_None (settled : list Settled) (m : gmap string Object3D)
    (k : string) (r : Result Object3D) :
  fold_left (fun m '(k, r) =>
               match r with
               | Ok template => <[k := template]> m
               | Throw _ => m
               end) settled m !! k = None ->
  In (k, r) settled -> exists e, r = Throw e.
Proof.
  revert m. induction settled as [| [k' r'] settled IH]; intros m H Hin;
    [destruct Hin |].
  simpl in H. destruct Hin as [[= -> ->] | Hin]; [| exact (IH _ H Hin)].
  destruct r as [t | e]; [| eauto].
  exfalso.
  destruct (templateCache_keeps settled (<[k := t]> m) k) as [o Ho].
  { rewrite lookup_insert_eq. eauto. }
  rewrite Ho in H. discriminate H.
Qed.

Lemma loggedFailures_In (settled : list Settled) (k : string) (e : Error) :
  In (k, Throw e) settled -> In k (List.map fst (loggedFailures settled)).
Proof.
  intros H. apply in_map_iff. exists (k, e). split; [reflexivity |].
  unfold loggedFailures. apply in_flat_map. exists (k, Throw e).
  split; [exact H | left; reflexivity].
Qed.

Lemma loggedFailures_nil (settled : list Settled) (k : string)
    (r : Result Object3D) :
  loggedFailures settled = [] -> In (k, r) settled -> exists o, r = Ok o.
Proof.
  intros Hnil Hin. destruct r as [o | e]; [eauto |].
  apply loggedFailures_In in Hin. rewrite Hnil in Hin. destruct Hin.
Qed.

(** What one instancing step emits for a template that is there. *)
Lemma instantiate_drawn (tc : gmap string Object3D) (key : string)
    (g : InstanceGroup) (o : Object3D) :
  tc !! templateCacheKey key g = Some o -> drawable o = true ->
  (exists e, instantiate tc key g = EmitInstanced e
             /\ im_name (entry_mesh e) = key)
  \/ (exists c, instantiate tc key g = EmitContainer c
                /\ c_name c = "container_" ++ key).
Proof.
  intros H Hd. unfold instantiate. rewrite H.
  destruct o as [name geo mat p r sc ud | name children p r | l p];
    [left | right | discriminate Hd]; eexists; split; reflexivity.
Qed.

Lemma instantiate_instanced (tc : gmap string Object3D) (key : string)
    (g : InstanceGroup) (e : Entry) :
  instantiate tc key g = EmitInstanced e ->
  im_name (entry_mesh e) = key
  /\ List.map translation (im_matrices (entry_mesh e)) = g_positions g
  /\ Forall (fun m => properRotation (rotation m)) (im_matrices (entry_mesh e)).
Proof.
  intros H. pose proof (instantiate_shape tc key g) as Hs. rewrite H in Hs.
  split; [| exact Hs].
  unfold instantiate in H.
  destruct (tc !! templateCacheKey key g) as [[? ? ? ? ? ? ? | ? ? ? ? | ? ?] |];
    try discriminate H.
  injection H as <-. reflexivity.
Qed.

Lemma instantiate_container (tc : gmap string Object3D) (key : string)
    (g : InstanceGroup) (c : Container) :
  instantiate tc key g = EmitContainer c ->
  c_name c = "container_" ++ key
  /\ List.map bg_position (c_blocks c) = g_positions g
  /\ Forall (fun b => Forall (fun part => isMesh part = true) (bg_parts b))
            (c_blocks c).
Proof.
  intros H. pose proof (instantiate_shape tc key g) as Hs. rewrite H in Hs.
  split; [| exact Hs].
  unfold instantiate in H.
  destruct (tc !! templateCacheKey key g) as [[? ? ? ? ? ? ? | ? ? ? ? | ? ?] |];
    try discriminate H.
  injection H as <-. reflexivity.
Qed.

Lemma instancedOf_In (es : list Emitted) (e : Entry) :
  In e (instancedOf es) <-> In (EmitInstanced e) es.
Proof.
  unfold instancedOf. rewrite in_flat_map. split.
  - intros ([c | e' |] & Hin & He); simpl in He; try contradiction.
    destruct He as [-> | []]. exact Hin.
  - intros H. exists (EmitInstanced e). split; [exact H | left; reflexivity].
Qed.

Lemma containersOf_In (es : list Emitted) (c : Container) :
  In c (containersOf es) <-> In (EmitContainer c) es.
Proof.
  unfold containersOf. rewrite in_flat_map. split.
  - intros ([c' | e |] & Hin & He); simpl in He; try contradiction.
    destruct He as [-> | []]. exact Hin.
  - intros H. exists (EmitContainer c). split; [exact H | left; reflexivity].
Qed.

Lemma emitted_count (es : list Emitted) :
  Forall (fun e => e <> EmitNothing) es ->
  (length (instancedOf es) + length (containersOf es) = length es)%nat.
Proof.
  induction 1 as [| e es He _ IH]; [reflexivity |].
  unfold instancedOf, containersOf in *. cbn [flat_map].
  rewrite !length_app. destruct e; simpl; try lia. contradiction.
Qed.

Lemma sortInstanced_In (l : list Entry) (e : Entry) :
  In e (sortInstanced l) <-> In e l.
Proof.
  pose proof (sort_Permutation compareEntries l) as H. split.
  - apply Permutation_in. symmetry. exact H.
  - apply Permutation_in. exact H.
Qed.

End Drawing.

Lemma DrawableCache_empty : DrawableCache emptyStore.
Proof. intros k o H. simpl in H. rewrite lookup_empty in H. discriminate. Qed.

(** X20. [init] draws every group whose template loaded, once, at the
    listed positions, and nothing else.  With drawable objects in the block
    cache (it is empty when the page starts), every group of the grouping
    pass is in the scene -- as an instanced mesh named by its key or as a
    container of per-position block groups -- unless the load of a template
    under its cache key failed and was logged; every instanced mesh and
    every container of the scene belongs to a group and sits at the
    positions of that group; and when nothing was logged the scene holds
    exactly one instanced mesh or container per group.  (The builders
    answer meshes and groups only, so no template is passed over.) *)
Theorem init_draws_every_group (env : Env) (allBlocks : list Block) (s : Store) :
  DrawableCache s ->
  let groups := Main.instanceGroups (Main.renderedBlocks allBlocks) in
  let scene := fst (Main.init env allBlocks s) in
  (forall key g, In (key, g) groups ->
     drawn scene key g
     \/ In (Main.templateCacheKey key g)
           (List.map fst scene.(Main.consoleErrors)))
  /\ (forall e, In e scene.(Main.instanced) ->
        exists key g,
          In (key, g) groups
          /\ e.(Main.entry_mesh).(Main.im_name) = key
          /\ List.map Main.translation e.(Main.entry_mesh).(Main.im_matrices)
             = g.(Main.g_positions))
  /\ (forall c, In c scene.(Main.containers) ->
        exists key g,
          In (key, g) groups
          /\ c.(Main.c_name) = "container_" ++ key
          /\ List.map Main.bg_position c.(Main.c_blocks) = g.(Main.g_positions))
  /\ (scene.(Main.consoleErrors) = [] ->
      (length scene.(Main.instanced) + length scene.(Main.containers)
       = length groups)%nat).
Proof.
  intros Hs groups scene. subst scene. unfold Main.init. fold groups.
  pose proof (loadTemplates_drawable env groups s Hs) as Hd.
  pose proof (loadTemplates_keys env groups s) as Hk.
  destruct (Main.loadTemplates env groups s) as [settled s'].
  cbn [fst Main.containers Main.instanced Main.consoleErrors] in *.
  set (tc := Main.templateCacheOf settled).
  assert (Hcase : forall key g, In (key, g) groups ->
            (tc !! Main.templateCacheKey key g = None
             /\ In (Main.templateCacheKey key g)
                   (List.map fst (Main.loggedFailures settled)))
            \/ exists o, tc !! Main.templateCacheKey key g = Some o
                         /\ drawable o = true).
  { intros key g Hin.
    destruct (tc !! Main.templateCacheKey key g) as [o |] eqn:El.
    - right. exists o. split; [reflexivity |].
      apply templateCache_Some in El as [Hm | Hin'];
        [rewrite lookup_empty in Hm; discriminate Hm |].
      rewrite List.Forall_forall in Hd. exact (Hd _ Hin').
    - left. split; [reflexivity |].
      assert (Hin' : In (Main.templateCacheKey key g) (List.map fst settled)).
      { rewrite Hk. apply in_map_iff. exists (key, g). auto. }
      apply in_map_iff in Hin' as ([k r] & Hk' & Hin'). simpl in Hk'. subst k.
      destruct (templateCache_None _ _ _ _ El Hin') as [e ->].
      exact (loggedFailures_In _ _ _ Hin'). }
  assert (Hem : forall key g, In (key, g) groups ->
            In (Main.instantiate tc key g) (Main.emitted tc groups)).
  { intros key g Hin. unfold Main.emitted. apply in_map_iff.
    exists (key, g). auto. }
  split.
  { intros key g Hin.
    destruct (Hcase key g Hin) as [[_ He] | (o & Ho & Hdr)];
      [right; exact He | left].
    destruct (instantiate_drawn tc key g o Ho Hdr)
      as [(e & He & _) | (c & Hc & _)].
    - left. exists e.
      destruct (instantiate_instanced _ _ _ _ He) as (Hn & Ht & Hr).
      split; [| auto].
      apply sortInstanced_In, instancedOf_In. rewrite <- He. exact (Hem _ _ Hin).
    - right. exists c.
      destruct (instantiate_container _ _ _ _ Hc) as (Hn & Ht & Hr).
      split; [| auto].
      apply containersOf_In. rewrite <- Hc. exact (Hem _ _ Hin). }
  split.
  { intros e Hin. apply sortInstanced_In, instancedOf_In in Hin.
    unfold Main.emitted in Hin.
    apply in_map_iff in Hin as ([key g] & He & Hin).
    exists key, g.
    destruct (instantiate_instanced _ _ _ _ He) as (Hn & Ht & _). auto. }
  split.
  { intros c Hin. apply containersOf_In in Hin.
    unfold Main.emitted in Hin.
    apply in_map_iff in Hin as ([key g] & Hc & Hin).
    exists key, g.
    destruct (instantiate_container _ _ _ _ Hc) as (Hn & Ht & _). auto. }
  intros Herr. unfold Main.sortInstanced.
  rewrite <- (Permutation_length (sort_Permutation Main.compareEntries _)).
  rewrite emitted_count; [unfold Main.emitted; apply length_map |].
  apply List.Forall_forall. intros em Hin. unfold Main.emitted in Hin.
  apply in_map_iff in Hin as ([key g] & <- & Hin).
  destruct (Hcase key g Hin) as [[_ He] | (o & Ho & Hdr)].
  - rewrite Herr in He. destruct He.
  - destruct (instantiate_drawn tc key g o Ho Hdr)
      as [(e & -> & _) | (c & -> & _)]; discriminate.
Qed.

Lemma init_draws_every_group_witness :
  exists g,
    drawn (fst (Main.init (plainEnv 0) [plainBlock "stone" 128 0 27] emptyStore))
          "stone" g
    /\ g.(Main.g_positions) = [(0, 0, 0)].
Proof.
  pose proof (init_draws_every_group (plainEnv 0) [plainBlock "stone" 128 0 27]
                emptyStore DrawableCache_empty) as H.
  cbv zeta in H. destruct H as (H & _).
  eexists. split.
  - destruct (H "stone" _ (or_introl eq_refl)) as [Hd | He];
      [exact Hd | vm_compute in He; destruct He].
  - reflexivity.
Defined.

(** X21. [getTrapdoorRotation] never answers 0: the table entry of 'south'
    is 0, which the [||] of the lookup takes for a missing entry, so a
    trapdoor facing south gets the rotation of one facing north, as does
    any facing that is neither 'west' nor 'east' nor a name inherited from
    [Object.prototype].  Every number it returns is positive; for an
    inherited name ('constructor', 'toString', ...) it returns no number at
    all. *)
Theorem getTrapdoorRotation_south (facing : string) (isOpen : bool) :
  getTrapdoorRotation "south" isOpen = getTrapdoorRotation "north" isOpen
  /\ getTrapdoorRotation "north" isOpen
     = Radians (if isOpen then 3 # 2 else 1)%Q
  /\ (forall q : Q, getTrapdoorRotation facing isOpen = Radians q -> (0 < q)%Q)
  /\ (String.eqb facing "west" || String.eqb facing "east" = false ->
      existsb (String.eqb facing) objectPrototypeMembers = false ->
      getTrapdoorRotation facing isOpen = getTrapdoorRotation "north" isOpen)
  /\ (existsb (String.eqb facing) objectPrototypeMembers = true ->
      getTrapdoorRotation facing isOpen
      = if isOpen then MemberText facing else Member facing).
Proof.
  split; [reflexivity |].
  split; [destruct isOpen; reflexivity |].
  split; [| split].
  - unfold getTrapdoorRotation. intros q.
    destruct (String.eqb facing "north"); [| destruct (String.eqb facing "south");
      [| destruct (String.eqb facing "west"); [| destruct (String.eqb facing "east");
        [| destruct (existsb (String.eqb facing) objectPrototypeMembers)]]]];
      destruct isOpen; intros H; try discriminate H;
      injection H as <-; reflexivity.
  - unfold getTrapdoorRotation. intros Hwe Hm. rewrite Hm.
    destruct (String.eqb facing "north"); [reflexivity |].
    destruct (String.eqb facing "south"); [reflexivity |].
    destruct (String.eqb facing "west"); [discriminate Hwe |].
    destruct (String.eqb facing "east"); [discriminate Hwe |].
    reflexivity.
  - intros Hm. unfold getTrapdoorRotation.
    destruct (String.eqb facing "north") eqn:E1;
      [apply String.eqb_eq in E1; subst; discriminate Hm |].
    destruct (String.eqb facing "south") eqn:E2;
      [apply String.eqb_eq in E2; subst; discriminate Hm |].
    destruct (String.eqb facing "west") eqn:E3;
      [apply String.eqb_eq in E3; subst; discriminate Hm |].
    destruct (String.eqb facing "east") eqn:E4;
      [apply String.eqb_eq in E4; subst; discriminate Hm |].
    rewrite Hm. reflexivity.
Qed.

(** X22. The special-case table of the slab factory's [getBaseBlockType]
    never decides the result: every key of the table ends in '_slab', and a
    type that ends in '_slab' has returned before the table is read.  For a
    key of the table the base type is the key without '_slab'
    ('stone_brick' for 'stone_brick_slab'), not the table's entry
    ('stone_bricks'). *)
Theorem getBaseBlockType_table_unused (slabType base : string) :
  SlabFactory.lookupTable (stripWaxedPrefix slabType) SlabFactory.specialCases
  = Some base ->
  SlabFactory.getBaseBlockType slabType
  = replaceFirst ["_slab"] "" (stripWaxedPrefix slabType).
Proof.
  unfold SlabFactory.getBaseBlockType.
  generalize (stripWaxedPrefix slabType) as t. intros t H.
  assert (He : endsWith t "_slab" = true).
  { revert H. unfold SlabFactory.specialCases. cbn [SlabFactory.lookupTable].
    repeat (destruct (String.eqb t _) eqn:E;
            [apply String.eqb_eq in E; subst t; reflexivity | clear E]).
    discriminate. }
  rewrite He. reflexivity.
Qed.

Lemma getBaseBlockType_table_unused_witness :
  SlabFactory.getBaseBlockType "stone_brick_slab" = "stone_brick".
Proof.
  apply (getBaseBlockType_table_unused "stone_brick_slab" "stone_bricks").
  reflexivity.
Defined.

Section CacheEntries.
Import SlabFactory BlockFactory TextureLoader.

Lemma insert_miss_keeps (c : gmap string Object3D) (key key' : string)
    (o0 block : Object3D) :
  c !! key' = None -> c !! key = Some o0 ->
  <[key' := block]> c !! key = Some o0.
Proof.
  intros Hm Hk. destruct (decide (key' = key)) as [-> | Hne]; [congruence |].
  rewrite lookup_insert_ne by exact Hne. exact Hk.
Qed.

Lemma cachedBlock_keeps_entries (env : Env) (key' blockType : string)
    (o : Options) (s : Store) (key : string) (o0 : Object3D) :
  blockCache s !! key = Some o0 ->
  blockCache (snd (cachedBlock env key' blockType o s)) !! key = Some o0.
Proof.
  intros Hk. unfold cachedBlock, bind, cacheGet, rethrowing, tryCatch,
    cacheSet, ret, throw, clone.
  destruct (blockCache s !! key') eqn:Em; [exact Hk |].
  pose proof (keeps_createBlock env blockType o s) as Hc.
  destruct (createBlock env blockType o s) as [[block | e] s']; simpl in *.
  - apply insert_miss_keeps; rewrite Hc; assumption.
  - rewrite Hc. exact Hk.
Qed.

End CacheEntries.

(** X23. [loadBlock] never removes or replaces an entry of the block
    cache: whatever is requested, and whether the request succeeds or
    fails, every template that was in the cache before is still there
    afterwards under the same key. *)
Theorem loadBlock_keeps_entries (env : Env) (blockType : string) (o : Options)
    (s : Store) (key : string) (o0 : Object3D) :
  blockCache s !! key = Some o0 ->
  blockCache (snd (TextureLoader.loadBlock env blockType o s)) !! key = Some o0.
Proof.
  intros Hk. unfold TextureLoader.loadBlock.
  assert (Hq : forall c : M Object3D, quiet c ->
            blockCache (snd (c s)) !! key = Some o0).
  { intros c H. rewrite (H s). exact Hk. }
  destruct (String.eqb blockType "cobweb" || String.eqb blockType "web" ||
            TextureLoader.hasCategory env blockType "cross");
    [apply Hq; repeat quiet_step |].
  destruct (includes blockType "button"); [apply Hq; repeat quiet_step |].
  destruct (SlabFactory.isSlabBlock blockType);
    [apply cachedBlock_keeps_entries, Hk |].
  destruct (includes blockType "_trapdoor" || String.eqb blockType "trapdoor");
    [apply cachedBlock_keeps_entries, Hk |].
  destruct (includes blockType "lantern");
    [apply cachedBlock_keeps_entries, Hk |].
  destruct ((includes blockType "_wall" || String.eqb blockType "wall" ||
             (includes blockType "_fence" && negb (includes blockType "gate")))
            && SlabFactory.isSome (o_connections o));
    [apply cachedBlock_keeps_entries, Hk |].
  destruct (String.eqb blockType "door" ||
            (endsWith blockType "_door" && negb (includes blockType "trapdoor")));
    [exact Hk |].
  unfold bind, TextureLoader.cacheGet, TextureLoader.rethrowing, tryCatch,
    loadTexture, TextureLoader.cacheSet, ret, throw, TextureLoader.clone.
  destruct (blockCache s !! blockType) eqn:E0; [exact Hk |].
  destruct (includes blockType "concrete" || includes blockType "wool").
  - destruct (blockCache s !! (blockType ++ "_" ++ orDefault (o_color o) "white"))
      eqn:E1; [exact Hk |].
    destruct (textureLoads env
                (BlockFactory.coloredTexturePath blockType
                   (orDefault (o_color o) "white"))); simpl; [| exact Hk].
    apply insert_miss_keeps; assumption.
  - pose proof (keeps_createBlock env blockType o s) as Hc.
    destruct (BlockFactory.createBlock env blockType o s) as [[block | e] s'];
      simpl in *; [| rewrite Hc; exact Hk].
    destruct (isGroup block); simpl; [rewrite Hc; exact Hk |].
    apply insert_miss_keeps; rewrite Hc; assumption.
Qed.

Lemma loadBlock_keeps_entries_witness :
  blockCache
    (snd (TextureLoader.loadBlock (plainEnv 0) "stone" noOptions
            (setBlockCache (<["dirt" := mesh "dirt" emptyGeometry (Multi [])]> ∅)
               emptyStore)))
  !! "dirt" = Some (mesh "dirt" emptyGeometry (Multi [])).
Proof.
  apply (loadBlock_keeps_entries (plainEnv 0) "stone" noOptions
           (setBlockCache (<["dirt" := mesh "dirt" emptyGeometry (Multi [])]> ∅)
              emptyStore)
           "dirt" (mesh "dirt" emptyGeometry (Multi []))).
  apply lookup_insert_eq.
Defined.

(** ** A double plant at the upper render bound *)

(** X24. The render filter of [init] looks at each record on its own.
    When the bottom record of a double plant passes it, the synthesized
    top record passes it too unless the plant stands on the top layer
    (y = 189): there the top record, at y = 190, is dropped and only the
    lower half of the plant is drawn. *)
Theorem double_plant_top_clipped (b : Block) :
  Main.withinRenderRange (WorldLoader.doublePlantBottom b) = true ->
  Main.withinRenderRange (WorldLoader.doublePlantTop b) = negb (b.(y) =? 189).
Proof.
  intros H. apply withinRenderRange_iff in H.
  change (y (WorldLoader.doublePlantBottom b)) with (y b) in H.
  change (x (WorldLoader.doublePlantBottom b)) with (x b) in H.
  change (z (WorldLoader.doublePlantBottom b)) with (z b) in H.
  destruct (Main.withinRenderRange (WorldLoader.doublePlantTop b)) eqn:E.
  - apply withinRenderRange_iff in E.
    change (y (WorldLoader.doublePlantTop b)) with (y b + 1) in E.
    symmetry. apply negb_true_iff, Z.eqb_neq. lia.
  - symmetry. apply negb_false_iff, Z.eqb_eq.
    destruct (Z.eq_dec (y b) 189) as [Hy | Hy]; [exact Hy |].
    assert (Ht : Main.withinRenderRange (WorldLoader.doublePlantTop b) = true).
    { apply withinRenderRange_iff.
      change (y (WorldLoader.doublePlantTop b)) with (y b + 1).
      change (x (WorldLoader.doublePlantTop b)) with (x b).
      change (z (WorldLoader.doublePlantTop b)) with (z b).
      lia. }
    congruence.
Qed.

Lemma double_plant_top_clipped_witness :
  Main.withinRenderRange
    (WorldLoader.doublePlantTop (plainBlock "double_plant_grass" 128 189 27))
  = false.
Proof.
  apply (double_plant_top_clipped (plainBlock "double_plant_grass" 128 189 27)).
  reflexivity.
Defined.
